(** * trello-board-helper: a shallow embedding of [src/trello.py]

    The script talks to one Trello board over HTTP.  Its pure part (card-name
    parsing, id resolution, the weekly header, the report template) is
    embedded as functions; its effectful part (HTTP requests and [print]) is
    embedded in a small state-and-exception monad over an event log, the
    remote board being an arbitrary function from the log and a request to a
    response. *)

From Stdlib Require Import String Ascii DecimalString.
From Stdlib Require Import ZArith NArith Bool Lia List.
Import ListNotations.

Set Implicit Arguments.

(** ** Python values used by the script *)

(** Exceptions the modelled code can raise. *)
Inductive exn : Type :=
| IndexError
| TypeError
| ValueError
| KeyError
| OverflowError.

(** The outcome of evaluating an expression: a value or a raised exception. *)
Inductive result (A : Type) : Type :=
| Ok (a : A)
| Raise (e : exn).

Arguments Ok {A} a.
Arguments Raise {A} e.

Definition rbind {A B} (r : result A) (k : A -> result B) : result B :=
  match r with
  | Ok a => k a
  | Raise e => Raise e
  end.

(** [mapr f l] is the comprehension [tuple(f(x) for x in l)]: the first
    exception aborts it. *)
Fixpoint mapr {A B} (f : A -> result B) (l : list A) : result (list B) :=
  match l with
  | [] => Ok []
  | x :: l' =>
      rbind (f x) (fun y => rbind (mapr f l') (fun ys => Ok (y :: ys)))
  end.

Module PyStr.

(** A Python [str] is a sequence of Unicode code points. *)
Definition char := N.
Definition str := list char.

(** [u "abc"] is the [str] of an ASCII literal. *)
Definition u (s : string) : str := map N_of_ascii (list_ascii_of_string s).

(** [a == b] on strings. *)
Fixpoint str_eqb (a b : str) : bool :=
  match a, b with
  | [], [] => true
  | x :: a', y :: b' => N.eqb x y && str_eqb a' b'
  | _, _ => false
  end.

(** [not s] for a string: true on the empty string only. *)
Definition is_empty (s : str) : bool :=
  match s with
  | [] => true
  | _ :: _ => false
  end.

Open Scope N_scope.

(** [str.isspace] on one code point (Unicode 14, the table of CPython 3.11). *)
Definition whitespace : list N :=
  [9; 10; 11; 12; 13; 28; 29; 30; 31; 32; 133; 160; 5760;
   8192; 8193; 8194; 8195; 8196; 8197; 8198; 8199; 8200; 8201; 8202;
   8232; 8233; 8239; 8287; 12288].

Definition isspace (c : char) : bool := existsb (N.eqb c) whitespace.

(** [s.split()]: maximal runs of non-whitespace code points, in order.
    [tok] is the run being read. *)
Fixpoint split_from (tok s : str) : list str :=
  match s with
  | [] => if is_empty tok then [] else [tok]
  | c :: s' =>
      if isspace c
      then (if is_empty tok then split_from [] s' else tok :: split_from [] s')
      else split_from (tok ++ [c]) s'
  end.

Definition py_split (s : str) : list str := split_from [] s.

(** The code points with decimal value zero (Unicode 14): each starts a run
    of ten decimal digits. *)
Definition decimal_zeros : list N :=
  [48; 1632; 1776; 1984; 2406; 2534; 2662; 2790; 2918; 3046; 3174; 3302;
   3430; 3558; 3664; 3792; 3872; 4160; 4240; 6112; 6160; 6470; 6608; 6784;
   6800; 6992; 7088; 7232; 7248; 42528; 43216; 43264; 43472; 43504; 43600;
   44016; 65296; 66720; 68912; 69734; 69872; 69942; 70096; 70384; 70736;
   70864; 71248; 71360; 71472; 71904; 72016; 72784; 73040; 73120; 92768;
   92864; 93008; 120782; 120792; 120802; 120812; 120822; 123200; 123632;
   125264; 130032].

(** The decimal value of a code point, if it is a decimal digit. *)
Definition to_decimal (c : char) : option Z :=
  match find (fun z => (z <=? c) && (c <=? z + 9)) decimal_zeros with
  | Some z => Some (Z.of_N (c - z))
  | None => None
  end.

(** The blanks [int] skips around a literal: ASCII code points are tested
    with the C locale's [isspace], the others with [str.isspace]. *)
Definition int_isspace (c : char) : bool :=
  if c <? 127
  then existsb (N.eqb c) [9; 10; 11; 12; 13; 32]
  else isspace c.

Fixpoint lstrip (s : str) : str :=
  match s with
  | [] => []
  | c :: s' => if int_isspace c then lstrip s' else s
  end.

Definition strip (s : str) : str := rev (lstrip (rev (lstrip s))).

Close Scope N_scope.
Open Scope Z_scope.

(** Digits with single underscores between them.  [prev_us] says that the
    previous code point was an underscore (or that nothing was read yet);
    the result is the value and the number of digits. *)
Fixpoint scan_digits (s : str) (prev_us : bool) (acc digits : Z)
  : option (Z * Z) :=
  match s with
  | [] => if prev_us then None else Some (acc, digits)
  | c :: s' =>
      if N.eqb c 95
      then (if prev_us then None else scan_digits s' true acc digits)
      else match to_decimal c with
           | Some d => scan_digits s' false (10 * acc + d) (digits + 1)
           | None => None
           end
  end.

(** [sys.int_max_str_digits] and the length below which it is not checked. *)
Definition int_max_str_digits : Z := 4300.
Definition str_digits_check_threshold : Z := 640.

(** [int(s)] for a string [s], base ten. *)
Definition py_int (s : str) : result Z :=
  let body := strip s in
  let '(negative, digits) :=
    match body with
    | 43%N :: r => (false, r)
    | 45%N :: r => (true, r)
    | _ => (false, body)
    end in
  match scan_digits digits true 0 0 with
  | None => Raise ValueError
  | Some (v, n) =>
      if (str_digits_check_threshold <? n) && (0 <? int_max_str_digits)
         && (int_max_str_digits <? n)
      then Raise ValueError
      else Ok (if negative then - v else v)
  end.

(** The decimal numeral of an integer [z], with a minus sign when [z] is
    negative. *)
Definition decimal (z : Z) : str := u (NilZero.string_of_int (Z.to_int z)).

(** [str(z)] for an integer [z], which is also what [f'{z}'] gives: the
    numeral, unless it has more than [sys.int_max_str_digits] digits. *)
Definition py_str (z : Z) : result str :=
  let text := decimal z in
  let strlen := Z.of_nat (length text) in
  let negative := if z <? 0 then 1 else 0 in
  if (str_digits_check_threshold <? strlen) && (0 <? int_max_str_digits)
     && (int_max_str_digits <? strlen - negative)
  then Raise ValueError
  else Ok text.

(** [l[i]] for a list and an integer index, negative indices counting from
    the end. *)
Definition getitem {A} (l : list A) (i : Z) : result A :=
  let n := Z.of_nat (length l) in
  let j := if i <? 0 then i + n else i in
  if (j <? 0) || (n <=? j) then Raise IndexError
  else match nth_error l (Z.to_nat j) with
       | Some x => Ok x
       | None => Raise IndexError
       end.

(** [l[1:]]. *)
Definition from1 {A} (l : list A) : list A := tl l.

(** [l[start:]] for a start that is not negative. *)
Definition slice_from {A} (start : nat) (l : list A) : list A := skipn start l.

(** [l.remove(x)]: drops the first item equal to [x], [ValueError] when
    there is none. *)
Fixpoint list_remove (x : str) (l : list str) : result (list str) :=
  match l with
  | [] => Raise ValueError
  | y :: l' =>
      if str_eqb y x then Ok l'
      else rbind (list_remove x l') (fun r => Ok (y :: r))
  end.

(** [''.join(l)]. *)
Definition join (l : list str) : str := concat l.

Definition nl : str := [10%N].

End PyStr.
Import PyStr.

(** ** The part of [datetime] that [get_week] uses

    A date is represented by its proleptic Gregorian ordinal
    ([date.toordinal()], day 1 being 0001-01-01); the time of day plays no
    part in [get_week].  The conversions follow CPython's [datetime]. *)
Module PyDate.

Open Scope Z_scope.

Definition MAXORDINAL : Z := 3652059.

Definition is_leap (year : Z) : bool :=
  (year mod 4 =? 0) && (negb (year mod 100 =? 0) || (year mod 400 =? 0)).

Definition days_before_year (year : Z) : Z :=
  let y := year - 1 in y * 365 + y / 4 - y / 100 + y / 400.

Definition DAYS_IN_MONTH : list Z :=
  [-1; 31; 28; 31; 30; 31; 30; 31; 31; 30; 31; 30; 31].

Definition DAYS_BEFORE_MONTH : list Z :=
  [-1; 0; 31; 59; 90; 120; 151; 181; 212; 243; 273; 304; 334].

Definition days_before_month (year month : Z) : Z :=
  nth (Z.to_nat month) DAYS_BEFORE_MONTH 0
  + (if (2 <? month) && is_leap year then 1 else 0).

Definition ymd2ord (year month day : Z) : Z :=
  days_before_year year + days_before_month year month + day.

Definition DI400Y : Z := 146097.
Definition DI100Y : Z := 36524.
Definition DI4Y : Z := 1461.

(** [date.fromordinal(n)] as (year, month, day). *)
Definition ord2ymd (n : Z) : Z * Z * Z :=
  let n := n - 1 in
  let n400 := n / DI400Y in
  let n := n mod DI400Y in
  let year := n400 * 400 + 1 in
  let n100 := n / DI100Y in
  let n := n mod DI100Y in
  let n4 := n / DI4Y in
  let n := n mod DI4Y in
  let n1 := n / 365 in
  let n := n mod 365 in
  let year := year + n100 * 100 + n4 * 4 + n1 in
  if (n1 =? 4) || (n100 =? 4) then (year - 1, 12, 31)
  else
    let leapyear := (n1 =? 3) && (negb (n4 =? 24) || (n100 =? 3)) in
    let month := Z.shiftr (n + 50) 5 in
    let preceding :=
      nth (Z.to_nat month) DAYS_BEFORE_MONTH 0
      + (if (2 <? month) && leapyear then 1 else 0) in
    if n <? preceding
    then
      let month := month - 1 in
      let preceding :=
        preceding - (nth (Z.to_nat month) DAYS_IN_MONTH 0
                     + (if (month =? 2) && leapyear then 1 else 0)) in
      (year, month, n - preceding + 1)
    else (year, month, n - preceding + 1).

(** [d.weekday()]: Monday is 0, Sunday is 6. *)
Definition weekday (d : Z) : Z := (d + 6) mod 7.

(** [d + timedelta(days=n)]; [d - timedelta(days=n)] is [add_days d (- n)]. *)
Definition add_days (d n : Z) : result Z :=
  let o := d + n in
  if (0 <? o) && (o <=? MAXORDINAL) then Ok o else Raise OverflowError.

(** Two decimal digits, as [%d] and [%m] print them. *)
Definition two_digits (n : Z) : str :=
  [Z.to_N (48 + n / 10); Z.to_N (48 + n mod 10)].

(** [d.strftime('%d.%m.%Y')]; the year is printed as the C library does,
    without padding. *)
Definition strftime_dmY (d : Z) : str :=
  let '(year, month, day) := ord2ymd d in
  two_digits day ++ u "." ++ two_digits month ++ u "." ++ decimal year.

End PyDate.
Import PyDate.

(** ** Cards, tickets and the board snapshot *)

(** A card as the board returns it with [fields=name]. *)
Record card : Type := {
  card_id : str;
  card_name : str
}.

(** A parsed ticket: the dictionary with keys ['id'], ['name'] and
    ['story points']; all three values are strings. *)
Record ticket : Type := {
  ticket_id : str;
  ticket_name : str;
  story_points : str
}.

(** [self.tickets]: list title to fetched tickets, in insertion order;
    [None] stands for a list whose fetch failed. *)
Definition tickets_dict := list (str * option (list ticket)).

(** [d[key]]. *)
Fixpoint dict_get {V} (d : list (str * V)) (key : str) : result V :=
  match d with
  | [] => Raise KeyError
  | (k, v) :: d' => if str_eqb k key then Ok v else dict_get d' key
  end.

Definition dict_keys {V} (d : list (str * V)) : list str := map fst d.
Definition dict_values {V} (d : list (str * V)) : list V := map snd d.

(** Iterating or subscripting a fetched list: [None] is neither iterable
    nor subscriptable. *)
Definition iter_tickets (v : option (list ticket)) : result (list ticket) :=
  match v with
  | Some ts => Ok ts
  | None => Raise TypeError
  end.

(** [parse_card_name], lines 87-113. *)
Definition parse_card_name (c : card) : result ticket :=
  if is_empty (card_name c)
  then Ok {| ticket_id := []; ticket_name := []; story_points := u "0" |}
  else
    let cards_name := py_split (card_name c) in
    rbind
      (if (1 <? Z.of_nat (length cards_name))%Z
       then
         rbind (getitem cards_name (-1)) (fun last =>
         match py_int last with
         | Raise ValueError => Ok (u "0")
         | Raise e => Raise e
         | Ok _ => getitem cards_name (-1)
         end)
       else Ok (u "0"))
      (fun points =>
         rbind (getitem cards_name 0) (fun first =>
         Ok {| ticket_id := card_id c;
               ticket_name := first;
               story_points := points |})).

(** The loop [for card in chain( *self.tickets.values()): if p(card): ...]
    up to its first hit: the lists are walked in order, and reaching a list
    that is [None] raises [TypeError]. *)
Fixpoint chain_find (p : ticket -> bool) (vals : list (option (list ticket)))
  : result (option ticket) :=
  match vals with
  | [] => Ok None
  | None :: _ => Raise TypeError
  | Some ts :: rest =>
      match find p ts with
      | Some t => Ok (Some t)
      | None => chain_find p rest
      end
  end.

(** [get_card_id], lines 327-334. *)
Definition get_card_id (tickets : tickets_dict) (name : str) : result str :=
  rbind (chain_find (fun c => str_eqb (ticket_name c) name)
                    (dict_values tickets))
        (fun hit => match hit with
                    | Some c => Ok (ticket_id c)
                    | None => Ok []
                    end).

(** The label ["<name> - <story points>"] used for comments and moves. *)
Definition label (t : ticket) : str :=
  ticket_name t ++ u " - " ++ story_points t.

(** Lines 142-153 of [move_card]: the name under which the card is deleted
    and created again. *)
Definition move_card_name (tickets : tickets_dict) (full_card_name : str)
  : result str :=
  rbind (get_card_id tickets full_card_name) (fun cid =>
  if negb (is_empty cid)
  then
    rbind (chain_find (fun c => str_eqb (ticket_id c) cid)
                      (dict_values tickets))
          (fun hit => match hit with
                      | Some c => Ok (label c)
                      | None => Ok full_card_name
                      end)
  else getitem (py_split full_card_name) 0).

(** [a or b] on integers. *)
Definition or_int (a b : Z) : Z := if (a =? 0)%Z then b else a.

(** The first word of the header: the Russian word for week, written
    [Неделя], as its six code points. *)
Definition week_word : str := [1053; 1077; 1076; 1077; 1083; 1103]%N.

(** [get_week], lines 191-204, for a given [datetime.today()]. *)
Definition get_week (today : Z) : result str :=
  let diff := or_int (weekday today) 7 in
  rbind (add_days today (- diff)) (fun monday =>
  rbind (add_days monday 4) (fun friday =>
  Ok (week_word ++ u " " ++ strftime_dmY monday ++ u " - "
      ++ strftime_dmY friday))).

(** ** The remote board and the event log *)

Inductive http_method : Type := GET | POST | PUT | DELETE.

(** A call of [requests.get], [.post], [.put] or [.delete]: the URL and the
    form field sent as [data], if any. *)
Record request : Type := {
  meth : http_method;
  url : str;
  data : option (str * str)
}.

Record response : Type := {
  status_code : Z;
  json : list card
}.

(** What a run does to the outside: requests, with the status they got, and
    lines printed. *)
Inductive event : Type :=
| Sent (r : request) (status : Z)
| Printed (line : str).

(** Constants of the script whose values are not part of the sources. *)
Record config : Type := {
  API_KEY : str;
  API_TOKEN : str;
  URL : str;
  JIRA_URL : str;
  IN_PROGRESS_LIST_ID : str;
  WAITING_LIST_ID : str;
  TESTING_LIST_ID : str;
  DONE_LIST_ID : str;
  ALL_DONE_TICKETS_CARD_ID : str
}.

(** A computation that may send requests, print and raise: it extends the
    log and ends with a value or an exception. *)
Definition M (A : Type) : Type := list event -> result A * list event.

Definition ret {A} (a : A) : M A := fun log => (Ok a, log).

Definition raise {A} (e : exn) : M A := fun log => (Raise e, log).

Definition bind {A B} (m : M A) (k : A -> M B) : M B :=
  fun log =>
    match m log with
    | (Ok a, log') => k a log'
    | (Raise e, log') => (Raise e, log')
    end.

Definition lift {A} (r : result A) : M A := fun log => (r, log).

Definition print (line : str) : M unit :=
  fun log => (Ok tt, log ++ [Printed line]).

Notation "x <- m ;; k" := (bind m (fun x => k))
  (at level 61, m at next level, right associativity).
Notation "m ;;; k" := (bind m (fun _ => k))
  (at level 61, right associativity).

Module TrelloAPI.

Section Board.

(** The board answers a request knowing everything that happened before. *)
Variable remote : list event -> request -> response.
Variable cfg : config.

Definition CREDENTIALS : str :=
  u "key=" ++ API_KEY cfg ++ u "&token=" ++ API_TOKEN cfg.

Definition send (r : request) : M response :=
  fun log =>
    let resp := remote log r in
    (Ok resp, log ++ [Sent r (status_code resp)]).

(** The message printed when a list cannot be fetched. *)
Definition fetch_failed : str := u "Could not get list of done tickets".

(** The five requests of the script, as it spells them. *)
Definition list_cards_request (list_id : str) : request :=
  {| meth := GET;
     url := URL cfg ++ u "lists/" ++ list_id ++ u "/cards?fields=name&"
            ++ CREDENTIALS;
     data := None |}.

Definition delete_request (cid : str) : request :=
  {| meth := DELETE;
     url := URL cfg ++ u "/cards/" ++ cid ++ u "?" ++ CREDENTIALS;
     data := None |}.

Definition create_request (list_id name : str) : request :=
  {| meth := POST;
     url := URL cfg ++ u "lists/" ++ list_id ++ u "/cards?" ++ CREDENTIALS;
     data := Some (u "name", name) |}.

Definition update_request (cid new_name : str) : request :=
  {| meth := PUT;
     url := URL cfg ++ u "cards/" ++ cid ++ u "?" ++ CREDENTIALS;
     data := Some (u "name", new_name) |}.

Definition comment_request (text : str) : request :=
  {| meth := POST;
     url := URL cfg ++ u "cards/" ++ ALL_DONE_TICKETS_CARD_ID cfg
            ++ u "/actions/comments?" ++ CREDENTIALS;
     data := Some (u "text", text) |}.

(** [get_list_cards], lines 26-42. *)
Definition get_list_cards (list_id : str) : M (option (list ticket)) :=
  resp <- send (list_cards_request list_id) ;;
  if negb (status_code resp =? 200)%Z
  then print fetch_failed ;;; ret None
  else ts <- lift (mapr parse_card_name (json resp)) ;; ret (Some ts).

(** [get_tickets_information], lines 178-189. *)
Definition get_tickets_information : M tickets_dict :=
  in_progress <- get_list_cards (IN_PROGRESS_LIST_ID cfg) ;;
  waiting <- get_list_cards (WAITING_LIST_ID cfg) ;;
  testing <- get_list_cards (TESTING_LIST_ID cfg) ;;
  done <- get_list_cards (DONE_LIST_ID cfg) ;;
  ret [(u "In progress", in_progress);
       (u "Waiting for customer", waiting);
       (u "Testing", testing);
       (u "Done", done)].

(** [for x in l: body(x)] for a body without [break] or [return]. *)
Fixpoint for_each {A} (l : list A) (body : A -> M unit) : M unit :=
  match l with
  | [] => ret tt
  | x :: l' => body x ;;; for_each l' body
  end.

(** [show_list_tickets], lines 68-85. *)
Definition show_list_tickets (tickets : tickets_dict) (list_name : str)
  : M unit :=
  if negb (existsb (str_eqb list_name)
             [u "In progress"; u "Waiting for customer"; u "Testing";
              u "Done"])
  then print (u "List " ++ list_name ++ u " not found on current board")
  else
    print list_name ;;;
    start <- (if str_eqb list_name (u "Done")
              then print (u "  - All - contains list of all done tickets")
                   ;;; ret 1%nat
              else ret 0%nat) ;;
    entry <- lift (dict_get tickets list_name) ;;
    ts <- lift (iter_tickets entry) ;;
    for_each (slice_from start ts) (fun t =>
      print (u "  - " ++ ticket_name t ++ u " - " ++ story_points t
             ++ u " points")).

(** [show_board], lines 44-49. *)
Definition show_board (tickets : tickets_dict) : M unit :=
  print (u "Hotels board" ++ nl) ;;;
  for_each (dict_keys tickets) (show_list_tickets tickets).

(** [get_list_id], lines 336-349. *)
Definition get_list_id (list_name : str) : str :=
  if str_eqb list_name (u "In progress") then IN_PROGRESS_LIST_ID cfg
  else if str_eqb list_name (u "Testing") then TESTING_LIST_ID cfg
  else if str_eqb list_name (u "Waiting for customer") then WAITING_LIST_ID cfg
  else if str_eqb list_name (u "Done") then DONE_LIST_ID cfg
  else [].

(** [self.get_card_id(name) or self.get_card_id(name.split()[0])], the id
    resolution shared by [delete_card] and [update_card]. *)
Definition resolve_card_id (tickets : tickets_dict) (name : str) : result str :=
  rbind (get_card_id tickets name) (fun cid =>
  if negb (is_empty cid) then Ok cid
  else rbind (getitem (py_split name) 0) (get_card_id tickets)).

(** [delete_card], lines 115-124. *)
Definition delete_card (tickets : tickets_dict) (name : str) : M Z :=
  cid <- lift (resolve_card_id tickets name) ;;
  resp <- send (delete_request cid) ;;
  ret (status_code resp).

(** [create_card], lines 126-137. *)
Definition create_card (name list_name : str) : M Z :=
  let list_id := get_list_id list_name in
  resp <- send (create_request list_id name) ;;
  ret (status_code resp).

(** [move_card], lines 139-160. *)
Definition move_card (tickets : tickets_dict) (full_card_name list_name : str)
  : M Z :=
  name <- lift (move_card_name tickets full_card_name) ;;
  deleted <- delete_card tickets name ;;
  if (deleted =? 200)%Z
  then
    created <- create_card name list_name ;;
    if (created =? 200)%Z then ret 200%Z else ret 400%Z
  else ret 400%Z.

(** [update_card], lines 162-176. *)
Definition update_card (tickets : tickets_dict) (full_card_name new_name : str)
  : M Z :=
  cid <- lift (resolve_card_id tickets full_card_name) ;;
  resp <- send (update_request cid new_name) ;;
  ret (status_code resp).

(** [get_weekly_story_points], lines 225-226: the Done list is fetched
    again, not read from the snapshot. *)
Definition get_weekly_story_points : M Z :=
  fetched <- get_list_cards (DONE_LIST_ID cfg) ;;
  ts <- lift (iter_tickets fetched) ;;
  points <- lift (mapr (fun c => py_int (story_points c)) (from1 ts)) ;;
  ret (fold_right Z.add 0%Z points).

(** One line of the report body. *)
Definition template_line (t : ticket) : str :=
  u "  - " ++ JIRA_URL cfg ++ ticket_name t ++ u " - " ++ story_points t
  ++ u " points" ++ nl.

(** The loop of [create_letter_template], lines 212-217. *)
Fixpoint template_body (tickets : tickets_dict) (keys : list str)
  : result (list str) :=
  match keys with
  | [] => Ok []
  | tickets_list :: keys' =>
      rbind (dict_get tickets tickets_list) (fun entry =>
      rbind (iter_tickets entry) (fun ts =>
      rbind (template_body tickets keys') (fun rest =>
      Ok ((tickets_list ++ u ":" ++ nl) :: map template_line ts ++ rest))))
  end.

Definition sentinel_line : str :=
  u "  - https://gojira.skyscanner.net/browse/All - 0 points" ++ nl.

(** [create_letter_template], lines 206-223. *)
Definition create_letter_template (today : Z) (tickets : tickets_dict)
  : M str :=
  week <- lift (get_week today) ;;
  body <- lift (template_body tickets (dict_keys tickets)) ;;
  template <- lift (list_remove sentinel_line
                      ((week ++ u ":" ++ nl ++ nl) :: body)) ;;
  total <- get_weekly_story_points ;;
  shown <- lift (py_str total) ;;
  ret (join (template ++ [u "SP per week: " ++ shown ++ nl])).

(** The loop of [move_cards_name_to_comments]: it returns at the first
    status that is not 200. *)
Fixpoint post_comments (ts : list ticket) : M Z :=
  match ts with
  | [] => ret 200%Z
  | t :: ts' =>
      resp <- send (comment_request (label t)) ;;
      if negb (status_code resp =? 200)%Z then ret (status_code resp)
      else post_comments ts'
  end.

(** [move_cards_name_to_comments], lines 228-241. *)
Definition move_cards_name_to_comments (tickets : tickets_dict) : M Z :=
  entry <- lift (dict_get tickets (u "Done")) ;;
  ts <- lift (iter_tickets entry) ;;
  post_comments (from1 ts).

(** The three lines with which the [monday] branch of [run] can end. *)
Definition comments_failed : str :=
  u "Failed to move recently done cards to `All' comments" ++ nl.

Definition delete_failed (name : str) : str :=
  u "Failed to delete card " ++ name ++ nl.

Definition archived : str :=
  u "Recently done cards has been successfully archived.".

(** The deletion loop of [run], lines 282-288: it returns at the first
    status that is not 200, and reports success after the last card. *)
Fixpoint delete_done (tickets : tickets_dict) (ts : list ticket) : M unit :=
  match ts with
  | [] => print archived
  | t :: ts' =>
      status <- delete_card tickets (ticket_name t) ;;
      if negb (status =? 200)%Z
      then print (delete_failed (ticket_name t))
      else delete_done tickets ts'
  end.

(** [show_reply], lines 311-325. *)
Definition show_reply (status : Z) (operation : str) : M unit :=
  if (status =? 200)%Z
  then print (u "Card has been successfully " ++ operation ++ u "d.")
  else
    shown <- lift (py_str status) ;;
    print (u "Card has not been " ++ operation ++ u "d."
           ++ u "Please check card's name and list's name (if required)."
           ++ nl
           ++ u "Operation failed with " ++ shown ++ u " error.").

(** The [monday] branch of [run], lines 274-288. *)
Definition run_monday (today : Z) (tickets : tickets_dict) : M unit :=
  report <- create_letter_template today tickets ;;
  print report ;;;
  move_cards_status_code <- move_cards_name_to_comments tickets ;;
  if negb (move_cards_status_code =? 200)%Z
  then print comments_failed
  else
    entry <- lift (dict_get tickets (u "Done")) ;;
    ts <- lift (iter_tickets entry) ;;
    delete_done tickets (from1 ts).

(** [run], lines 271-309, for a command line that gives the arguments its
    method reads. *)
Definition run (today : Z) (tickets : tickets_dict) (method arg1 arg2 : str)
  : M unit :=
  if str_eqb method (u "monday") then run_monday today tickets
  else if str_eqb method (u "show_board") then show_board tickets
  else if str_eqb method (u "show_list") then show_list_tickets tickets arg1
  else if str_eqb method (u "create_card")
  then status <- create_card arg1 arg2 ;; show_reply status (u "create")
  else if str_eqb method (u "delete_card")
  then status <- delete_card tickets arg1 ;; show_reply status (u "delete")
  else if str_eqb method (u "move_card")
  then status <- move_card tickets arg1 arg2 ;; show_reply status (u "move")
  else if str_eqb method (u "update_card")
  then status <- update_card tickets arg1 arg2 ;; show_reply status (u "update")
  else print (u "There is no method with such name").

(** The constructor followed by [run]: the snapshot is fetched first. *)
Definition main (today : Z) (method arg1 arg2 : str) : M unit :=
  tickets <- get_tickets_information ;;
  run today tickets method arg1 arg2.

End Board.

End TrelloAPI.
Import TrelloAPI.

(** ** Raw names written out token by token *)

(** A token: a non-empty string without whitespace. *)
Definition no_space (s : str) : Prop := Forall (fun c => isspace c = false) s.
Definition token (s : str) : Prop := s <> [] /\ no_space s.

(** A run of whitespace, possibly empty. *)
Definition spaces (s : str) : Prop := Forall (fun c => isspace c = true) s.

(** Tokens, each paired with the whitespace that follows it: some whitespace
    follows every token but the last, which may end the string. *)
Fixpoint spaced (toks : list (str * str)) : Prop :=
  match toks with
  | [] => True
  | (t, gap) :: rest =>
      token t /\ spaces gap /\ (rest <> [] -> gap <> []) /\ spaced rest
  end.

(** The string that begins with the whitespace [lead] and goes on with the
    tokens and the whitespace after each. *)
Definition written (lead : str) (toks : list (str * str)) : str :=
  lead ++ concat (map (fun p => fst p ++ snd p) toks).

(** A non-empty run of the ASCII digits, and the number it writes. *)
Definition ascii_digits (s : str) : Prop :=
  s <> [] /\ Forall (fun c => (48 <= c <= 57)%N) s.

Definition digits_value (s : str) : Z :=
  fold_left (fun acc c => (10 * acc + (Z.of_N c - 48))%Z) s 0%Z.

(** A name that is not empty and holds whitespace only. *)
Definition only_spaces (s : str) : Prop := s <> [] /\ spaces s.

(** A card whose name is empty or holds a token. *)
Definition readable (c : card) : Prop :=
  card_name c = [] \/ Exists (fun ch => isspace ch = false) (card_name c).

(** ** The week header as the specification words it *)

(** Section 4.2: seven days back on a Monday, otherwise [today.weekday()]
    days back, "with Sunday treated as offset 7". *)
Definition week_offset_spec (today : Z) : Z :=
  if (weekday today =? 0)%Z then 7%Z
  else if (weekday today =? 6)%Z then 7%Z
  else weekday today.

(** The header with a given first word, Monday taken [week_offset_spec]
    days back and Friday four days after it. *)
Definition week_header_spec (word : str) (today : Z) : str :=
  let monday := (today - week_offset_spec today)%Z in
  let friday := (monday + 4)%Z in
  word ++ u " " ++ strftime_dmY monday ++ u " - " ++ strftime_dmY friday.

(** ** Sample data for the examples *)

Definition sample_cfg : config :=
  {| API_KEY := u "key";
     API_TOKEN := u "token";
     URL := u "https://api.trello.com/1/";
     JIRA_URL := u "https://gojira.skyscanner.net/browse/";
     IN_PROGRESS_LIST_ID := u "L1";
     WAITING_LIST_ID := u "L2";
     TESTING_LIST_ID := u "L3";
     DONE_LIST_ID := u "L4";
     ALL_DONE_TICKETS_CARD_ID := u "A0" |}.

Definition mk_ticket (i n p : string) : ticket :=
  {| ticket_id := u i; ticket_name := u n; story_points := u p |}.

Definition mk_card (i n : string) : card :=
  {| card_id := u i; card_name := u n |}.

(** The snapshot with the four lists under their titles. *)
Definition snapshot (in_progress waiting testing done : option (list ticket))
  : tickets_dict :=
  [(u "In progress", in_progress);
   (u "Waiting for customer", waiting);
   (u "Testing", testing);
   (u "Done", done)].

Definition sample_done : list ticket :=
  [mk_ticket "c0" "All" "0"; mk_ticket "c2" "T-2" "3";
   mk_ticket "c3" "T-3" "5"; mk_ticket "c4" "T-4" "2"].

Definition sample_tickets : tickets_dict :=
  snapshot (Some [mk_ticket "c1" "T-1" "8"]) (Some []) (Some [])
           (Some sample_done).

(** A board that accepts every request and lists no card. *)
Definition accepting : list event -> request -> response :=
  fun _ _ => {| status_code := 200; json := [] |}.

(** A board that rejects every request. *)
Definition rejecting : list event -> request -> response :=
  fun _ _ => {| status_code := 500; json := [] |}.

(** A snapshot without a failed fetch. *)
Definition complete (tickets : tickets_dict) : Prop :=
  Forall (fun entry => entry <> None) (dict_values tickets).

(** The tickets of a snapshot, list after list; a missing list has none. *)
Definition flat (vals : list (option (list ticket))) : list ticket :=
  concat (map (fun entry => match entry with
                            | Some ts => ts
                            | None => []
                            end) vals).

Definition all_tickets (tickets : tickets_dict) : list ticket :=
  flat (dict_values tickets).

(** A snapshot as [get_list_cards] builds it: every ticket comes out of
    [parse_card_name]. *)
Definition parsed (tickets : tickets_dict) : Prop :=
  Forall (fun t => exists c, parse_card_name c = Ok t) (all_tickets tickets).

(** The board gives different cards different ids. *)
Definition ids_identify (tickets : tickets_dict) : Prop :=
  forall a b, In a (all_tickets tickets) -> In b (all_tickets tickets) ->
              ticket_id a = ticket_id b -> ticket_id a <> [] -> a = b.

(** ** The report as the specification words it *)

(** Section 4.2: the body with index 0 of the Done list skipped when
    rendering, instead of one literal line removed afterwards. *)
Fixpoint template_body_skip (cfg : config) (tickets : tickets_dict)
         (keys : list str) : result (list str) :=
  match keys with
  | [] => Ok []
  | tickets_list :: keys' =>
      rbind (dict_get tickets tickets_list) (fun entry =>
      rbind (iter_tickets entry) (fun ts =>
      rbind (template_body_skip cfg tickets keys') (fun rest =>
      let shown := if str_eqb tickets_list (u "Done") then from1 ts else ts in
      Ok ((tickets_list ++ u ":" ++ nl) :: map (template_line cfg) shown
          ++ rest))))
  end.

Definition create_letter_template_skip
           (remote : list event -> request -> response) (cfg : config)
           (today : Z) (tickets : tickets_dict) : M str :=
  week <- lift (get_week today) ;;
  body <- lift (template_body_skip cfg tickets (dict_keys tickets)) ;;
  total <- get_weekly_story_points remote cfg ;;
  shown <- lift (py_str total) ;;
  ret (join (((week ++ u ":" ++ nl ++ nl) :: body)
             ++ [u "SP per week: " ++ shown ++ nl])).

(** A board that answers every request with 200 and lists the given cards. *)
Definition serving (cards : list card) : list event -> request -> response :=
  fun _ _ => {| status_code := 200; json := cards |}.

Definition sample_cards : list card :=
  [mk_card "c0" "All"; mk_card "c2" "T-2 3"; mk_card "c3" "T-3 5";
   mk_card "c4" "T-4 2"].

(** A snapshot in which a card named All also waits in the first list. *)
Definition twin_tickets : tickets_dict :=
  snapshot (Some [mk_ticket "c9" "All" "0"]) (Some []) (Some [])
           (Some sample_done).

(** The lines of the report body that come before the tickets of Done. *)
Definition lines_before_done (cfg : config) (a b c : list ticket) : list str :=
  ((u "In progress" ++ u ":" ++ nl) :: map (template_line cfg) a)
  ++ ((u "Waiting for customer" ++ u ":" ++ nl) :: map (template_line cfg) b)
  ++ ((u "Testing" ++ u ":" ++ nl) :: map (template_line cfg) c)
  ++ [u "Done" ++ u ":" ++ nl].

(** ** Reading the event log *)

(** The method of a logged request. *)
Definition event_method (e : event) : option http_method :=
  match e with
  | Sent r _ => Some (meth r)
  | Printed _ => None
  end.

(** A comment posted for a ticket and accepted. *)
Definition ok_comment (cfg : config) (t : ticket) : event :=
  Sent (comment_request cfg (label t)) 200%Z.

(** [e] is the accepted deletion of the card that [t]'s name resolves to. *)
Definition deleted_ok (cfg : config) (tickets : tickets_dict) (t : ticket)
           (e : event) : Prop :=
  exists cid, resolve_card_id tickets (ticket_name t) = Ok cid
              /\ e = Sent (delete_request cfg cid) 200%Z.

(** What the report step may log: the second fetch of the Done list, the
    fetch failure message, the report itself. *)
Definition report_event (e : event) : Prop :=
  match e with
  | Sent r _ => meth r = GET
  | Printed line => line <> archived
  end.

(** [self.tickets['Done'][1:]]. *)
Definition done_tail (tickets : tickets_dict) : result (list ticket) :=
  rbind (dict_get tickets (u "Done")) (fun entry =>
  rbind (iter_tickets entry) (fun ts => Ok (from1 ts))).

(** The five ways a rollover can go, with the events it logs: [evs] are the
    events of the report step, then come the comments, then the deletions. *)
Inductive monday_run (cfg : config) (tickets : tickets_dict)
  : result unit -> list event -> Prop :=
| report_crashed (e : exn) (evs : list event) :
    Forall report_event evs ->
    monday_run cfg tickets (Raise e) evs
| comment_rejected (evs : list event) (pre post : list ticket) (t : ticket)
                   (s : Z) :
    Forall report_event evs ->
    done_tail tickets = Ok (pre ++ t :: post) ->
    s <> 200%Z ->
    monday_run cfg tickets (Ok tt)
      (evs ++ map (ok_comment cfg) pre
       ++ [Sent (comment_request cfg (label t)) s; Printed comments_failed])
| deletion_rejected (evs dels : list event) (pre post : list ticket)
                    (t : ticket) (cid : str) (s : Z) :
    Forall report_event evs ->
    done_tail tickets = Ok (pre ++ t :: post) ->
    Forall2 (deleted_ok cfg tickets) pre dels ->
    resolve_card_id tickets (ticket_name t) = Ok cid ->
    s <> 200%Z ->
    monday_run cfg tickets (Ok tt)
      (evs ++ map (ok_comment cfg) (pre ++ t :: post) ++ dels
       ++ [Sent (delete_request cfg cid) s;
           Printed (delete_failed (ticket_name t))])
| deletion_crashed (evs dels : list event) (pre post : list ticket)
                   (t : ticket) (e : exn) :
    Forall report_event evs ->
    done_tail tickets = Ok (pre ++ t :: post) ->
    Forall2 (deleted_ok cfg tickets) pre dels ->
    resolve_card_id tickets (ticket_name t) = Raise e ->
    monday_run cfg tickets (Raise e)
      (evs ++ map (ok_comment cfg) (pre ++ t :: post) ++ dels)
| all_archived (evs dels : list event) (ts : list ticket) :
    Forall report_event evs ->
    done_tail tickets = Ok ts ->
    Forall2 (deleted_ok cfg tickets) ts dels ->
    monday_run cfg tickets (Ok tt)
      (evs ++ map (ok_comment cfg) ts ++ dels ++ [Printed archived]).

(** A board that rejects the second POST of a run and accepts everything
    else, listing the sample cards. *)
Definition is_post (e : event) : bool :=
  match event_method e with
  | Some POST => true
  | _ => false
  end.

Definition second_post_rejected : list event -> request -> response :=
  fun log r =>
    {| status_code :=
         match meth r with
         | POST => if (length (filter is_post log) =? 1)%nat then 500%Z
                   else 200%Z
         | _ => 200%Z
         end;
       json := sample_cards |}.

(** The snapshot after the fetch of the Done list failed. *)
Definition done_missing : tickets_dict :=
  snapshot (Some [mk_ticket "c1" "T-1" "8"]) (Some []) (Some []) None.

(** A line of the sample report. *)
Definition sample_line (name points : string) : str :=
  u "  - https://gojira.skyscanner.net/browse/" ++ u name ++ u " - "
  ++ u points ++ u " points" ++ nl.

(** ** Further notions used to state properties of the whole script *)

(** The first ticket of the snapshot, list after list, that bears a name. *)
Definition first_named (tickets : tickets_dict) (name : str) : option ticket :=
  find (fun c => str_eqb (ticket_name c) name) (all_tickets tickets).

(** The events that are requests, with the status each one got. *)
Definition requests_of (evs : list event) : list (request * Z) :=
  flat_map (fun e => match e with
                     | Sent r s => [(r, s)]
                     | Printed _ => []
                     end) evs.

(** The lines printed, in order. *)
Definition lines_of (evs : list event) : list str :=
  flat_map (fun e => match e with
                     | Sent _ _ => []
                     | Printed line => [line]
                     end) evs.

(** The four titles under which the constructor stores the lists. *)
Definition list_titles : list str :=
  [u "In progress"; u "Waiting for customer"; u "Testing"; u "Done"].

(** The line [show_list_tickets] prints for a ticket. *)
Definition ticket_line (t : ticket) : str :=
  u "  - " ++ ticket_name t ++ u " - " ++ story_points t ++ u " points".

(** The line printed in place of index 0 of the Done list. *)
Definition all_line : str := u "  - All - contains list of all done tickets".

(** What [show_list_tickets] prints for a fetched list. *)
Definition list_lines (list_name : str) (ts : list ticket) : list str :=
  list_name
  :: (if str_eqb list_name (u "Done")
      then all_line :: map ticket_line (tl ts)
      else map ticket_line ts).

(** The line printed for a list name that is not one of the four. *)
Definition not_found_line (list_name : str) : str :=
  u "List " ++ list_name ++ u " not found on current board".

(** A ticket as [parse_card_name] can return it: the empty ticket, or a name
    and story points that are tokens, the story points reading as an
    integer. *)
Definition well_formed (t : ticket) : Prop :=
  (ticket_id t = [] /\ ticket_name t = [] /\ story_points t = u "0")
  \/ (token (ticket_name t) /\ token (story_points t)
      /\ exists v, py_int (story_points t) = Ok v).

(** The methods of [run] other than the rollover. *)
Definition reply_line (status : Z) (operation : str) : str :=
  if (status =? 200)%Z
  then u "Card has been successfully " ++ operation ++ u "d."
  else u "Card has not been " ++ operation ++ u "d."
       ++ u "Please check card's name and list's name (if required)."
       ++ nl
       ++ u "Operation failed with " ++ decimal status ++ u " error.".

(** A snapshot with a card found in two lists under one name. *)
Definition homonym_tickets : tickets_dict :=
  snapshot (Some [mk_ticket "c7" "T-2" "1"]) (Some []) (Some [])
           (Some sample_done).

(** The snapshot after the fetch of the Testing list failed. *)
Definition testing_missing : tickets_dict :=
  snapshot (Some [mk_ticket "c1" "T-1" "8"]) (Some []) None (Some sample_done).

(** The constructor's four fetches written as a loop over (title, list id). *)
Fixpoint fetch_all (remote : list event -> request -> response) (cfg : config)
         (lists : list (str * str)) : M tickets_dict :=
  match lists with
  | [] => ret []
  | (title, list_id) :: rest =>
      entry <- get_list_cards remote cfg list_id ;;
      fetched <- fetch_all remote cfg rest ;;
      ret ((title, entry) :: fetched)
  end.

(** The four lists of the board, as the constructor names them. *)
Definition board_lists (cfg : config) : list (str * str) :=
  [(u "In progress", IN_PROGRESS_LIST_ID cfg);
   (u "Waiting for customer", WAITING_LIST_ID cfg);
   (u "Testing", TESTING_LIST_ID cfg);
   (u "Done", DONE_LIST_ID cfg)].

(** A card whose name is made of blanks only. *)
Definition blank (c : card) : Prop :=
  card_name c <> [] /\ py_split (card_name c) = [].

(** The request methods a command of [run] may use. *)
Definition allowed_methods (method : str) : list http_method :=
  if str_eqb method (u "monday") then [GET; POST; DELETE]
  else if str_eqb method (u "show_board") then []
  else if str_eqb method (u "show_list") then []
  else if str_eqb method (u "create_card") then [POST]
  else if str_eqb method (u "delete_card") then [DELETE]
  else if str_eqb method (u "move_card") then [DELETE; POST]
  else if str_eqb method (u "update_card") then [PUT]
  else [].

(** Every request among the events uses one of the given methods. *)
Definition sends_only (methods : list http_method) (evs : list event) : Prop :=
  Forall (fun e => match event_method e with
                   | Some m => In m methods
                   | None => True
                   end) evs.

(** A Done list whose card at index 0 carries story points of its own. *)
Definition weighted_cards : list card :=
  [mk_card "c0" "All 7"; mk_card "c2" "T-2 3"; mk_card "c3" "T-3 5";
   mk_card "c4" "T-4 2"].

(** A board that accepts deletions and rejects everything else. *)
Definition deleting_only : list event -> request -> response :=
  fun _ r => {| status_code := match meth r with
                               | DELETE => 200%Z
                               | _ => 503%Z
                               end;
                json := [] |}.

(** * Properties *)

(** ** Strings *)

Lemma str_eqb_eq (a b : str) : str_eqb a b = true <-> a = b.
Proof.
  revert b. induction a as [|x a IH]; intros [|y b]; cbn [str_eqb];
    try (split; congruence).
  rewrite andb_true_iff, N.eqb_eq, IH. split.
  - intros [-> ->]. reflexivity.
  - intros [= -> ->]. split; reflexivity.
Qed.

Lemma str_eqb_refl (a : str) : str_eqb a a = true.
Proof. now apply str_eqb_eq. Qed.

Lemma str_eqb_neq (a b : str) : str_eqb a b = false <-> a <> b.
Proof.
  rewrite <- str_eqb_eq. destruct (str_eqb a b); split; congruence.
Qed.

Lemma is_empty_nil (s : str) : is_empty s = true <-> s = [].
Proof. destruct s; simpl; split; congruence. Qed.

Lemma no_space_app (a b : str) : no_space a -> no_space b -> no_space (a ++ b).
Proof. unfold no_space. intros. now apply Forall_app. Qed.

Lemma split_from_tokens (s tok : str) :
  no_space tok -> Forall token (split_from tok s).
Proof.
  revert tok. induction s as [|c s IH]; intros tok Htok; simpl.
  - destruct tok; simpl; constructor; [|constructor].
    split; [discriminate|assumption].
  - destruct (isspace c) eqn:Hc.
    + destruct tok; simpl.
      * apply IH. constructor.
      * constructor; [split; [discriminate|assumption]|].
        apply IH. constructor.
    + apply IH. apply no_space_app; [assumption|].
      constructor; [assumption|constructor].
Qed.

Lemma split_tokens (s : str) : Forall token (py_split s).
Proof. apply split_from_tokens. constructor. Qed.

Lemma split_from_no_space (a tok : str) :
  no_space a ->
  split_from tok a = if is_empty (tok ++ a) then [] else [tok ++ a].
Proof.
  revert tok. induction a as [|c a IH]; intros tok Ha; simpl.
  - now rewrite app_nil_r.
  - inversion Ha as [|? ? Hc Ha']; subst. rewrite Hc.
    rewrite IH by assumption. now rewrite <- app_assoc.
Qed.

Lemma split_token (t : str) : token t -> py_split t = [t].
Proof.
  intros [Hne Hns]. unfold py_split. rewrite split_from_no_space by assumption.
  simpl. destruct t; [congruence|reflexivity].
Qed.

Lemma split_from_space (a b tok : str) (c : char) :
  isspace c = true ->
  split_from tok (a ++ c :: b) = split_from tok a ++ py_split b.
Proof.
  intros Hc. revert tok. induction a as [|x a IH]; intros tok; simpl.
  - rewrite Hc. destruct tok; reflexivity.
  - destruct (isspace x).
    + destruct tok; simpl; now rewrite IH.
    + apply IH.
Qed.

Lemma split_label (a b : str) :
  token a -> token b -> py_split (a ++ u " - " ++ b) = [a; u "-"; b].
Proof.
  intros Ha Hb. unfold py_split.
  change (a ++ u " - " ++ b) with (a ++ 32%N :: (u "-" ++ 32%N :: b)).
  rewrite split_from_space by reflexivity.
  fold (py_split a). rewrite (split_token Ha).
  unfold py_split at 1. rewrite split_from_space by reflexivity.
  fold (py_split b). now rewrite (split_token Hb).
Qed.

Lemma split_from_lead (lead s : str) :
  spaces lead -> split_from [] (lead ++ s) = split_from [] s.
Proof.
  induction 1 as [|c lead Hc _ IH]; [reflexivity|].
  cbn [app split_from]. rewrite Hc. cbn [is_empty]. exact IH.
Qed.

Lemma split_spaces (s : str) : spaces s -> py_split s = [].
Proof.
  intros H. unfold py_split. rewrite <- (app_nil_r s).
  rewrite split_from_lead by assumption. reflexivity.
Qed.

Lemma split_token_gap (t gap s : str) :
  token t -> spaces gap -> gap <> [] \/ s = [] ->
  py_split (t ++ gap ++ s) = t :: py_split s.
Proof.
  intros Ht Hgap Hor. destruct gap as [|c gap].
  - destruct Hor as [H| ->]; [congruence|]. cbn [app]. rewrite app_nil_r.
    now apply split_token.
  - inversion Hgap as [|? ? Hc Hgap']; subst. unfold py_split. cbn [app].
    rewrite split_from_space by assumption.
    fold (py_split t). rewrite (split_token Ht).
    unfold py_split. rewrite split_from_lead by assumption. reflexivity.
Qed.

Lemma split_tokens_written (toks : list (str * str)) :
  spaced toks ->
  py_split (concat (map (fun p => fst p ++ snd p) toks)) = map fst toks.
Proof.
  induction toks as [|[t gap] rest IH]; intros Htoks; [reflexivity|].
  destruct Htoks as (Ht & Hgap & Hne & Hrest).
  cbn [map concat fst snd]. rewrite <- app_assoc.
  rewrite split_token_gap; try assumption.
  - f_equal. now apply IH.
  - destruct rest; [right; reflexivity|left; apply Hne; discriminate].
Qed.

Lemma split_written (lead : str) (toks : list (str * str)) :
  spaces lead -> spaced toks -> py_split (written lead toks) = map fst toks.
Proof.
  intros Hlead Htoks. unfold written, py_split.
  rewrite split_from_lead by assumption. now apply split_tokens_written.
Qed.

Lemma split_from_pending (s tok : str) : tok <> [] -> split_from tok s <> [].
Proof.
  revert tok. induction s as [|c s IH]; intros tok Htok; simpl.
  - destruct tok; [congruence|]. discriminate.
  - destruct (isspace c).
    + destruct tok; [congruence|]. discriminate.
    + apply IH. destruct tok; discriminate.
Qed.

Lemma split_from_some (s tok : str) :
  Exists (fun c => isspace c = false) s -> split_from tok s <> [].
Proof.
  intros H. revert tok. induction H as [c s Hc|c s _ IH]; intros tok; simpl.
  - rewrite Hc. apply split_from_pending. destruct tok; discriminate.
  - destruct (isspace c).
    + destruct tok; [apply IH|discriminate].
    + apply IH.
Qed.

Lemma written_nonempty (lead first gap : str) (more : list (str * str)) :
  token first -> written lead ((first, gap) :: more) <> [].
Proof.
  intros [Hne _] H. unfold written in H. cbn [map concat fst snd] in H.
  apply app_eq_nil in H as [_ H]. apply app_eq_nil in H as [H _].
  apply app_eq_nil in H as [H _]. congruence.
Qed.

(** ** Indexing *)

Lemma getitem_first {A} (x : A) (l : list A) : getitem (x :: l) 0 = Ok x.
Proof.
  unfold getitem. cbn [length]. 
  change (0 <? 0)%Z with false. cbv iota.
  replace ((0 <? 0)%Z || (Z.of_nat (S (length l)) <=? 0)%Z) with false.
  - reflexivity.
  - symmetry. apply orb_false_iff. split; [reflexivity|]. apply Z.leb_gt. lia.
Qed.

Lemma getitem_nil {A} (i : Z) : getitem (@nil A) i = Raise IndexError.
Proof.
  unfold getitem. simpl.
  destruct (i <? 0)%Z eqn:Hi.
  - rewrite Z.add_0_r, Hi. reflexivity.
  - replace (0 <=? i)%Z with true; [now rewrite orb_true_r|].
    symmetry. apply Z.leb_le. apply Z.ltb_ge in Hi. assumption.
Qed.

Lemma nth_error_last {A} (l : list A) (x d : A) :
  nth_error (x :: l) (length l) = Some (last (x :: l) d).
Proof.
  revert x. induction l as [|y l IH]; intros x; [reflexivity|].
  cbn [length nth_error]. rewrite IH. reflexivity.
Qed.

Lemma getitem_last {A} (x d : A) (l : list A) :
  getitem (x :: l) (-1) = Ok (last (x :: l) d).
Proof.
  unfold getitem. cbn [length].
  change (-1 <? 0)%Z with true. cbv iota.
  replace (-1 + Z.of_nat (S (length l)))%Z with (Z.of_nat (length l)) by lia.
  replace ((Z.of_nat (length l) <? 0)%Z
           || (Z.of_nat (S (length l)) <=? Z.of_nat (length l))%Z) with false.
  - rewrite Nat2Z.id, (nth_error_last l x d). reflexivity.
  - symmetry. apply orb_false_iff. split; [apply Z.ltb_ge|apply Z.leb_gt]; lia.
Qed.

(** ** [int] *)

Lemma py_int_raises (s : str) (e : exn) : py_int s = Raise e -> e = ValueError.
Proof.
  unfold py_int.
  destruct (strip s) as [|c r]; simpl.
  - intros H. congruence.
  - destruct c as [|p]; [|do 6 (try destruct p as [p|p|])];
      try (destruct (scan_digits _ _ _ _) as [[v n]|];
           [destruct (_ && _)|]; congruence).
Qed.

Lemma py_int_zero : py_int (u "0") = Ok 0%Z.
Proof. reflexivity. Qed.

Lemma digit_facts (c : char) :
  (48 <= c <= 57)%N ->
  to_decimal c = Some (Z.of_N c - 48)%Z
  /\ N.eqb c 95 = false /\ int_isspace c = false
  /\ c <> 43%N /\ c <> 45%N.
Proof.
  intros H.
  assert (Hc : (c = 48 \/ c = 49 \/ c = 50 \/ c = 51 \/ c = 52 \/ c = 53
                \/ c = 54 \/ c = 55 \/ c = 56 \/ c = 57)%N) by lia.
  repeat destruct Hc as [->|Hc]; try subst c;
    (split; [reflexivity|split; [reflexivity|split; [reflexivity|]]];
     split; discriminate).
Qed.

Lemma scan_digits_ascii (s : str) :
  Forall (fun c => (48 <= c <= 57)%N) s ->
  forall (b : bool) (acc n : Z), s <> [] \/ b = false ->
  scan_digits s b acc n
  = Some (fold_left (fun a c => (10 * a + (Z.of_N c - 48))%Z) s acc,
          (n + Z.of_nat (length s))%Z).
Proof.
  induction 1 as [|c s Hc _ IH]; intros b acc n Hb.
  - destruct Hb as [Hb| ->]; [now elim Hb|]. cbn. now rewrite Z.add_0_r.
  - destruct (digit_facts Hc) as (Hd & Hus & _).
    cbn [scan_digits]. rewrite Hus, Hd.
    rewrite IH by (right; reflexivity).
    cbn [fold_left length]. do 2 f_equal. lia.
Qed.

Lemma lstrip_digits (s : str) :
  Forall (fun c => (48 <= c <= 57)%N) s -> lstrip s = s.
Proof.
  intros H. destruct H as [|c s Hc _]; [reflexivity|].
  destruct (digit_facts Hc) as (_ & _ & Hsp & _).
  cbn [lstrip]. now rewrite Hsp.
Qed.

Lemma strip_digits (s : str) :
  Forall (fun c => (48 <= c <= 57)%N) s -> strip s = s.
Proof.
  intros H. unfold strip. rewrite (lstrip_digits H).
  rewrite lstrip_digits by now apply Forall_rev.
  apply rev_involutive.
Qed.

Lemma py_int_digits (s : str) :
  ascii_digits s -> (length s <= 4300)%nat -> py_int s = Ok (digits_value s).
Proof.
  intros [Hne Hs] Hlen. unfold py_int. rewrite (strip_digits Hs).
  destruct s as [|c s']; [now elim Hne|].
  assert (Hc : (48 <= c <= 57)%N) by now inversion Hs.
  assert (Hscan := @scan_digits_ascii (c :: s') Hs true 0%Z 0%Z
                     (or_introl Hne)).
  assert (Hlimit : (int_max_str_digits <? 0 + Z.of_nat (length (c :: s')))%Z
                   = false)
    by (apply Z.ltb_ge; unfold int_max_str_digits; lia).
  assert (Hcs : (c = 48 \/ c = 49 \/ c = 50 \/ c = 51 \/ c = 52 \/ c = 53
                 \/ c = 54 \/ c = 55 \/ c = 56 \/ c = 57)%N) by lia.
  repeat destruct Hcs as [Hcs|Hcs]; subst c; cbv beta iota zeta;
    rewrite Hscan, Hlimit, andb_false_r; reflexivity.
Qed.

(** ** Card-name parsing *)

Lemma parse_card_name_tokens (c : card) (first : str) (rest : list str) :
  card_name c <> [] ->
  py_split (card_name c) = first :: rest ->
  parse_card_name c =
  Ok {| ticket_id := card_id c;
        ticket_name := first;
        story_points :=
          match rest with
          | [] => u "0"
          | _ :: _ =>
              match py_int (last rest []) with
              | Ok _ => last rest []
              | Raise _ => u "0"
              end
          end |}.
Proof.
  intros Hne Hsplit. unfold parse_card_name.
  destruct (card_name c) as [|x s] eqn:Hname; [congruence|].
  cbn [is_empty]. rewrite Hsplit.
  destruct rest as [|r rest].
  - cbn [length]. change (1 <? Z.of_nat 1)%Z with false. cbv iota.
    cbn [rbind]. rewrite getitem_first. reflexivity.
  - replace (1 <? Z.of_nat (length (first :: r :: rest)))%Z with true
      by (symmetry; apply Z.ltb_lt; cbn [length]; lia).
    rewrite (getitem_last first [] (r :: rest)).
    change (last (first :: r :: rest) []) with (last (r :: rest) []).
    cbn [rbind].
    destruct (py_int (last (r :: rest) [])) as [v|e] eqn:Hint.
    + cbn [rbind]. rewrite getitem_first. reflexivity.
    + rewrite (py_int_raises _ Hint). cbn [rbind].
      rewrite getitem_first. reflexivity.
Qed.

Lemma parse_card_name_blank (c : card) :
  card_name c <> [] -> py_split (card_name c) = [] ->
  parse_card_name c = Raise IndexError.
Proof.
  intros Hne Hsplit. unfold parse_card_name.
  destruct (card_name c) as [|x s] eqn:Hname; [congruence|].
  cbn [is_empty]. rewrite Hsplit. reflexivity.
Qed.

Lemma parse_card_name_written_name
      (id lead first gap : str) (more : list (str * str)) :
  spaces lead -> spaced ((first, gap) :: more) ->
  parse_card_name {| card_id := id;
                     card_name := written lead ((first, gap) :: more) |}
  = Ok {| ticket_id := id;
          ticket_name := first;
          story_points :=
            match map fst more with
            | [] => u "0"
            | _ :: _ =>
                match py_int (last (map fst more) []) with
                | Ok _ => last (map fst more) []
                | Raise _ => u "0"
                end
            end |}.
Proof.
  intros Hlead Htoks.
  apply (parse_card_name_tokens
           {| card_id := id;
              card_name := written lead ((first, gap) :: more) |}).
  - cbn [card_name]. apply written_nonempty. now destruct Htoks.
  - cbn [card_name]. now rewrite split_written.
Qed.

Lemma last_snoc {A} (l : list A) (x d : A) : last (l ++ [x]) d = x.
Proof. apply last_last. Qed.

(** C1, amended.  For every card whose raw name is empty or holds a token,
    [parse_card_name] follows the parsing algorithm of the specification.
    An empty raw name gives the ticket with empty id, empty name and story
    points zero.  A raw name that holds one token, whatever whitespace is
    around it, gives the card's id, that token as name and story points
    zero.  A raw name that holds several tokens gives the card's id, the
    first token as name and, as story points, the last token when it reads
    as an integer and zero when it does not; a last token made of at most
    4300 ASCII digits reads as the number it writes and is kept.  A raw name
    that is not empty and holds whitespace only has no first token:
    [IndexError] is raised. *)
Theorem parse_card_name_written (id : str) :
  parse_card_name {| card_id := id; card_name := [] |}
  = Ok {| ticket_id := []; ticket_name := []; story_points := u "0" |}
  /\ (forall lead first trail,
        spaces lead -> token first -> spaces trail ->
        parse_card_name {| card_id := id;
                           card_name := lead ++ first ++ trail |}
        = Ok {| ticket_id := id; ticket_name := first;
                story_points := u "0" |})
  /\ (forall lead first gap middle final trail,
        spaces lead ->
        spaced ((first, gap) :: middle ++ [(final, trail)]) ->
        let name := written lead ((first, gap) :: middle ++ [(final, trail)]) in
        parse_card_name {| card_id := id; card_name := name |}
        = Ok {| ticket_id := id; ticket_name := first;
                story_points := match py_int final with
                                | Ok _ => final
                                | Raise _ => u "0"
                                end |}
        /\ (ascii_digits final -> (length final <= 4300)%nat ->
            py_int final = Ok (digits_value final)
            /\ parse_card_name {| card_id := id; card_name := name |}
               = Ok {| ticket_id := id; ticket_name := first;
                       story_points := final |}))
  /\ (forall name,
        only_spaces name ->
        parse_card_name {| card_id := id; card_name := name |}
        = Raise IndexError).
Proof.
  split; [reflexivity|]. split; [|split].
  - intros lead first trail Hlead Hfirst Htrail.
    assert (H := @parse_card_name_written_name id lead first trail []
                   Hlead).
    unfold written in H. cbn [map concat fst snd] in H.
    rewrite app_nil_r in H. apply H.
    cbn [spaced]. repeat split; try assumption; try apply Hfirst.
    intros Habs. congruence.
  - intros lead first gap middle final trail Hlead Htoks name.
    assert (H := @parse_card_name_written_name id lead first gap
                   (middle ++ [(final, trail)]) Hlead Htoks).
    rewrite map_app in H. cbn [map fst] in H.
    rewrite last_snoc in H.
    destruct (map fst middle ++ [final]) as [|x l] eqn:Hl;
      [now destruct (map fst middle)|].
    split; [exact H|].
    intros Hdigits Hlen. split; [now apply py_int_digits|].
    unfold name. rewrite H. now rewrite (py_int_digits Hdigits Hlen).
  - intros name [Hne Hsp].
    apply (parse_card_name_blank {| card_id := id; card_name := name |});
      [assumption|]. now apply split_spaces.
Qed.

(** A card named with one blank has no first token to take: no ticket
    comes back. *)
Lemma parse_card_name_blank_counterexample :
  card_name (mk_card "x" " ") <> []
  /\ parse_card_name (mk_card "x" " ") = Raise IndexError
  /\ (forall t, parse_card_name (mk_card "x" " ") <> Ok t).
Proof. split; [discriminate|]. split; [reflexivity|discriminate]. Qed.

Lemma parse_card_name_written_witness :
  parse_card_name (mk_card "x" "Fix-login 5")
  = Ok (mk_ticket "x" "Fix-login" "5")
  /\ parse_card_name (mk_card "x" "Fix-login abc")
     = Ok (mk_ticket "x" "Fix-login" "0")
  /\ parse_card_name (mk_card "x" " SingleToken ")
     = Ok (mk_ticket "x" "SingleToken" "0")
  /\ parse_card_name (mk_card "x" "Fix login  now 13 ")
     = Ok (mk_ticket "x" "Fix" "13")
  /\ py_int (u "13") = Ok 13%Z
  /\ parse_card_name (mk_card "x" "   ") = Raise IndexError.
Proof.
  assert (Hsp : spaces (u " ")) by (constructor; [reflexivity|constructor]).
  assert (Htok : forall s : string,
             u s <> [] ->
             forallb (fun c => negb (isspace c)) (u s) = true ->
             token (u s)).
  { intros s Hne Hall. split; [assumption|].
    apply Forall_forall. intros c Hc.
    rewrite forallb_forall in Hall. apply negb_true_iff. now apply Hall. }
  assert (Hnil : spaces []) by constructor.
  destruct (parse_card_name_written (u "x")) as (_ & Hone & Hmany & Hblank).
  split.
  { refine (proj1 (Hmany [] (u "Fix-login") (u " ") [] (u "5") [] Hnil _)).
    cbn [app spaced]. repeat split;
      try (apply Htok; [discriminate|reflexivity]);
      try assumption; try (intros _; discriminate); intros H; now elim H. }
  split.
  { refine (proj1 (Hmany [] (u "Fix-login") (u " ") [] (u "abc") [] Hnil _)).
    cbn [app spaced]. repeat split;
      try (apply Htok; [discriminate|reflexivity]);
      try assumption; try (intros _; discriminate); intros H; now elim H. }
  split.
  { apply (Hone (u " ") (u "SingleToken") (u " ")); try assumption.
    apply Htok; [discriminate|reflexivity]. }
  assert (Hlong : spaced ((u "Fix", u " ")
                          :: [(u "login", u "  "); (u "now", u " ")]
                          ++ [(u "13", u " ")])).
  { cbn [app spaced]. repeat split;
      try (apply Htok; [discriminate|reflexivity]);
      try assumption; try (intros _; discriminate);
      try (intros H; now elim H).
    constructor; [reflexivity|]. assumption. }
  assert (Hdigits : ascii_digits (u "13")).
  { split; [discriminate|]. repeat constructor; discriminate. }
  assert (Hlen : (length (u "13") <= 4300)%nat) by (cbn; lia).
  destruct (Hmany [] (u "Fix") (u " ") [(u "login", u "  "); (u "now", u " ")]
              (u "13") (u " ") Hnil Hlong) as [_ Hkept].
  destruct (Hkept Hdigits Hlen) as [Hint Hparse].
  split; [exact Hparse|]. split; [exact Hint|].
  apply Hblank. split; [discriminate|].
  repeat (constructor; [reflexivity|]). constructor.
Defined.

Example parse_card_name_examples :
  map parse_card_name
    [ {| card_id := []; card_name := [] |};
      {| card_id := u "x"; card_name := u "Fix-login 5" |};
      {| card_id := u "x"; card_name := u "Fix-login abc" |};
      {| card_id := u "x"; card_name := u "SingleToken" |};
      {| card_id := u "x"; card_name := u "  " |} ]
  = [ Ok {| ticket_id := []; ticket_name := []; story_points := u "0" |};
      Ok {| ticket_id := u "x"; ticket_name := u "Fix-login";
            story_points := u "5" |};
      Ok {| ticket_id := u "x"; ticket_name := u "Fix-login";
            story_points := u "0" |};
      Ok {| ticket_id := u "x"; ticket_name := u "SingleToken";
            story_points := u "0" |};
      Raise IndexError ].
Proof. reflexivity. Qed.

(** ** The week header *)

Lemma weekday_range (d : Z) : (0 <= weekday d < 7)%Z.
Proof. unfold weekday. apply Z.mod_pos_bound. lia. Qed.

Example calendar_examples :
  map (fun '(y, m, d) => (ymd2ord y m d, weekday (ymd2ord y m d),
                          ord2ymd (ymd2ord y m d)))
      [(2024, 11, 3); (2024, 11, 4); (2024, 2, 29); (1, 1, 1); (9999, 12, 31)]%Z
  = [(739193, 6, (2024, 11, 3)); (739194, 0, (2024, 11, 4));
     (738945, 3, (2024, 2, 29)); (1, 0, (1, 1, 1));
     (3652059, 4, (9999, 12, 31))]%Z.
Proof. reflexivity. Qed.

(** C2, as stated, fails on Sunday 3 November 2024: the code goes six days
    back, to Monday 28 October, and writes the header with the Russian word;
    the claimed header goes seven days back, to Sunday 27 October, and the
    two differ whichever first word is taken. *)
Lemma get_week_sunday_counterexample :
  let today := ymd2ord 2024 11 3 in
  weekday today = 6%Z
  /\ get_week today = Ok (week_word ++ u " 28.10.2024 - 01.11.2024")
  /\ week_header_spec (u "Week") today = u "Week 27.10.2024 - 31.10.2024"
  /\ get_week today <> Ok (week_header_spec (u "Week") today)
  /\ get_week today <> Ok (week_header_spec week_word today).
Proof.
  cbv zeta. repeat split; try reflexivity; vm_compute; discriminate.
Qed.

(** C2, amended. For every [today] later than 1 January of year 1,
    [get_week] returns the header made of the Russian word for week, the
    Monday and the Friday, both as DD.MM.YYYY, where Monday is [today] minus
    7 days when [today] is a Monday and [today] minus [today.weekday()] days
    otherwise (6 days on a Sunday), and Friday is Monday plus 4 days; the two
    days are a Monday and a Friday. *)
Theorem get_week_header (today : Z) :
  (1 < today <= MAXORDINAL)%Z ->
  exists monday friday : Z,
    get_week today
    = Ok (week_word ++ u " " ++ strftime_dmY monday ++ u " - "
          ++ strftime_dmY friday)
    /\ monday = (today - (if (weekday today =? 0)%Z then 7 else weekday today))%Z
    /\ friday = (monday + 4)%Z
    /\ weekday monday = 0%Z
    /\ weekday friday = 4%Z.
Proof.
  intros Hrange.
  pose proof (weekday_range today) as Hw.
  set (diff := (if (weekday today =? 0)%Z then 7 else weekday today)%Z).
  assert (Hdiff : (1 <= diff <= 7)%Z).
  { unfold diff. destruct (Z.eqb_spec (weekday today) 0); lia. }
  assert (Hmon : weekday (today - diff) = 0%Z).
  { unfold diff, weekday in *.
    destruct (Z.eqb_spec ((today + 6) mod 7) 0);
      Z.div_mod_to_equations; lia. }
  assert (Hfri : weekday (today - diff + 4) = 4%Z).
  { unfold weekday in *. Z.div_mod_to_equations. lia. }
  assert (Hmax : (today - diff + 4 <= MAXORDINAL)%Z).
  { unfold weekday, MAXORDINAL in *. Z.div_mod_to_equations. lia. }
  assert (Hmin : (0 < today - diff)%Z).
  { unfold diff, weekday in *.
    destruct (Z.eqb_spec ((today + 6) mod 7) 0);
      Z.div_mod_to_equations; lia. }
  exists (today - diff)%Z, (today - diff + 4)%Z.
  repeat split; try assumption.
  unfold get_week, or_int. fold diff.
  unfold add_days.
  replace (today + - diff)%Z with (today - diff)%Z by lia.
  replace ((0 <? today - diff)%Z && (today - diff <=? MAXORDINAL)%Z) with true
    by (symmetry; apply andb_true_iff; split;
        [apply Z.ltb_lt|apply Z.leb_le]; lia).
  cbn [rbind].
  replace ((0 <? today - diff + 4)%Z && (today - diff + 4 <=? MAXORDINAL)%Z)
    with true
    by (symmetry; apply andb_true_iff; split;
        [apply Z.ltb_lt|apply Z.leb_le]; lia).
  reflexivity.
Qed.

Lemma get_week_header_witness :
  (1 < 739196 <= MAXORDINAL)%Z
  /\ exists monday friday : Z,
       get_week 739196
       = Ok (week_word ++ u " " ++ strftime_dmY monday ++ u " - "
             ++ strftime_dmY friday)
       /\ monday = (739196 - (if (weekday 739196 =? 0)%Z
                              then 7 else weekday 739196))%Z
       /\ friday = (monday + 4)%Z
       /\ weekday monday = 0%Z
       /\ weekday friday = 4%Z.
Proof.
  split.
  - unfold MAXORDINAL. lia.
  - apply (get_week_header (today := 739196)). unfold MAXORDINAL. lia.
Defined.

(** On a Monday the header shows the week before; the first day of year 1,
    a Monday, has no Monday before it. *)
Example get_week_examples :
  get_week (ymd2ord 2024 11 4)
  = Ok (week_word ++ u " 28.10.2024 - 01.11.2024")
  /\ get_week (ymd2ord 2024 11 6)
     = Ok (week_word ++ u " 04.11.2024 - 08.11.2024")
  /\ get_week (ymd2ord 1 1 1) = Raise OverflowError
  /\ get_week (ymd2ord 1 1 2) = Ok (week_word ++ u " 01.01.1 - 05.01.1").
Proof. repeat split; reflexivity. Qed.

(** ** Resolving, deleting and updating a card *)

Section BoardProperties.

Variable remote : list event -> request -> response.
Variable cfg : config.

Lemma chain_find_complete (p : ticket -> bool) (vals : list (option (list ticket))) :
  Forall (fun entry => entry <> None) vals ->
  exists hit, chain_find p vals = Ok hit.
Proof.
  induction 1 as [|entry vals Hentry _ IH]; [now exists None|].
  destruct entry as [ts|]; [|congruence]. cbn [chain_find].
  destruct (find p ts) as [t|]; [now exists (Some t)|exact IH].
Qed.

Lemma get_card_id_complete (tickets : tickets_dict) (name : str) :
  complete tickets -> exists cid, get_card_id tickets name = Ok cid.
Proof.
  intros Hc. unfold get_card_id.
  destruct (chain_find_complete (fun c => str_eqb (ticket_name c) name) Hc)
    as [hit Hhit].
  rewrite Hhit. destruct hit as [c|]; cbn [rbind]; eauto.
Qed.

Lemma delete_card_run (tickets : tickets_dict) (name : str) (log : list event) :
  delete_card remote cfg tickets name log =
  match resolve_card_id tickets name with
  | Ok cid =>
      let status := status_code (remote log (delete_request cfg cid)) in
      (Ok status, log ++ [Sent (delete_request cfg cid) status])
  | Raise e => (Raise e, log)
  end.
Proof.
  unfold delete_card, bind, lift, send, ret.
  destruct (resolve_card_id tickets name); reflexivity.
Qed.

Lemma update_card_run (tickets : tickets_dict) (name new_name : str)
      (log : list event) :
  update_card remote cfg tickets name new_name log =
  match resolve_card_id tickets name with
  | Ok cid =>
      let status := status_code (remote log (update_request cfg cid new_name)) in
      (Ok status, log ++ [Sent (update_request cfg cid new_name) status])
  | Raise e => (Raise e, log)
  end.
Proof.
  unfold update_card, bind, lift, send, ret.
  destruct (resolve_card_id tickets name); reflexivity.
Qed.

Lemma resolve_card_id_blank (tickets : tickets_dict) (name : str) :
  get_card_id tickets name = Ok [] -> py_split name = [] ->
  resolve_card_id tickets name = Raise IndexError.
Proof.
  intros Hid Hsplit. unfold resolve_card_id.
  rewrite Hid, Hsplit. cbn [rbind is_empty negb]. now rewrite getitem_nil.
Qed.

Lemma resolve_card_id_token (tickets : tickets_dict) (name first : str)
      (rest : list str) :
  complete tickets -> py_split name = first :: rest ->
  exists cid, resolve_card_id tickets name = Ok cid.
Proof.
  intros Hc Hsplit. unfold resolve_card_id.
  destruct (get_card_id_complete name Hc) as [cid Hcid]. rewrite Hcid.
  cbn [rbind]. destruct cid as [|x cid]; cbn [is_empty negb].
  - rewrite Hsplit, getitem_first. cbn [rbind].
    apply get_card_id_complete, Hc.
  - eauto.
Qed.

(** C10. [delete_card] and [update_card] are total only on names with a
    token.  When the search by exact name yields no id and the name has no
    whitespace-separated token (it is empty or blank), the fallback
    [name.split()[0]] raises [IndexError] before any request is sent, in both
    functions; when the name has a token and no list of the snapshot is
    missing, both send their request and return its status. *)
Theorem card_id_fallback_index_error
        (tickets : tickets_dict) (name new_name : str) (log : list event) :
  (get_card_id tickets name = Ok [] -> py_split name = [] ->
   delete_card remote cfg tickets name log = (Raise IndexError, log)
   /\ update_card remote cfg tickets name new_name log = (Raise IndexError, log))
  /\ (complete tickets -> py_split name <> [] ->
      exists cid,
        resolve_card_id tickets name = Ok cid
        /\ delete_card remote cfg tickets name log
           = (Ok (status_code (remote log (delete_request cfg cid))),
              log ++ [Sent (delete_request cfg cid)
                           (status_code (remote log (delete_request cfg cid)))])
        /\ update_card remote cfg tickets name new_name log
           = (Ok (status_code (remote log (update_request cfg cid new_name))),
              log ++ [Sent (update_request cfg cid new_name)
                           (status_code
                              (remote log (update_request cfg cid new_name)))])).
Proof.
  split.
  - intros Hid Hsplit.
    rewrite delete_card_run, update_card_run.
    rewrite (resolve_card_id_blank _ _ Hid Hsplit). split; reflexivity.
  - intros Hc Hsplit.
    destruct (py_split name) as [|first rest] eqn:Hs; [congruence|].
    destruct (resolve_card_id_token _ Hc Hs) as [cid Hcid].
    exists cid. rewrite delete_card_run, update_card_run, Hcid.
    repeat split; reflexivity.
Qed.

(** ** Moving a card *)

Lemma create_card_run (name list_name : str) (log : list event) :
  create_card remote cfg name list_name log =
  let req := create_request cfg (get_list_id cfg list_name) name in
  (Ok (status_code (remote log req)), log ++ [Sent req (status_code (remote log req))]).
Proof. reflexivity. Qed.

Lemma move_card_run (tickets : tickets_dict) (full_card_name list_name : str)
      (log : list event) :
  move_card remote cfg tickets full_card_name list_name log =
  match move_card_name tickets full_card_name with
  | Raise e => (Raise e, log)
  | Ok name =>
      match delete_card remote cfg tickets name log with
      | (Raise e, log1) => (Raise e, log1)
      | (Ok deleted, log1) =>
          if (deleted =? 200)%Z
          then
            match create_card remote cfg name list_name log1 with
            | (Raise e, log2) => (Raise e, log2)
            | (Ok created, log2) =>
                (Ok (if (created =? 200)%Z then 200 else 400)%Z, log2)
            end
          else (Ok 400%Z, log1)
      end
  end.
Proof.
  unfold move_card. unfold bind at 1. unfold lift.
  destruct (move_card_name tickets full_card_name) as [name|e]; [|reflexivity].
  unfold bind at 1.
  destruct (delete_card remote cfg tickets name log) as [[deleted|e] log1];
    [|reflexivity].
  destruct (deleted =? 200)%Z; [|reflexivity].
  unfold bind. rewrite create_card_run. cbv zeta. unfold ret.
  match goal with
  | |- context [(?x =? 200)%Z] => destruct (x =? 200)%Z
  end; reflexivity.
Qed.

Lemma token_zero : token (u "0").
Proof. split; [discriminate|]. constructor; [reflexivity|constructor]. Qed.

Lemma last_in {A} (x d : A) (l : list A) : In (last (x :: l) d) (x :: l).
Proof.
  revert x. induction l as [|y l IH]; intros x; [now left|].
  right. change (last (x :: y :: l) d) with (last (y :: l) d). apply IH.
Qed.

(** A ticket with an id came from a card with a token: its name and its
    story points are tokens, and the story points read as an integer. *)
Lemma parsed_ticket_shape (c : card) (t : ticket) :
  parse_card_name c = Ok t -> ticket_id t <> [] ->
  token (ticket_name t) /\ token (story_points t)
  /\ exists v, py_int (story_points t) = Ok v.
Proof.
  intros Hparse Hid.
  destruct (card_name c) as [|x s] eqn:Hname.
  - unfold parse_card_name in Hparse. rewrite Hname in Hparse.
    injection Hparse as <-. now contradiction Hid.
  - assert (Hne : card_name c <> []) by (rewrite Hname; discriminate).
    pose proof (split_tokens (card_name c)) as Htok.
    destruct (py_split (card_name c)) as [|first rest] eqn:Hsplit.
    + rewrite (parse_card_name_blank _ Hne Hsplit) in Hparse. discriminate.
    + rewrite (parse_card_name_tokens _ Hne Hsplit) in Hparse.
      injection Hparse as <-. cbn [ticket_name story_points].
      inversion Htok as [|? ? Hfirst Hrest]; subst.
      split; [assumption|].
      destruct rest as [|r rest].
      * split; [apply token_zero|]. exists 0%Z. apply py_int_zero.
      * destruct (py_int (last (r :: rest) [])) as [v|e] eqn:Hint.
        -- split; [|now exists v].
           eapply Forall_forall; [exact Hrest|apply last_in].
        -- split; [apply token_zero|]. exists 0%Z. apply py_int_zero.
Qed.

(** A label parses back to its name and story points. *)
Lemma parse_label (t : ticket) (new_id : str) (v : Z) :
  token (ticket_name t) -> token (story_points t) ->
  py_int (story_points t) = Ok v ->
  parse_card_name {| card_id := new_id; card_name := label t |}
  = Ok {| ticket_id := new_id;
          ticket_name := ticket_name t;
          story_points := story_points t |}.
Proof.
  intros Hname Hpoints Hint.
  rewrite (parse_card_name_tokens
             {| card_id := new_id; card_name := label t |}
             (first := ticket_name t) (rest := [u "-"; story_points t])).
  - cbn [last card_id]. rewrite Hint. reflexivity.
  - cbn [card_name]. unfold label. destruct Hname as [Hne _].
    destruct (ticket_name t); [congruence|discriminate].
  - cbn [card_name]. unfold label. now apply split_label.
Qed.

Lemma chain_find_hit (p : ticket -> bool) (vals : list (option (list ticket)))
      (t : ticket) :
  chain_find p vals = Ok (Some t) -> p t = true /\ In t (flat vals).
Proof.
  induction vals as [|entry vals IH]; [discriminate|].
  destruct entry as [ts|]; [|discriminate]. cbn [chain_find].
  unfold flat. cbn [map concat]. fold (flat vals).
  destruct (find p ts) as [t'|] eqn:Hfind.
  - intros [= <-]. apply find_some in Hfind. destruct Hfind as [Hin Hp].
    split; [assumption|]. apply in_or_app. now left.
  - intros H. destruct (IH H) as [Hp Hin].
    split; [assumption|]. apply in_or_app. now right.
Qed.

(** A search that ends on a ticket did not meet a missing list; any other
    search satisfied by that ticket ends too, at that ticket or before. *)
Lemma chain_find_other (p q : ticket -> bool)
      (vals : list (option (list ticket))) (t0 : ticket) :
  chain_find p vals = Ok (Some t0) -> q t0 = true ->
  exists t, chain_find q vals = Ok (Some t).
Proof.
  induction vals as [|entry vals IH]; [discriminate|].
  destruct entry as [ts|]; [|discriminate]. cbn [chain_find].
  intros Hp Hq.
  destruct (find q ts) as [t|] eqn:Hfq; [now exists t|].
  destruct (find p ts) as [t'|] eqn:Hfp.
  - injection Hp as ->. apply find_some in Hfp. destruct Hfp as [Hin _].
    pose proof (find_none _ _ Hfq _ Hin) as Hcontra. congruence.
  - now apply IH.
Qed.

(** ** The weekly total *)

Lemma mapr_Forall2 {A B} (f : A -> result B) (l : list A) (l' : list B) :
  mapr f l = Ok l' <-> Forall2 (fun x y => f x = Ok y) l l'.
Proof.
  revert l'. induction l as [|x l IH]; intros l'; cbn [mapr].
  - split.
    + intros [= <-]. constructor.
    + intros H. inversion H. reflexivity.
  - split.
    + destruct (f x) as [y|e] eqn:Hx; cbn [rbind]; [|discriminate].
      destruct (mapr f l) as [ys|e] eqn:Hl; cbn [rbind]; [|discriminate].
      intros [= <-]. constructor; [assumption|]. now apply IH.
    + intros H. inversion H as [|? y ? ys Hx Hl]; subst.
      rewrite Hx. cbn [rbind]. apply IH in Hl. rewrite Hl. reflexivity.
Qed.

(** The story points of a parsed ticket always read as an integer. *)
Lemma parsed_points_int (c : card) (t : ticket) :
  parse_card_name c = Ok t -> exists v, py_int (story_points t) = Ok v.
Proof.
  intros Hparse.
  destruct (card_name c) as [|x s] eqn:Hname.
  - unfold parse_card_name in Hparse. rewrite Hname in Hparse.
    injection Hparse as <-. exists 0%Z. apply py_int_zero.
  - assert (Hne : card_name c <> []) by (rewrite Hname; discriminate).
    destruct (py_split (card_name c)) as [|first rest] eqn:Hsplit.
    + rewrite (parse_card_name_blank _ Hne Hsplit) in Hparse. discriminate.
    + rewrite (parse_card_name_tokens _ Hne Hsplit) in Hparse.
      injection Hparse as <-. cbn [story_points].
      destruct rest as [|r rest]; [exists 0%Z; apply py_int_zero|].
      destruct (py_int (last (r :: rest) [])) as [v|e] eqn:Hint;
        [now exists v|exists 0%Z; apply py_int_zero].
Qed.

Lemma parsed_points_total (cards : list card) (ts : list ticket) :
  mapr parse_card_name cards = Ok ts ->
  exists points, Forall2 (fun t v => py_int (story_points t) = Ok v) ts points.
Proof.
  intros H. apply mapr_Forall2 in H.
  induction H as [|c t cards ts Hc _ [points IH]]; [exists []; constructor|].
  destruct (parsed_points_int _ Hc) as [v Hv].
  exists (v :: points). now constructor.
Qed.

Lemma Forall2_tl {A B} (R : A -> B -> Prop) (l : list A) (l' : list B) :
  Forall2 R l l' -> Forall2 R (tl l) (tl l').
Proof. intros H. destruct H; [constructor|assumption]. Qed.

(** ** The report: removing the sentinel line against skipping index 0 *)

Lemma list_remove_first (x : str) (pre post : list str) :
  Forall (fun y => y <> x) pre ->
  list_remove x (pre ++ x :: post) = Ok (pre ++ post).
Proof.
  induction 1 as [|y pre Hy _ IH]; cbn [app list_remove].
  - now rewrite str_eqb_refl.
  - apply str_eqb_neq in Hy. rewrite Hy, IH. reflexivity.
Qed.

Lemma get_week_word (today : Z) (week : str) :
  get_week today = Ok week -> exists rest, week = week_word ++ rest.
Proof.
  unfold get_week.
  destruct (add_days today _) as [monday|e]; cbn [rbind]; [|discriminate].
  destruct (add_days monday 4) as [friday|e]; cbn [rbind]; [|discriminate].
  intros [= <-]. eexists. reflexivity.
Qed.

Lemma header_not_sentinel (today : Z) (week : str) :
  get_week today = Ok week -> week ++ u ":" ++ nl ++ nl <> sentinel_line.
Proof.
  intros Hweek. destruct (get_week_word _ Hweek) as [rest ->].
  discriminate.
Qed.

Lemma template_body_snapshot (a b c d : list ticket) :
  let tickets := snapshot (Some a) (Some b) (Some c) (Some d) in
  template_body cfg tickets (dict_keys tickets)
  = Ok (lines_before_done cfg a b c ++ map (template_line cfg) d).
Proof.
  cbv zeta. unfold lines_before_done. rewrite <- !app_assoc.
  cbn. rewrite app_nil_r. reflexivity.
Qed.

Lemma template_body_skip_snapshot (a b c d : list ticket) :
  let tickets := snapshot (Some a) (Some b) (Some c) (Some d) in
  template_body_skip cfg tickets (dict_keys tickets)
  = Ok (lines_before_done cfg a b c ++ map (template_line cfg) (from1 d)).
Proof.
  cbv zeta. unfold lines_before_done. rewrite <- !app_assoc.
  cbn. rewrite app_nil_r. reflexivity.
Qed.

Lemma lines_before_done_not_sentinel (a b c : list ticket) :
  Forall (fun t => template_line cfg t <> sentinel_line) (a ++ b ++ c) ->
  Forall (fun y => y <> sentinel_line) (lines_before_done cfg a b c).
Proof.
  intros H.
  apply Forall_app in H. destruct H as [Ha H].
  apply Forall_app in H. destruct H as [Hb Hc].
  unfold lines_before_done.
  repeat (apply Forall_app; split);
    repeat (constructor; [discriminate|]);
    try (apply Forall_map; assumption).
  constructor.
Qed.

Lemma create_letter_template_run (today : Z) (tickets : tickets_dict)
      (log : list event) :
  create_letter_template remote cfg today tickets log =
  match get_week today with
  | Raise e => (Raise e, log)
  | Ok week =>
      match template_body cfg tickets (dict_keys tickets) with
      | Raise e => (Raise e, log)
      | Ok body =>
          match list_remove sentinel_line
                  ((week ++ u ":" ++ nl ++ nl) :: body) with
          | Raise e => (Raise e, log)
          | Ok template =>
              match get_weekly_story_points remote cfg log with
              | (Raise e, log') => (Raise e, log')
              | (Ok total, log') =>
                  match py_str total with
                  | Raise e => (Raise e, log')
                  | Ok shown =>
                      (Ok (join (template
                                 ++ [u "SP per week: " ++ shown ++ nl])),
                       log')
                  end
              end
          end
      end
  end.
Proof.
  unfold create_letter_template, bind, lift, ret.
  destruct (get_week today); [|reflexivity].
  destruct (template_body cfg tickets (dict_keys tickets)); [|reflexivity].
  destruct (list_remove _ _); [|reflexivity].
  destruct (get_weekly_story_points remote cfg log) as [[total|e] log'];
    [|reflexivity].
  destruct (py_str total); reflexivity.
Qed.

Lemma create_letter_template_skip_run (today : Z) (tickets : tickets_dict)
      (log : list event) :
  create_letter_template_skip remote cfg today tickets log =
  match get_week today with
  | Raise e => (Raise e, log)
  | Ok week =>
      match template_body_skip cfg tickets (dict_keys tickets) with
      | Raise e => (Raise e, log)
      | Ok body =>
          match get_weekly_story_points remote cfg log with
          | (Raise e, log') => (Raise e, log')
          | (Ok total, log') =>
              match py_str total with
              | Raise e => (Raise e, log')
              | Ok shown =>
                  (Ok (join (((week ++ u ":" ++ nl ++ nl) :: body)
                             ++ [u "SP per week: " ++ shown ++ nl])),
                   log')
              end
          end
      end
  end.
Proof.
  unfold create_letter_template_skip, bind, lift, ret.
  destruct (get_week today); [|reflexivity].
  destruct (template_body_skip cfg tickets (dict_keys tickets));
    [|reflexivity].
  destruct (get_weekly_story_points remote cfg log) as [[total|e] log'];
    [|reflexivity].
  destruct (py_str total); reflexivity.
Qed.

(** C7, amended. For every snapshot with its four lists fetched, in which
    the line rendered for index 0 of the Done list is the literal sentinel
    line and no line rendered for a ticket of the three lists before Done is
    that line, removing the literal line from the assembled template gives
    the same outcome and the same report as skipping index 0 of the Done
    list when rendering. *)
Theorem remove_sentinel_equals_skip
        (today : Z) (in_progress waiting testing done : list ticket)
        (sentinel : ticket) (log : list event) :
  template_line cfg sentinel = sentinel_line ->
  Forall (fun t => template_line cfg t <> sentinel_line)
         (in_progress ++ waiting ++ testing) ->
  let tickets := snapshot (Some in_progress) (Some waiting) (Some testing)
                          (Some (sentinel :: done)) in
  create_letter_template remote cfg today tickets log
  = create_letter_template_skip remote cfg today tickets log.
Proof.
  intros Hsentinel Hothers. cbv zeta.
  rewrite create_letter_template_run, create_letter_template_skip_run.
  destruct (get_week today) as [week|e] eqn:Hweek; [|reflexivity].
  rewrite template_body_snapshot, template_body_skip_snapshot.
  cbn [map from1 tl]. rewrite Hsentinel.
  change ((week ++ u ":" ++ nl ++ nl)
          :: lines_before_done cfg in_progress waiting testing
             ++ sentinel_line :: map (template_line cfg) done)
    with (((week ++ u ":" ++ nl ++ nl)
           :: lines_before_done cfg in_progress waiting testing)
          ++ sentinel_line :: map (template_line cfg) done).
  rewrite list_remove_first.
  - reflexivity.
  - constructor; [exact (header_not_sentinel _ Hweek)|].
    now apply lines_before_done_not_sentinel.
Qed.

(** ** The weekly rollover *)

Lemma post_comments_run (ts : list ticket) (log : list event) :
  post_comments remote cfg ts log
  = (Ok 200%Z, log ++ map (ok_comment cfg) ts)
  \/ exists pre t post s,
      ts = pre ++ t :: post /\ s <> 200%Z
      /\ post_comments remote cfg ts log
         = (Ok s, log ++ map (ok_comment cfg) pre
                  ++ [Sent (comment_request cfg (label t)) s]).
Proof.
  revert log. induction ts as [|t ts IH]; intros log.
  - left. cbn. now rewrite app_nil_r.
  - cbn [post_comments]. unfold bind, send.
    destruct (Z.eqb_spec
                (status_code (remote log (comment_request cfg (label t)))) 200)
      as [H200|Hnot]; cbn [negb].
    + rewrite H200.
      destruct (IH (log ++ [Sent (comment_request cfg (label t)) 200%Z]))
        as [Hall|(pre & x & post & s & Hts & Hs & Hrun)].
      * left. rewrite Hall. cbn [map]. rewrite <- app_assoc. reflexivity.
      * right. exists (t :: pre), x, post, s.
        split; [now rewrite Hts|]. split; [assumption|].
        rewrite Hrun. cbn [map]. rewrite <- !app_assoc. reflexivity.
    + right. exists [], t, ts, (status_code
                                  (remote log (comment_request cfg (label t)))).
      split; [reflexivity|]. split; [assumption|]. reflexivity.
Qed.

Lemma delete_done_cons (tickets : tickets_dict) (t : ticket)
      (ts : list ticket) (log : list event) :
  delete_done remote cfg tickets (t :: ts) log =
  match resolve_card_id tickets (ticket_name t) with
  | Raise e => (Raise e, log)
  | Ok cid =>
      let s := status_code (remote log (delete_request cfg cid)) in
      if (s =? 200)%Z
      then delete_done remote cfg tickets ts
             (log ++ [Sent (delete_request cfg cid) s])
      else (Ok tt, log ++ [Sent (delete_request cfg cid) s;
                           Printed (delete_failed (ticket_name t))])
  end.
Proof.
  cbn [delete_done]. unfold bind at 1. rewrite delete_card_run.
  destruct (resolve_card_id tickets (ticket_name t)) as [cid|e];
    [|reflexivity].
  cbv beta iota zeta.
  destruct (_ =? 200)%Z; cbn [negb]; [reflexivity|].
  unfold print. rewrite <- app_assoc. reflexivity.
Qed.

Lemma delete_done_run (tickets : tickets_dict) (ts : list ticket)
      (log : list event) :
  exists dels,
    (Forall2 (deleted_ok cfg tickets) ts dels
     /\ delete_done remote cfg tickets ts log
        = (Ok tt, log ++ dels ++ [Printed archived]))
    \/ exists pre t post,
        ts = pre ++ t :: post
        /\ Forall2 (deleted_ok cfg tickets) pre dels
        /\ ((exists cid s,
               resolve_card_id tickets (ticket_name t) = Ok cid
               /\ s <> 200%Z
               /\ delete_done remote cfg tickets ts log
                  = (Ok tt, log ++ dels
                            ++ [Sent (delete_request cfg cid) s;
                                Printed (delete_failed (ticket_name t))]))
            \/ exists e,
                resolve_card_id tickets (ticket_name t) = Raise e
                /\ delete_done remote cfg tickets ts log
                   = (Raise e, log ++ dels)).
Proof.
  revert log. induction ts as [|t ts IH]; intros log.
  - exists []. left. split; [constructor|reflexivity].
  - rewrite delete_done_cons.
    destruct (resolve_card_id tickets (ticket_name t)) as [cid|e] eqn:Hcid.
    + cbv zeta.
      destruct (Z.eqb_spec
                  (status_code (remote log (delete_request cfg cid))) 200)
        as [H200|Hnot].
      * rewrite H200.
        destruct (IH (log ++ [Sent (delete_request cfg cid) 200%Z]))
          as [dels [[Hall Hrun]|(pre & x & post & Hts & Hpre & Hx)]].
        -- exists (Sent (delete_request cfg cid) 200%Z :: dels). left.
           split.
           ++ constructor; [|assumption]. exists cid. now split.
           ++ rewrite Hrun. rewrite <- app_assoc. reflexivity.
        -- exists (Sent (delete_request cfg cid) 200%Z :: dels). right.
           exists (t :: pre), x, post.
           split; [now rewrite Hts|].
           split; [constructor; [exists cid; now split|assumption]|].
           destruct Hx as [(cid' & s & Hcid' & Hs & Hrun)|(e & He & Hrun)].
           ++ left. exists cid', s. split; [assumption|].
              split; [assumption|].
              rewrite Hrun. rewrite <- app_assoc. reflexivity.
           ++ right. exists e. split; [assumption|].
              rewrite Hrun. rewrite <- app_assoc. reflexivity.
      * exists []. right. exists [], t, ts.
        split; [reflexivity|]. split; [constructor|].
        left. exists cid, (status_code (remote log (delete_request cfg cid))).
        split; [assumption|]. split; [assumption|]. reflexivity.
    + exists []. right. exists [], t, ts.
      split; [reflexivity|]. split; [constructor|].
      right. exists e. split; [assumption|]. now rewrite app_nil_r.
Qed.

Lemma get_weekly_story_points_log (log : list event) :
  exists evs,
    snd (get_weekly_story_points remote cfg log) = log ++ evs
    /\ Forall report_event evs.
Proof.
  unfold get_weekly_story_points, get_list_cards, bind, send, lift, print, ret.
  set (req := list_cards_request cfg (DONE_LIST_ID cfg)).
  destruct (negb (status_code (remote log req) =? 200)%Z).
  - exists [Sent req (status_code (remote log req)); Printed fetch_failed].
    cbn [iter_tickets snd]. split; [now rewrite <- app_assoc|].
    repeat constructor. discriminate.
  - exists [Sent req (status_code (remote log req))].
    split; [|repeat constructor].
    destruct (mapr parse_card_name _) as [ts|e]; [|reflexivity].
    cbn [iter_tickets].
    destruct (mapr _ (from1 ts)); reflexivity.
Qed.

Lemma report_not_archived (template : list str) (shown : str) :
  join (template ++ [u "SP per week: " ++ shown ++ nl]) <> archived.
Proof.
  unfold join. rewrite concat_app. cbn [concat]. rewrite app_nil_r.
  rewrite !app_assoc. unfold nl.
  change archived
    with (u "Recently done cards has been successfully archived" ++ [46%N]).
  intros H. apply app_inj_tail in H. destruct H as [_ H]. discriminate H.
Qed.

Lemma create_letter_template_log (today : Z) (tickets : tickets_dict)
      (log : list event) :
  exists evs,
    snd (create_letter_template remote cfg today tickets log) = log ++ evs
    /\ Forall report_event evs
    /\ forall report,
        fst (create_letter_template remote cfg today tickets log) = Ok report ->
        report <> archived.
Proof.
  rewrite create_letter_template_run.
  assert (Hnone : forall e : exn,
             exists evs,
               snd (@Raise str e, log) = log ++ evs
               /\ Forall report_event evs
               /\ forall report,
                   fst (@Raise str e, log) = Ok report -> report <> archived).
  { intros e. exists []. cbn [fst snd]. rewrite app_nil_r.
    split; [reflexivity|]. split; [constructor|discriminate]. }
  destruct (get_week today) as [week|e]; [|apply Hnone].
  destruct (template_body cfg tickets (dict_keys tickets)) as [body|e];
    [|apply Hnone].
  destruct (list_remove _ _) as [template|e]; [|apply Hnone].
  destruct (get_weekly_story_points_log log) as (evs & Hlog & Hevs).
  destruct (get_weekly_story_points remote cfg log) as [[total|e] log'];
    [destruct (py_str total) as [shown|e]|];
    cbn [snd fst] in *; exists evs.
  - split; [assumption|]. split; [assumption|].
    intros report [= <-]. apply report_not_archived.
  - split; [assumption|]. split; [assumption|discriminate].
  - split; [assumption|]. split; [assumption|discriminate].
Qed.

Lemma run_monday_unfold (today : Z) (tickets : tickets_dict)
      (log : list event) :
  run_monday remote cfg today tickets log =
  match create_letter_template remote cfg today tickets log with
  | (Raise e, log0) => (Raise e, log0)
  | (Ok report, log0) =>
      match done_tail tickets with
      | Raise e => (Raise e, log0 ++ [Printed report])
      | Ok ts =>
          match post_comments remote cfg ts (log0 ++ [Printed report]) with
          | (Raise e, log2) => (Raise e, log2)
          | (Ok code, log2) =>
              if (code =? 200)%Z
              then delete_done remote cfg tickets ts log2
              else (Ok tt, log2 ++ [Printed comments_failed])
          end
      end
  end.
Proof.
  unfold run_monday, move_cards_name_to_comments, done_tail.
  unfold bind at 1.
  destruct (create_letter_template remote cfg today tickets log)
    as [[report|e] log0]; [|reflexivity].
  unfold bind, lift, print.
  destruct (dict_get tickets (u "Done")) as [entry|e]; [|reflexivity].
  cbn [rbind].
  destruct (iter_tickets entry) as [all|e]; [|reflexivity].
  cbn [rbind].
  destruct (post_comments remote cfg (from1 all) (log0 ++ [Printed report]))
    as [[code|e] log2]; [|reflexivity].
  destruct (code =? 200)%Z; reflexivity.
Qed.

(** Every rollover goes one of the five ways. *)
Lemma run_monday_run (today : Z) (tickets : tickets_dict) (log : list event) :
  exists evs,
    snd (run_monday remote cfg today tickets log) = log ++ evs
    /\ monday_run cfg tickets
         (fst (run_monday remote cfg today tickets log)) evs.
Proof.
  rewrite run_monday_unfold.
  destruct (create_letter_template_log today tickets log)
    as (evs & Hlog & Hevs & Hreport).
  destruct (create_letter_template remote cfg today tickets log)
    as [[report|e] log0]; cbn [fst snd] in Hlog, Hreport; subst log0.
  2:{ exists evs. split; [reflexivity|]. eapply report_crashed; eassumption. }
  assert (Hevs' : Forall report_event (evs ++ [Printed report])).
  { apply Forall_app. split; [assumption|].
    constructor; [|constructor]. now apply Hreport. }
  destruct (done_tail tickets) as [ts|e] eqn:Hdone.
  2:{ exists (evs ++ [Printed report]). cbn [fst snd].
      split; [now rewrite app_assoc|]. eapply report_crashed; eassumption. }
  destruct (post_comments_run ts ((log ++ evs) ++ [Printed report]))
    as [Hall|(pre & t & post & s & Hts & Hs & Hrun)].
  - rewrite Hall. change (200 =? 200)%Z with true. cbv iota.
    destruct (delete_done_run tickets ts
                (((log ++ evs) ++ [Printed report]) ++ map (ok_comment cfg) ts))
      as [dels [[Hdels Hrun]|(pre & t & post & Hts & Hpre & Hx)]].
    + rewrite Hrun. cbn [fst snd].
      exists ((evs ++ [Printed report]) ++ map (ok_comment cfg) ts
              ++ dels ++ [Printed archived]).
      split; [now rewrite <- !app_assoc|]. eapply all_archived; eassumption.
    + destruct Hx as [(cid & s & Hcid & Hs & Hrun)|(e & He & Hrun)];
        rewrite Hrun; cbn [fst snd]; subst ts.
      * exists ((evs ++ [Printed report])
                ++ map (ok_comment cfg) (pre ++ t :: post) ++ dels
                ++ [Sent (delete_request cfg cid) s;
                    Printed (delete_failed (ticket_name t))]).
        split; [now rewrite <- !app_assoc|]. eapply deletion_rejected; eassumption.
      * exists ((evs ++ [Printed report])
                ++ map (ok_comment cfg) (pre ++ t :: post) ++ dels).
        split; [now rewrite <- !app_assoc|]. eapply deletion_crashed; eassumption.
  - rewrite Hrun. apply Z.eqb_neq in Hs. rewrite Hs. cbn [fst snd].
    apply Z.eqb_neq in Hs. subst ts.
    exists ((evs ++ [Printed report]) ++ map (ok_comment cfg) pre
            ++ [Sent (comment_request cfg (label t)) s;
                Printed comments_failed]).
    split; [now rewrite <- !app_assoc|]. eapply comment_rejected; eassumption.
Qed.

Lemma report_events_get (evs : list event) (r : request) (s : Z) :
  Forall report_event evs -> In (Sent r s) evs -> meth r = GET.
Proof.
  intros Hevs Hin. rewrite Forall_forall in Hevs. exact (Hevs _ Hin).
Qed.

Lemma report_events_printed (evs : list event) (line : str) :
  Forall report_event evs -> In (Printed line) evs -> line <> archived.
Proof.
  intros Hevs Hin. rewrite Forall_forall in Hevs. exact (Hevs _ Hin).
Qed.

Lemma ok_comments_sent (ts : list ticket) (r : request) (s : Z) :
  In (Sent r s) (map (ok_comment cfg) ts) ->
  s = 200%Z /\ exists t, In t ts /\ r = comment_request cfg (label t).
Proof.
  intros Hin. apply in_map_iff in Hin. destruct Hin as (t & Heq & Hin).
  unfold ok_comment in Heq. injection Heq as <- <-. eauto.
Qed.

Lemma ok_comments_printed (ts : list ticket) (line : str) :
  ~ In (Printed line) (map (ok_comment cfg) ts).
Proof.
  intros Hin. apply in_map_iff in Hin. destruct Hin as (t & Heq & _).
  discriminate Heq.
Qed.

Lemma deletions_sent (tickets : tickets_dict) (ts : list ticket)
      (dels : list event) (e : event) :
  Forall2 (deleted_ok cfg tickets) ts dels -> In e dels ->
  exists t cid, In t ts
                /\ resolve_card_id tickets (ticket_name t) = Ok cid
                /\ e = Sent (delete_request cfg cid) 200%Z.
Proof.
  induction 1 as [|t d ts dels (cid & Hcid & ->) _ IH]; intros Hin;
    [contradiction|].
  destruct Hin as [<-|Hin].
  - exists t, cid. repeat split; [now left|assumption].
  - destruct (IH Hin) as (t' & cid' & Hin' & Hcid' & ->).
    exists t', cid'. repeat split; [now right|assumption].
Qed.

Lemma deletions_cover (tickets : tickets_dict) (ts : list ticket)
      (dels : list event) (t : ticket) :
  Forall2 (deleted_ok cfg tickets) ts dels -> In t ts ->
  exists e, deleted_ok cfg tickets t e /\ In e dels.
Proof.
  induction 1 as [|t' d ts dels Hd _ IH]; intros Hin; [contradiction|].
  destruct Hin as [<-|Hin].
  - exists d. split; [assumption|now left].
  - destruct (IH Hin) as (e & He & Hine). exists e. split; [assumption|now right].
Qed.

(** Sorting out where an event of the log sits. *)
Ltac in_log H :=
  repeat (rewrite in_app_iff in H); cbn [In] in H;
  repeat match type of H with
         | _ \/ _ => destruct H as [H|H]
         end.

Ltac absurd_event :=
  match goal with
  | H : False |- _ => contradiction H
  | H : Printed _ = Sent _ _ |- _ => discriminate H
  | H : Sent _ _ = Printed _ |- _ => discriminate H
  | Hevs : Forall report_event ?evs, H : In (Sent ?r _) ?evs |- _ =>
      let G := fresh in
      pose proof (report_events_get _ _ Hevs H) as G; discriminate G
  | Hevs : Forall report_event ?evs, H : In (Printed archived) ?evs |- _ =>
      now contradiction (report_events_printed Hevs H)
  | H : In (Sent _ ?s) (map (ok_comment _) _), Hs : ?s <> 200%Z |- _ =>
      now contradiction Hs; apply (ok_comments_sent _ _ _ H)
  | H : In (Printed _) (map (ok_comment _) _) |- _ =>
      now contradiction (ok_comments_printed _ _ H)
  end.

Lemma report_event_no_delete (e : event) :
  report_event e -> event_method e <> Some DELETE.
Proof.
  destruct e as [r s|line]; cbn; [intros ->|]; discriminate.
Qed.

Lemma monday_comment_failure (tickets : tickets_dict) (r : result unit)
      (evs : list event) (text : str) (s : Z) :
  monday_run cfg tickets r evs ->
  In (Sent (comment_request cfg text) s) evs -> s <> 200%Z ->
  r = Ok tt
  /\ Forall (fun e => event_method e <> Some DELETE) evs
  /\ exists before,
      evs = before ++ [Sent (comment_request cfg text) s;
                       Printed comments_failed]
      /\ Forall (fun e => report_event e \/ exists t, e = ok_comment cfg t)
                before.
Proof.
  intros Hrun Hin Hs.
  destruct Hrun as [e evs Hevs
                   |evs pre post t s' Hevs Hdone Hs'
                   |evs dels pre post t cid s' Hevs Hdone Hdels Hcid Hs'
                   |evs dels pre post t e Hevs Hdone Hdels Hcid
                   |evs dels ts Hevs Hdone Hdels];
    in_log Hin; try absurd_event;
    try (destruct (deletions_sent _ Hdels Hin) as (? & ? & _ & _ & [=]);
         congruence);
    try discriminate Hin.
  injection Hin as Htext <-.
  split; [reflexivity|]. split.
  - apply Forall_app. split.
    + eapply Forall_impl; [|exact Hevs]. apply report_event_no_delete.
    + apply Forall_app. split.
      * apply Forall_map. apply Forall_forall. intros; discriminate.
      * repeat constructor; discriminate.
  - exists (evs ++ map (ok_comment cfg) pre).
    split; [rewrite Htext; now rewrite <- app_assoc|].
    apply Forall_app. split.
    + eapply Forall_impl; [|exact Hevs]. intros; now left.
    + apply Forall_map. apply Forall_forall. intros x _. right. now exists x.
Qed.

Lemma monday_deletion_failure (tickets : tickets_dict) (r : result unit)
      (evs : list event) (req : request) (s : Z) :
  monday_run cfg tickets r evs ->
  In (Sent req s) evs -> meth req = DELETE -> s <> 200%Z ->
  r = Ok tt
  /\ exists before name,
      evs = before ++ [Sent req s; Printed (delete_failed name)]
      /\ Forall (fun e => forall r' s', e = Sent r' s' ->
                                       meth r' <> GET -> s' = 200%Z) before.
Proof.
  intros Hrun Hin Hmeth Hs.
  destruct Hrun as [e evs Hevs
                   |evs pre post t s' Hevs Hdone Hs'
                   |evs dels pre post t cid s' Hevs Hdone Hdels Hcid Hs'
                   |evs dels pre post t e Hevs Hdone Hdels Hcid
                   |evs dels ts Hevs Hdone Hdels];
    in_log Hin;
    try (pose proof (report_events_get _ _ Hevs Hin); congruence);
    try absurd_event;
    try (destruct (deletions_sent _ Hdels Hin) as (? & ? & _ & _ & [=]);
         congruence);
    try (injection Hin as <- _; discriminate Hmeth);
    try discriminate Hin.
  injection Hin as <- <-.
  split; [reflexivity|].
  exists (evs ++ map (ok_comment cfg) (pre ++ t :: post) ++ dels),
         (ticket_name t).
  split; [now rewrite <- !app_assoc|].
  apply Forall_forall. intros x Hx r' s'' -> Hget.
  in_log Hx.
  - contradiction Hget. exact (report_events_get _ _ Hevs Hx).
  - apply (ok_comments_sent _ _ _ Hx).
  - destruct (deletions_sent _ Hdels Hx) as (? & ? & _ & _ & [= _ ->]).
    reflexivity.
Qed.

Lemma monday_success (tickets : tickets_dict) (r : result unit)
      (evs : list event) :
  monday_run cfg tickets r evs ->
  In (Printed archived) evs ->
  r = Ok tt
  /\ (forall req s, In (Sent req s) evs -> meth req <> GET -> s = 200%Z)
  /\ exists ts,
      done_tail tickets = Ok ts
      /\ forall t, In t ts ->
           In (ok_comment cfg t) evs
           /\ exists e, deleted_ok cfg tickets t e /\ In e evs.
Proof.
  intros Hrun Hin.
  destruct Hrun as [e evs Hevs
                   |evs pre post t s' Hevs Hdone Hs'
                   |evs dels pre post t cid s' Hevs Hdone Hdels Hcid Hs'
                   |evs dels pre post t e Hevs Hdone Hdels Hcid
                   |evs dels ts Hevs Hdone Hdels];
    in_log Hin; try absurd_event;
    try (destruct (deletions_sent _ Hdels Hin) as (? & ? & _ & _ & [=]));
    try discriminate Hin.
  all: split; [reflexivity|]; split.
  all: try (intros req s Hreq Hget; in_log Hreq; try absurd_event;
            [contradiction Hget; exact (report_events_get _ _ Hevs Hreq)
            |apply (ok_comments_sent _ _ _ Hreq)
            |destruct (deletions_sent _ Hdels Hreq)
               as (? & ? & _ & _ & [= _ ->]); reflexivity]).
  all: exists ts; split; [assumption|]; intros t Ht; split.
  all: try (rewrite !in_app_iff; right; left; now apply in_map).
  all: destruct (deletions_cover _ Hdels Ht) as (e & He & Hine);
    exists e; split; [assumption|];
    rewrite !in_app_iff; right; right; left; assumption.
Qed.

(** C4. Every rollover extends the log by events [evs] such that: if a
    comment request in [evs] was answered with a status other than 200, then
    the run ended normally, no DELETE request occurs anywhere in [evs], the
    rejected comment is the last request and is followed only by the line
    that names the comment step, and everything before it, the comments
    accepted earlier included, is still there; if a DELETE request was
    answered with a status other than 200, it is the last request, followed
    only by the line naming the card that could not be deleted, and every
    comment and deletion before it was accepted; and if the success line is
    printed, every comment and every deletion was answered 200 and every
    Done ticket after index 0 has its comment and its deletion in [evs]. *)
Theorem monday_rollover_stops (today : Z) (tickets : tickets_dict)
        (log : list event) :
  let outcome := run_monday remote cfg today tickets log in
  exists evs,
    snd outcome = log ++ evs
    /\ (forall text s,
          In (Sent (comment_request cfg text) s) evs -> s <> 200%Z ->
          fst outcome = Ok tt
          /\ Forall (fun e => event_method e <> Some DELETE) evs
          /\ exists before,
              evs = before ++ [Sent (comment_request cfg text) s;
                               Printed comments_failed]
              /\ Forall (fun e => report_event e
                                  \/ exists t, e = ok_comment cfg t) before)
    /\ (forall req s,
          In (Sent req s) evs -> meth req = DELETE -> s <> 200%Z ->
          fst outcome = Ok tt
          /\ exists before name,
              evs = before ++ [Sent req s; Printed (delete_failed name)]
              /\ Forall (fun e => forall r' s', e = Sent r' s' ->
                                               meth r' <> GET -> s' = 200%Z)
                        before)
    /\ (In (Printed archived) evs ->
        fst outcome = Ok tt
        /\ (forall req s, In (Sent req s) evs -> meth req <> GET -> s = 200%Z)
        /\ exists ts,
            done_tail tickets = Ok ts
            /\ forall t, In t ts ->
                 In (ok_comment cfg t) evs
                 /\ exists e, deleted_ok cfg tickets t e /\ In e evs).
Proof.
  cbv zeta.
  destruct (run_monday_run today tickets log) as (evs & Hlog & Hrun).
  exists evs. split; [assumption|]. split; [|split].
  - intros text s Hin Hs. eapply monday_comment_failure; eassumption.
  - intros req s Hin Hmeth Hs. eapply monday_deletion_failure; eassumption.
  - intros Hin. eapply monday_success; eassumption.
Qed.

End BoardProperties.

(** ** The theorems at work on the sample board *)

Lemma card_id_fallback_index_error_witness :
  (get_card_id sample_tickets (u " ") = Ok [] /\ py_split (u " ") = []
   /\ delete_card rejecting sample_cfg sample_tickets (u " ") []
      = (Raise IndexError, [])
   /\ update_card rejecting sample_cfg sample_tickets (u " ") (u "T-9 1") []
      = (Raise IndexError, []))
  /\ (py_split (u "T-2 3") <> []
      /\ exists cid,
          resolve_card_id sample_tickets (u "T-2 3") = Ok cid
          /\ cid = u "c2"
          /\ fst (delete_card rejecting sample_cfg sample_tickets
                    (u "T-2 3") []) = Ok 500%Z).
Proof.
  split.
  - split; [reflexivity|]. split; [reflexivity|].
    apply (proj1 (@card_id_fallback_index_error rejecting sample_cfg
                    sample_tickets (u " ") (u "T-9 1") []));
      reflexivity.
  - split; [discriminate|].
    destruct (proj2 (@card_id_fallback_index_error rejecting sample_cfg
                       sample_tickets (u "T-2 3") (u "T-2 5") []))
      as (cid & Hcid & Hdel & _).
    + repeat constructor; discriminate.
    + discriminate.
    + exists cid. split; [assumption|]. split.
      * vm_compute in Hcid. now injection Hcid.
      * rewrite Hdel. reflexivity.
Defined.

Lemma sample_tickets_parsed : parsed sample_tickets.
Proof.
  unfold parsed. cbn.
  constructor; [exists (mk_card "c1" "T-1 8"); reflexivity|].
  constructor; [exists (mk_card "c0" "All"); reflexivity|].
  constructor; [exists (mk_card "c2" "T-2 3"); reflexivity|].
  constructor; [exists (mk_card "c3" "T-3 5"); reflexivity|].
  constructor; [exists (mk_card "c4" "T-4 2"); reflexivity|].
  constructor.
Qed.

Example move_card_example :
  move_card_name sample_tickets (u "T-3") = Ok (u "T-3 - 5")
  /\ parse_card_name {| card_id := u "n1"; card_name := u "T-3 - 5" |}
     = Ok (mk_ticket "n1" "T-3" "5")
  /\ fst (move_card accepting sample_cfg sample_tickets (u "T-3") (u "Testing")
            []) = Ok 200%Z
  /\ fst (move_card rejecting sample_cfg sample_tickets (u "T-3") (u "Testing")
            []) = Ok 400%Z.
Proof. repeat split; reflexivity. Qed.

Lemma remove_sentinel_equals_skip_witness :
  template_line sample_cfg (mk_ticket "c0" "All" "0") = sentinel_line
  /\ Forall (fun t => template_line sample_cfg t <> sentinel_line)
            ([mk_ticket "c1" "T-1" "8"] ++ [] ++ [])
  /\ create_letter_template (serving sample_cards) sample_cfg 739196%Z
       sample_tickets []
     = create_letter_template_skip (serving sample_cards) sample_cfg 739196%Z
         sample_tickets [].
Proof.
  assert (Hothers : Forall (fun t => template_line sample_cfg t <> sentinel_line)
                      ([mk_ticket "c1" "T-1" "8"] ++ [] ++ []))
    by (repeat constructor; discriminate).
  split; [reflexivity|]. split; [exact Hothers|].
  exact (@remove_sentinel_equals_skip (serving sample_cards) sample_cfg
           739196%Z [mk_ticket "c1" "T-1" "8"] [] [] (tl sample_done)
           (mk_ticket "c0" "All" "0") [] eq_refl Hothers).
Defined.

(** C7, as stated, fails on a snapshot in which a card named All, without
    points, also sits in the first list: the removal takes the first line
    equal to the literal one, which is that card's, and the sentinel of the
    Done list stays in the report; skipping index 0 of Done does the
    opposite. *)
Lemma remove_sentinel_counterexample :
  let header := week_word ++ u " 04.11.2024 - 08.11.2024:" ++ nl ++ nl in
  let footer := u "SP per week: 10" ++ nl in
  fst (create_letter_template (serving sample_cards) sample_cfg 739196%Z
         twin_tickets [])
  = Ok (join [header;
              u "In progress:" ++ nl;
              u "Waiting for customer:" ++ nl;
              u "Testing:" ++ nl;
              u "Done:" ++ nl;
              sample_line "All" "0"; sample_line "T-2" "3";
              sample_line "T-3" "5"; sample_line "T-4" "2";
              footer])
  /\ fst (create_letter_template_skip (serving sample_cards) sample_cfg
            739196%Z twin_tickets [])
     = Ok (join [header;
                 u "In progress:" ++ nl;
                 sample_line "All" "0";
                 u "Waiting for customer:" ++ nl;
                 u "Testing:" ++ nl;
                 u "Done:" ++ nl;
                 sample_line "T-2" "3"; sample_line "T-3" "5";
                 sample_line "T-4" "2";
                 footer])
  /\ create_letter_template (serving sample_cards) sample_cfg 739196%Z
       twin_tickets []
     <> create_letter_template_skip (serving sample_cards) sample_cfg 739196%Z
          twin_tickets [].
Proof.
  cbv zeta. split; [reflexivity|]. split; [reflexivity|].
  intros H. apply (f_equal fst) in H. vm_compute in H. discriminate H.
Qed.

(** Without the sentinel card the removal finds no line to remove. *)
Example remove_sentinel_missing :
  fst (create_letter_template (serving sample_cards) sample_cfg 739196%Z
         (snapshot (Some []) (Some []) (Some []) (Some [])) [])
  = Raise ValueError.
Proof. reflexivity. Qed.

(** C9 at work: with the entry of the Done list missing, showing the list,
    building the report and running [show_list], [show_board] or [monday]
    all end in [TypeError]; so does the weekly total when its own fetch of
    the Done list fails. *)
Lemma missing_list_raises :
  show_list_tickets done_missing (u "Done") []
  = (Raise TypeError,
     [Printed (u "Done");
      Printed (u "  - All - contains list of all done tickets")])
  /\ create_letter_template (serving sample_cards) sample_cfg 739196%Z
       done_missing []
     = (Raise TypeError, [])
  /\ fst (get_weekly_story_points rejecting sample_cfg []) = Raise TypeError
  /\ fst (get_tickets_information rejecting sample_cfg [])
     = Ok (snapshot None None None None)
  /\ fst (main rejecting sample_cfg 739196%Z (u "show_list") (u "Done") [] [])
     = Raise TypeError
  /\ fst (main rejecting sample_cfg 739196%Z (u "show_board") [] [] [])
     = Raise TypeError
  /\ fst (main rejecting sample_cfg 739196%Z (u "monday") [] [] [])
     = Raise TypeError.
Proof. repeat split; reflexivity. Qed.

(** The rollover of the specification's test: the comment for the second of
    three Done tickets is rejected. *)
Lemma monday_rollover_stops_witness :
  exists evs,
    snd (run_monday second_post_rejected sample_cfg 739196%Z sample_tickets [])
    = evs
    /\ In (Sent (comment_request sample_cfg (u "T-3 - 5")) 500%Z) evs
    /\ 500%Z <> 200%Z
    /\ fst (run_monday second_post_rejected sample_cfg 739196%Z
              sample_tickets []) = Ok tt
    /\ Forall (fun e => event_method e <> Some DELETE) evs
    /\ exists before,
        evs = before ++ [Sent (comment_request sample_cfg (u "T-3 - 5")) 500%Z;
                         Printed comments_failed]
        /\ Forall (fun e => report_event e
                            \/ exists t, e = ok_comment sample_cfg t) before.
Proof.
  destruct (@monday_rollover_stops second_post_rejected sample_cfg 739196%Z
              sample_tickets [])
    as (evs & Hlog & Hcomment & _).
  cbn [app] in Hlog. exists evs. split; [exact Hlog|].
  assert (Hin : In (Sent (comment_request sample_cfg (u "T-3 - 5")) 500%Z) evs).
  { rewrite <- Hlog. vm_compute. do 3 right. left. reflexivity. }
  split; [exact Hin|]. split; [discriminate|].
  apply Hcomment; [exact Hin|discriminate].
Defined.

Example monday_rollover_examples :
  snd (run_monday second_post_rejected sample_cfg 739196%Z sample_tickets [])
  = [Sent (list_cards_request sample_cfg (u "L4")) 200%Z;
     Printed (join [week_word ++ u " 04.11.2024 - 08.11.2024:" ++ nl ++ nl;
                    u "In progress:" ++ nl; sample_line "T-1" "8";
                    u "Waiting for customer:" ++ nl;
                    u "Testing:" ++ nl;
                    u "Done:" ++ nl;
                    sample_line "T-2" "3"; sample_line "T-3" "5";
                    sample_line "T-4" "2";
                    u "SP per week: 10" ++ nl]);
     Sent (comment_request sample_cfg (u "T-2 - 3")) 200%Z;
     Sent (comment_request sample_cfg (u "T-3 - 5")) 500%Z;
     Printed comments_failed]
  /\ snd (run_monday (serving sample_cards) sample_cfg 739196%Z
            sample_tickets [Printed (u "start")])
     = [Printed (u "start");
        Sent (list_cards_request sample_cfg (u "L4")) 200%Z;
        Printed (join [week_word ++ u " 04.11.2024 - 08.11.2024:" ++ nl ++ nl;
                       u "In progress:" ++ nl; sample_line "T-1" "8";
                       u "Waiting for customer:" ++ nl;
                       u "Testing:" ++ nl;
                       u "Done:" ++ nl;
                       sample_line "T-2" "3"; sample_line "T-3" "5";
                       sample_line "T-4" "2";
                       u "SP per week: 10" ++ nl]);
        Sent (comment_request sample_cfg (u "T-2 - 3")) 200%Z;
        Sent (comment_request sample_cfg (u "T-3 - 5")) 200%Z;
        Sent (comment_request sample_cfg (u "T-4 - 2")) 200%Z;
        Sent (delete_request sample_cfg (u "c2")) 200%Z;
        Sent (delete_request sample_cfg (u "c3")) 200%Z;
        Sent (delete_request sample_cfg (u "c4")) 200%Z;
        Printed archived].
Proof. split; reflexivity. Qed.

Example get_list_cards_examples :
  get_list_cards rejecting sample_cfg (u "L4") []
  = (Ok None,
     [Sent (list_cards_request sample_cfg (u "L4")) 500%Z;
      Printed fetch_failed])
  /\ get_list_cards (serving sample_cards) sample_cfg (u "L4") []
     = (Ok (Some sample_done),
        [Sent (list_cards_request sample_cfg (u "L4")) 200%Z]).
Proof. split; reflexivity. Qed.

(** The snapshot the constructor builds is made of parsed tickets. *)
Lemma get_tickets_information_parsed
      (remote : list event -> request -> response) (cfg : config)
      (log : list event) (tickets : tickets_dict) :
  fst (get_tickets_information remote cfg log) = Ok tickets ->
  parsed tickets.
Proof.
  assert (Hlist : forall list_id l entry,
             fst (get_list_cards remote cfg list_id l) = Ok entry ->
             Forall (fun t => exists c, parse_card_name c = Ok t)
                    (match entry with Some ts => ts | None => [] end)).
  { intros list_id l entry.
    unfold get_list_cards, bind, send, lift, print, ret.
    destruct (negb _); cbn [fst].
    - intros [= <-]. constructor.
    - destruct (mapr parse_card_name _) as [ts|e] eqn:Hts; cbn [fst];
        [|discriminate].
      intros [= <-]. apply mapr_Forall2 in Hts.
      induction Hts as [|c t cs ts Hc _ IH]; constructor; eauto. }
  unfold get_tickets_information.
  unfold bind at 1.
  destruct (get_list_cards remote cfg (IN_PROGRESS_LIST_ID cfg) log)
    as [[a|e] l1] eqn:Ha; [|discriminate].
  unfold bind at 1.
  destruct (get_list_cards remote cfg (WAITING_LIST_ID cfg) l1)
    as [[b|e] l2] eqn:Hb; [|discriminate].
  unfold bind at 1.
  destruct (get_list_cards remote cfg (TESTING_LIST_ID cfg) l2)
    as [[c|e] l3] eqn:Hc; [|discriminate].
  unfold bind at 1.
  destruct (get_list_cards remote cfg (DONE_LIST_ID cfg) l3)
    as [[d|e] l4] eqn:Hd; [|discriminate].
  cbn [ret fst]. intros [= <-].
  unfold parsed, all_tickets, flat. cbn [dict_values map snd concat].
  apply (f_equal fst) in Ha, Hb, Hc, Hd. cbn [fst] in Ha, Hb, Hc, Hd.
  apply Hlist in Ha, Hb, Hc, Hd.
  repeat (apply Forall_app; split); try assumption. constructor.
Qed.

(** ** The builtins on examples *)

Example py_split_examples :
  py_split (u "a" ++ [28%N] ++ u "b" ++ [133%N] ++ u "c" ++ [160%N] ++ u "d e")
  = [u "a"; u "b"; u "c"; u "d"; u "e"]
  /\ py_split (u "  Fix-login   5 ") = [u "Fix-login"; u "5"]
  /\ py_split (u "   ") = [].
Proof. repeat split; reflexivity. Qed.

Example py_int_examples :
  map py_int
      [u "5"; u "-5"; u "+007"; u "1_0"; u "_1"; u "1_"; u "1__0"; u "";
       u "+"; u "abc"; [28%N; 53%N]; [160%N; 53%N]; [1635%N]; u " 5 "]
  = [Ok 5; Ok (-5); Ok 7; Ok 10; Raise ValueError; Raise ValueError;
     Raise ValueError; Raise ValueError; Raise ValueError; Raise ValueError;
     Raise ValueError; Ok 5; Ok 3; Ok 5]%Z.
Proof. reflexivity. Qed.

Example py_str_examples :
  map py_str [0; 10; -5]%Z = [Ok (u "0"); Ok (u "10"); Ok (u "-5")].
Proof. reflexivity. Qed.

(** [str] gives the numeral when it has at most 4300 digits, and raises
    [ValueError] when it has more. *)
Lemma py_str_limit (z : Z) :
  let digits := (Z.of_nat (length (decimal z)) - (if z <? 0 then 1 else 0))%Z in
  ((digits <= 4300)%Z -> py_str z = Ok (decimal z))
  /\ ((4300 < digits)%Z -> py_str z = Raise ValueError).
Proof.
  cbv zeta. unfold py_str, int_max_str_digits, str_digits_check_threshold.
  split; intros H.
  - replace (4300 <? _)%Z with false by (symmetry; apply Z.ltb_ge; exact H).
    now rewrite andb_false_r.
  - replace (4300 <? _)%Z with true by (symmetry; apply Z.ltb_lt; exact H).
    replace (640 <? _)%Z with true; [reflexivity|].
    symmetry. apply Z.ltb_lt. destruct (z <? 0)%Z; lia.
Qed.

(** * Further properties of the script *)

Unset Implicit Arguments.

(** ** Looking a card up by name *)

Lemma find_app_first {A} (p : A -> bool) (a b : list A) :
  find p (a ++ b) = match find p a with
                    | Some x => Some x
                    | None => find p b
                    end.
Proof.
  induction a as [|x a IH]; [reflexivity|].
  cbn [app find]. destruct (p x); [reflexivity|exact IH].
Qed.

Lemma find_all_false {A} (p : A -> bool) (l : list A) :
  (forall x, In x l -> p x = false) -> find p l = None.
Proof.
  induction l as [|x l IH]; intros H; [reflexivity|].
  cbn [find]. rewrite (H x (or_introl eq_refl)).
  apply IH. intros y Hy. apply H. now right.
Qed.

Lemma flat_cons_some (ts : list ticket) (vals : list (option (list ticket))) :
  flat (Some ts :: vals) = ts ++ flat vals.
Proof. reflexivity. Qed.

Lemma flat_cons_none (vals : list (option (list ticket))) :
  flat (None :: vals) = flat vals.
Proof. reflexivity. Qed.

(** On lists that were all fetched, the chained search is the search in the
    tickets put end to end. *)
Lemma chain_find_flat (p : ticket -> bool) (vals : list (option (list ticket))) :
  Forall (fun entry => entry <> None) vals ->
  chain_find p vals = Ok (find p (flat vals)).
Proof.
  induction 1 as [|entry vals Hentry _ IH]; [reflexivity|].
  destruct entry as [ts|]; [|congruence].
  cbn [chain_find]. rewrite flat_cons_some, find_app_first.
  destruct (find p ts); [reflexivity|exact IH].
Qed.

(** The chained search stops with [TypeError] at the first missing list when
    no ticket before it is a hit. *)
Lemma chain_find_missing (p : ticket -> bool) (pre : list (list ticket))
      (rest : list (option (list ticket))) :
  find p (concat pre) = None ->
  chain_find p (map Some pre ++ None :: rest) = Raise TypeError.
Proof.
  induction pre as [|ts pre IH]; intros Hnone; [reflexivity|].
  cbn [map app chain_find]. cbn [concat] in Hnone.
  rewrite find_app_first in Hnone.
  destruct (find p ts); [discriminate|]. now apply IH.
Qed.

(** X1. In a snapshot without a failed fetch, [get_card_id] returns the id of
    the first ticket bearing the name, the lists being searched in the order
    In progress, Waiting for customer, Testing, Done and each list from its
    first card on; it returns the empty string when no ticket bears the
    name. *)
Theorem get_card_id_first (tickets : tickets_dict) (name : str) :
  complete tickets ->
  get_card_id tickets name
  = Ok (match first_named tickets name with
        | Some c => ticket_id c
        | None => []
        end).
Proof.
  intros Hc. unfold get_card_id, first_named, all_tickets.
  rewrite (chain_find_flat _ _ Hc). cbn [rbind].
  destruct (find _ _); reflexivity.
Qed.

Lemma sample_tickets_complete : complete sample_tickets.
Proof. repeat constructor; discriminate. Qed.

Lemma homonym_tickets_complete : complete homonym_tickets.
Proof. repeat constructor; discriminate. Qed.

Lemma get_card_id_first_witness :
  complete homonym_tickets
  /\ get_card_id homonym_tickets (u "T-2")
     = Ok (match first_named homonym_tickets (u "T-2") with
           | Some c => ticket_id c
           | None => []
           end)
  /\ first_named homonym_tickets (u "T-2") = Some (mk_ticket "c7" "T-2" "1")
  /\ first_named homonym_tickets (u "T-9") = None.
Proof.
  split; [exact homonym_tickets_complete|].
  split; [|split; reflexivity].
  apply (get_card_id_first homonym_tickets (u "T-2")).
  exact homonym_tickets_complete.
Defined.

Lemma get_card_id_find (tickets : tickets_dict) (name : str) :
  complete tickets ->
  get_card_id tickets name
  = Ok (match first_named tickets name with
        | Some c => ticket_id c
        | None => []
        end).
Proof.
  intros Hc. unfold get_card_id, first_named, all_tickets.
  rewrite (chain_find_flat _ _ Hc). cbn [rbind].
  destruct (find _ _); reflexivity.
Qed.

Lemma resolve_card_id_found (tickets : tickets_dict) (name cid : str) :
  get_card_id tickets name = Ok cid -> cid <> [] ->
  resolve_card_id tickets name = Ok cid.
Proof.
  intros Hcid Hne. unfold resolve_card_id. rewrite Hcid. cbn [rbind].
  destruct cid; [congruence|reflexivity].
Qed.

(** X2. In a snapshot without a failed fetch, when the first ticket bearing
    the given name has an id, [delete_card] sends exactly one DELETE request,
    for that ticket's card, and [update_card] exactly one PUT request for the
    same card; both return the status received.  The card is the first one
    in list order: a card of an earlier list hides a card of the Done list
    that has the same name. *)
Theorem delete_card_first_named
        (remote : list event -> request -> response) (cfg : config)
        (tickets : tickets_dict) (name new_name : str) (t : ticket)
        (log : list event) :
  complete tickets ->
  first_named tickets name = Some t ->
  ticket_id t <> [] ->
  delete_card remote cfg tickets name log
  = (Ok (status_code (remote log (delete_request cfg (ticket_id t)))),
     log ++ [Sent (delete_request cfg (ticket_id t))
                  (status_code (remote log (delete_request cfg (ticket_id t))))])
  /\ update_card remote cfg tickets name new_name log
     = (Ok (status_code (remote log (update_request cfg (ticket_id t) new_name))),
        log ++ [Sent (update_request cfg (ticket_id t) new_name)
                     (status_code
                        (remote log (update_request cfg (ticket_id t) new_name)))]).
Proof.
  intros Hc Hfirst Hid.
  assert (Hres : resolve_card_id tickets name = Ok (ticket_id t)).
  { apply resolve_card_id_found; [|exact Hid].
    rewrite (get_card_id_find _ _ Hc), Hfirst. reflexivity. }
  rewrite delete_card_run, update_card_run, Hres. split; reflexivity.
Qed.

Lemma delete_card_first_named_witness :
  complete homonym_tickets
  /\ first_named homonym_tickets (u "T-2") = Some (mk_ticket "c7" "T-2" "1")
  /\ ticket_id (mk_ticket "c7" "T-2" "1") <> []
  /\ snd (delete_card accepting sample_cfg homonym_tickets (u "T-2") [])
     = [Sent (delete_request sample_cfg (u "c7")) 200%Z].
Proof.
  split; [exact homonym_tickets_complete|]. split; [reflexivity|].
  split; [discriminate|].
  destruct (delete_card_first_named accepting sample_cfg homonym_tickets
              (u "T-2") (u "T-2 4") (mk_ticket "c7" "T-2" "1") [])
    as [Hdel _].
  - exact homonym_tickets_complete.
  - reflexivity.
  - discriminate.
  - rewrite Hdel. reflexivity.
Defined.

(** X3. When a list of the snapshot is missing and no ticket of the lists
    before it bears the given name, [get_card_id] raises [TypeError], and so
    do [delete_card], [update_card] and [move_card], before any request is
    sent. *)
Theorem card_commands_raise_on_missing_list
        (remote : list event -> request -> response) (cfg : config)
        (tickets : tickets_dict) (pre : list (list ticket))
        (rest : list (option (list ticket))) (name other : str)
        (log : list event) :
  dict_values tickets = map Some pre ++ None :: rest ->
  find (fun c => str_eqb (ticket_name c) name) (concat pre) = None ->
  get_card_id tickets name = Raise TypeError
  /\ delete_card remote cfg tickets name log = (Raise TypeError, log)
  /\ update_card remote cfg tickets name other log = (Raise TypeError, log)
  /\ move_card remote cfg tickets name other log = (Raise TypeError, log).
Proof.
  intros Hvals Hnone.
  assert (Hid : get_card_id tickets name = Raise TypeError).
  { unfold get_card_id. rewrite Hvals.
    rewrite (chain_find_missing _ _ _ Hnone). reflexivity. }
  assert (Hres : resolve_card_id tickets name = Raise TypeError).
  { unfold resolve_card_id. rewrite Hid. reflexivity. }
  split; [exact Hid|].
  rewrite delete_card_run, update_card_run, Hres.
  split; [reflexivity|]. split; [reflexivity|].
  rewrite move_card_run. unfold move_card_name. rewrite Hid. reflexivity.
Qed.

Lemma card_commands_raise_on_missing_list_witness :
  dict_values done_missing
  = map Some [[mk_ticket "c1" "T-1" "8"]; []; []] ++ None :: []
  /\ find (fun c => str_eqb (ticket_name c) (u "T-2"))
          (concat [[mk_ticket "c1" "T-1" "8"]; []; []]) = None
  /\ get_card_id done_missing (u "T-2") = Raise TypeError
  /\ delete_card accepting sample_cfg done_missing (u "T-2") []
     = (Raise TypeError, [])
  /\ update_card accepting sample_cfg done_missing (u "T-2") (u "T-2 3") []
     = (Raise TypeError, [])
  /\ move_card accepting sample_cfg done_missing (u "T-2") (u "T-2 3") []
     = (Raise TypeError, []).
Proof.
  split; [reflexivity|]. split; [reflexivity|].
  apply (card_commands_raise_on_missing_list accepting sample_cfg done_missing
           [[mk_ticket "c1" "T-1" "8"]; []; []] [] (u "T-2") (u "T-2 3") []);
    reflexivity.
Defined.

(** ** Names with several tokens *)

Lemma parse_card_name_shape (c : card) (t : ticket) :
  parse_card_name c = Ok t -> well_formed t.
Proof.
  intros Hparse. unfold well_formed.
  destruct (card_name c) as [|x s] eqn:Hname.
  - unfold parse_card_name in Hparse. rewrite Hname in Hparse.
    injection Hparse as <-. left. repeat split.
  - assert (Hne : card_name c <> []) by (rewrite Hname; discriminate).
    pose proof (split_tokens (card_name c)) as Htok.
    destruct (py_split (card_name c)) as [|first rest] eqn:Hsplit.
    + rewrite (parse_card_name_blank _ Hne Hsplit) in Hparse. discriminate.
    + rewrite (parse_card_name_tokens _ Hne Hsplit) in Hparse.
      injection Hparse as <-. cbn [ticket_name story_points].
      inversion Htok as [|? ? Hfirst Hrest]; subst.
      right. split; [assumption|].
      destruct rest as [|r rest].
      * split; [apply token_zero|]. exists 0%Z. apply py_int_zero.
      * destruct (py_int (last (r :: rest) [])) as [v|e] eqn:Hint.
        -- split; [|now exists v].
           eapply Forall_forall; [exact Hrest|apply last_in].
        -- split; [apply token_zero|]. exists 0%Z. apply py_int_zero.
Qed.

Lemma several_tokens_not_token (name first second : str) (rest : list str) :
  py_split name = first :: second :: rest -> name <> [] /\ ~ token name.
Proof.
  intros Hsplit. split.
  - intros ->. discriminate Hsplit.
  - intros Htok. rewrite (split_token Htok) in Hsplit. discriminate Hsplit.
Qed.

(** No parsed ticket bears a name that has several tokens. *)
Lemma no_ticket_named (tickets : tickets_dict) (name first second : str)
      (rest : list str) :
  parsed tickets ->
  py_split name = first :: second :: rest ->
  forall t, In t (all_tickets tickets) ->
            str_eqb (ticket_name t) name = false.
Proof.
  intros Hparsed Hsplit t Hin.
  destruct (several_tokens_not_token _ _ _ _ Hsplit) as [Hne Hnot].
  unfold parsed in Hparsed. rewrite Forall_forall in Hparsed.
  destruct (Hparsed t Hin) as [c Hc].
  apply str_eqb_neq. intros Heq.
  destruct (parse_card_name_shape c t Hc) as [(_ & Hname & _)|(Htok & _)].
  - congruence.
  - apply Hnot. now rewrite <- Heq.
Qed.

Lemma first_token_resolves (tickets : tickets_dict) (first : str) :
  token first -> resolve_card_id tickets first = get_card_id tickets first.
Proof.
  intros Htok. unfold resolve_card_id.
  destruct (get_card_id tickets first) as [cid|e] eqn:Hcid; [|reflexivity].
  cbn [rbind]. destruct cid as [|x cid]; [|reflexivity].
  cbn [is_empty negb]. rewrite (split_token Htok), getitem_first.
  cbn [rbind]. exact Hcid.
Qed.

Lemma several_tokens_resolve (tickets : tickets_dict) (name first second : str)
      (rest : list str) :
  parsed tickets -> complete tickets ->
  py_split name = first :: second :: rest ->
  get_card_id tickets name = Ok []
  /\ resolve_card_id tickets name = resolve_card_id tickets first
  /\ token first.
Proof.
  intros Hparsed Hc Hsplit.
  assert (Hid : get_card_id tickets name = Ok []).
  { rewrite (get_card_id_find _ _ Hc). unfold first_named.
    rewrite find_all_false; [reflexivity|].
    exact (no_ticket_named _ _ _ _ _ Hparsed Hsplit). }
  assert (Htok : token first).
  { pose proof (split_tokens name) as H. rewrite Hsplit in H.
    now inversion H. }
  split; [exact Hid|]. split; [|exact Htok].
  rewrite (first_token_resolves _ _ Htok).
  unfold resolve_card_id. rewrite Hid, Hsplit, getitem_first. reflexivity.
Qed.

(** X4. In a snapshot of parsed tickets without a failed fetch, a name made
    of several tokens is the name of no ticket; [delete_card] and
    [update_card] then act on the card found under its first token, exactly
    as if that token alone had been given: a card can be named by its full
    title, story points included. *)
Theorem delete_card_by_full_title
        (remote : list event -> request -> response) (cfg : config)
        (tickets : tickets_dict) (name first second new_name : str)
        (rest : list str) (log : list event) :
  parsed tickets -> complete tickets ->
  py_split name = first :: second :: rest ->
  get_card_id tickets name = Ok []
  /\ delete_card remote cfg tickets name log
     = delete_card remote cfg tickets first log
  /\ update_card remote cfg tickets name new_name log
     = update_card remote cfg tickets first new_name log.
Proof.
  intros Hparsed Hc Hsplit.
  destruct (several_tokens_resolve _ _ _ _ _ Hparsed Hc Hsplit)
    as (Hid & Hres & _).
  split; [exact Hid|].
  rewrite !delete_card_run, !update_card_run, Hres. split; reflexivity.
Qed.

Lemma delete_card_by_full_title_witness :
  parsed sample_tickets /\ complete sample_tickets
  /\ py_split (u "T-3 5") = [u "T-3"; u "5"]
  /\ get_card_id sample_tickets (u "T-3 5") = Ok []
  /\ delete_card accepting sample_cfg sample_tickets (u "T-3 5") []
     = delete_card accepting sample_cfg sample_tickets (u "T-3") []
  /\ update_card accepting sample_cfg sample_tickets (u "T-3 5") (u "T-3 8") []
     = update_card accepting sample_cfg sample_tickets (u "T-3") (u "T-3 8") [].
Proof.
  split; [exact sample_tickets_parsed|].
  split; [exact sample_tickets_complete|].
  split; [reflexivity|].
  apply (delete_card_by_full_title accepting sample_cfg sample_tickets
           (u "T-3 5") (u "T-3") (u "5") (u "T-3 8") [] []).
  - exact sample_tickets_parsed.
  - exact sample_tickets_complete.
  - reflexivity.
Defined.

(** X5. In a snapshot of parsed tickets without a failed fetch, [move_card]
    given a name of several tokens (a full title with its story points, say)
    deletes and creates the card under the first token alone, and a card so
    named parses to story points zero: the story points are lost in the
    move. *)
Theorem move_card_by_full_title_loses_points
        (remote : list event -> request -> response) (cfg : config)
        (tickets : tickets_dict) (full_card_name first second : str)
        (rest : list str) :
  parsed tickets -> complete tickets ->
  py_split full_card_name = first :: second :: rest ->
  move_card_name tickets full_card_name = Ok first
  /\ (forall list_name log,
        move_card remote cfg tickets full_card_name list_name log
        = (deleted <- delete_card remote cfg tickets first ;;
           if (deleted =? 200)%Z
           then created <- create_card remote cfg first list_name ;;
                if (created =? 200)%Z then ret 200%Z else ret 400%Z
           else ret 400%Z) log)
  /\ forall new_id,
       parse_card_name {| card_id := new_id; card_name := first |}
       = Ok {| ticket_id := new_id; ticket_name := first;
               story_points := u "0" |}.
Proof.
  intros Hparsed Hc Hsplit.
  destruct (several_tokens_resolve _ _ _ _ _ Hparsed Hc Hsplit)
    as (Hid & _ & Htok).
  assert (Hname : move_card_name tickets full_card_name = Ok first).
  { unfold move_card_name. rewrite Hid. cbn [rbind is_empty negb].
    rewrite Hsplit. apply getitem_first. }
  split; [exact Hname|]. split.
  - intros list_name log. unfold move_card. unfold bind at 1. unfold lift.
    rewrite Hname. reflexivity.
  - intros new_id.
    rewrite (parse_card_name_tokens
               {| card_id := new_id; card_name := first |}
               (first := first) (rest := [])).
    + reflexivity.
    + cbn [card_name]. exact (proj1 Htok).
    + cbn [card_name]. exact (split_token Htok).
Qed.

Lemma move_card_by_full_title_loses_points_witness :
  parsed sample_tickets /\ complete sample_tickets
  /\ py_split (u "T-3 5") = [u "T-3"; u "5"]
  /\ move_card_name sample_tickets (u "T-3 5") = Ok (u "T-3")
  /\ snd (move_card accepting sample_cfg sample_tickets (u "T-3 5")
            (u "Testing") [])
     = [Sent (delete_request sample_cfg (u "c3")) 200%Z;
        Sent (create_request sample_cfg (u "L3") (u "T-3")) 200%Z]
  /\ parse_card_name {| card_id := u "n1"; card_name := u "T-3" |}
     = Ok (mk_ticket "n1" "T-3" "0").
Proof.
  split; [exact sample_tickets_parsed|].
  split; [exact sample_tickets_complete|].
  split; [reflexivity|].
  destruct (move_card_by_full_title_loses_points accepting sample_cfg
              sample_tickets (u "T-3 5") (u "T-3") (u "5") [])
    as (Hname & Hmove & Hparse).
  - exact sample_tickets_parsed.
  - exact sample_tickets_complete.
  - reflexivity.
  - split; [exact Hname|]. split.
    + rewrite Hmove. reflexivity.
    + exact (Hparse (u "n1")).
Defined.

(** ** Moving a card after a failed fetch *)

Lemma chain_find_no_hit (p : ticket -> bool)
      (vals : list (option (list ticket))) :
  In None vals ->
  (forall t, In t (flat vals) -> p t = false) ->
  chain_find p vals = Raise TypeError.
Proof.
  induction vals as [|entry vals IH]; intros Hin Hp; [contradiction|].
  destruct entry as [ts|]; [|reflexivity].
  cbn [chain_find]. rewrite flat_cons_some in Hp.
  rewrite find_all_false.
  - apply IH.
    + destruct Hin as [H|H]; [discriminate|exact H].
    + intros t Ht. apply Hp, in_or_app. now right.
  - intros t Ht. apply Hp, in_or_app. now left.
Qed.

Lemma move_card_name_resolved (tickets : tickets_dict)
      (full_card_name cid : str) :
  parsed tickets ->
  get_card_id tickets full_card_name = Ok cid -> cid <> [] ->
  exists t,
    In t (all_tickets tickets)
    /\ ticket_id t = cid
    /\ token (ticket_name t) /\ token (story_points t)
    /\ move_card_name tickets full_card_name = Ok (label t).
Proof.
  intros Hparsed Hcid Hne.
  unfold get_card_id in Hcid.
  destruct (chain_find (fun c => str_eqb (ticket_name c) full_card_name)
              (dict_values tickets)) as [[t0|]|e] eqn:Hbyname;
    cbn [rbind] in Hcid; try congruence.
  injection Hcid as Hid0.
  assert (Hq : (fun c => str_eqb (ticket_id c) cid) t0 = true)
    by (apply str_eqb_eq; exact Hid0).
  destruct (chain_find_other _ (fun c => str_eqb (ticket_id c) cid) _
              Hbyname Hq) as [t Hbyid].
  destruct (chain_find_hit _ _ Hbyid) as [Hidt Hin].
  apply str_eqb_eq in Hidt.
  exists t. split; [exact Hin|]. split; [exact Hidt|].
  unfold parsed in Hparsed. rewrite Forall_forall in Hparsed.
  destruct (Hparsed t Hin) as [c Hc].
  destruct (parse_card_name_shape c t Hc) as [(Hempty & _)|(Hn & Hp & _)];
    [congruence|].
  split; [exact Hn|]. split; [exact Hp|].
  unfold move_card_name, get_card_id. rewrite Hbyname. cbn [rbind].
  rewrite Hid0. destruct cid as [|x cid]; [congruence|].
  cbn [is_empty negb]. rewrite Hbyid. reflexivity.
Qed.

(** X6. In a snapshot of parsed tickets in which some list is missing,
    [move_card] raises [TypeError] before any request even for a card whose
    id it resolves: the label it builds is searched for through all the
    lists, and the search reaches the missing one. *)
Theorem move_card_raises_after_failed_fetch
        (remote : list event -> request -> response) (cfg : config)
        (tickets : tickets_dict) (full_card_name list_name cid : str)
        (log : list event) :
  parsed tickets ->
  In None (dict_values tickets) ->
  get_card_id tickets full_card_name = Ok cid -> cid <> [] ->
  move_card remote cfg tickets full_card_name list_name log
  = (Raise TypeError, log).
Proof.
  intros Hparsed Hmissing Hcid Hne.
  destruct (move_card_name_resolved _ _ _ Hparsed Hcid Hne)
    as (t & _ & _ & Hn & Hp & Hlabel).
  assert (Hres : resolve_card_id tickets (label t) = Raise TypeError).
  { unfold resolve_card_id, get_card_id.
    rewrite chain_find_no_hit; [reflexivity|exact Hmissing|].
    exact (no_ticket_named _ _ _ _ _ Hparsed (split_label Hn Hp)). }
  rewrite move_card_run, Hlabel, delete_card_run, Hres. reflexivity.
Qed.

Lemma testing_missing_parsed : parsed testing_missing.
Proof.
  unfold parsed. cbn.
  constructor; [exists (mk_card "c1" "T-1 8"); reflexivity|].
  constructor; [exists (mk_card "c0" "All"); reflexivity|].
  constructor; [exists (mk_card "c2" "T-2 3"); reflexivity|].
  constructor; [exists (mk_card "c3" "T-3 5"); reflexivity|].
  constructor; [exists (mk_card "c4" "T-4 2"); reflexivity|].
  constructor.
Qed.

Lemma move_card_raises_after_failed_fetch_witness :
  parsed testing_missing
  /\ In None (dict_values testing_missing)
  /\ get_card_id testing_missing (u "T-1") = Ok (u "c1")
  /\ u "c1" <> []
  /\ move_card accepting sample_cfg testing_missing (u "T-1") (u "Done") []
     = (Raise TypeError, []).
Proof.
  assert (Hin : In None (dict_values testing_missing))
    by (cbn; right; right; left; reflexivity).
  split; [exact testing_missing_parsed|]. split; [exact Hin|].
  split; [reflexivity|]. split; [discriminate|].
  apply (move_card_raises_after_failed_fetch accepting sample_cfg
           testing_missing (u "T-1") (u "Done") (u "c1") []).
  - exact testing_missing_parsed.
  - exact Hin.
  - reflexivity.
  - discriminate.
Defined.

(** ** The constructor's snapshot *)

Lemma parse_card_name_raises (c : card) (e : exn) :
  parse_card_name c = Raise e -> e = IndexError /\ blank c.
Proof.
  intros Hparse.
  destruct (card_name c) as [|x s] eqn:Hname.
  - unfold parse_card_name in Hparse. rewrite Hname in Hparse. discriminate.
  - assert (Hne : card_name c <> []) by (rewrite Hname; discriminate).
    destruct (py_split (card_name c)) as [|first rest] eqn:Hsplit.
    + rewrite (parse_card_name_blank _ Hne Hsplit) in Hparse.
      injection Hparse as <-. split; [reflexivity|]. split; assumption.
    + rewrite (parse_card_name_tokens _ Hne Hsplit) in Hparse. discriminate.
Qed.

Lemma mapr_parse_raises (cards : list card) (e : exn) :
  mapr parse_card_name cards = Raise e ->
  e = IndexError /\ Exists blank cards.
Proof.
  induction cards as [|c cards IH]; [discriminate|].
  cbn [mapr].
  destruct (parse_card_name c) as [t|e'] eqn:Hc; cbn [rbind].
  - destruct (mapr parse_card_name cards) as [ts|e'']; cbn [rbind];
      [discriminate|].
    intros [= ->]. destruct (IH eq_refl) as [He Hex].
    split; [exact He|]. now apply Exists_cons_tl.
  - intros [= ->]. destruct (parse_card_name_raises c e Hc) as [He Hb].
    split; [exact He|]. now apply Exists_cons_hd.
Qed.

Lemma mapr_parse_well_formed (cards : list card) (ts : list ticket) :
  mapr parse_card_name cards = Ok ts -> Forall well_formed ts.
Proof.
  intros H. apply mapr_Forall2 in H.
  induction H as [|c t cards ts Hc _ IH]; constructor; [|exact IH].
  exact (parse_card_name_shape c t Hc).
Qed.

(** The three ways a fetch can go. *)
Lemma get_list_cards_cases
      (remote : list event -> request -> response) (cfg : config)
      (list_id : str) (log : list event) :
  let req := list_cards_request cfg list_id in
  let s := status_code (remote log req) in
  (s <> 200%Z
   /\ get_list_cards remote cfg list_id log
      = (Ok None, log ++ [Sent req s; Printed fetch_failed]))
  \/ (s = 200%Z
      /\ ((exists ts,
             mapr parse_card_name (json (remote log req)) = Ok ts
             /\ get_list_cards remote cfg list_id log
                = (Ok (Some ts), log ++ [Sent req 200%Z]))
          \/ (Exists blank (json (remote log req))
              /\ get_list_cards remote cfg list_id log
                 = (Raise IndexError, log ++ [Sent req 200%Z])))).
Proof.
  cbv zeta. unfold get_list_cards, bind, send, lift, print, ret.
  destruct (Z.eqb_spec
              (status_code (remote log (list_cards_request cfg list_id))) 200)
    as [H200|Hnot]; cbn [negb].
  - right. split; [exact H200|]. rewrite H200.
    destruct (mapr parse_card_name _) as [ts|e] eqn:Hts.
    + left. exists ts. split; reflexivity.
    + right. destruct (mapr_parse_raises _ _ Hts) as [-> Hb].
      split; [exact Hb|reflexivity].
  - left. split; [exact Hnot|]. rewrite <- app_assoc. reflexivity.
Qed.

Lemma fetch_all_cons
      (remote : list event -> request -> response) (cfg : config)
      (title list_id : str) (rest : list (str * str)) (log : list event) :
  fetch_all remote cfg ((title, list_id) :: rest) log =
  match get_list_cards remote cfg list_id log with
  | (Raise e, log1) => (Raise e, log1)
  | (Ok entry, log1) =>
      match fetch_all remote cfg rest log1 with
      | (Raise e, log2) => (Raise e, log2)
      | (Ok fetched, log2) => (Ok ((title, entry) :: fetched), log2)
      end
  end.
Proof.
  cbn [fetch_all]. unfold bind at 1.
  destruct (get_list_cards remote cfg list_id log) as [[entry|e] log1];
    [|reflexivity].
  unfold bind, ret.
  destruct (fetch_all remote cfg rest log1) as [[fetched|e] log2]; reflexivity.
Qed.

(** The constructor is the loop over the four lists of the board. *)
Lemma get_tickets_information_loop
      (remote : list event -> request -> response) (cfg : config)
      (log : list event) :
  get_tickets_information remote cfg log
  = fetch_all remote cfg (board_lists cfg) log.
Proof.
  unfold get_tickets_information, board_lists. cbn [fetch_all].
  unfold bind, ret.
  repeat match goal with
         | |- context [get_list_cards ?r ?c ?i ?l] =>
             destruct (get_list_cards r c i l) as [[?|?] ?]
         end; reflexivity.
Qed.

Lemma requests_of_app (a b : list event) :
  requests_of (a ++ b) = requests_of a ++ requests_of b.
Proof. unfold requests_of. apply flat_map_app. Qed.

Lemma lines_of_app (a b : list event) :
  lines_of (a ++ b) = lines_of a ++ lines_of b.
Proof. unfold lines_of. apply flat_map_app. Qed.

Lemma fetch_all_run
      (remote : list event -> request -> response) (cfg : config)
      (lists : list (str * str)) (log : list event) :
  exists evs,
    snd (fetch_all remote cfg lists log) = log ++ evs
    /\ (exists n,
          map fst (requests_of evs)
          = firstn n (map (fun p => list_cards_request cfg (snd p)) lists))
    /\ Forall (fun line => line = fetch_failed) (lines_of evs)
    /\ (forall e, fst (fetch_all remote cfg lists log) = Raise e ->
                  e = IndexError)
    /\ (forall d,
          fst (fetch_all remote cfg lists log) = Ok d ->
          dict_keys d = map fst lists
          /\ map fst (requests_of evs)
             = map (fun p => list_cards_request cfg (snd p)) lists
          /\ Forall2 (fun entry s => entry = None <-> s <> 200%Z)
                     (dict_values d) (map snd (requests_of evs))
          /\ Forall well_formed (all_tickets d)).
Proof.
  revert log. induction lists as [|[title list_id] rest IH]; intros log.
  - exists []. cbn [fetch_all ret fst snd]. rewrite app_nil_r.
    split; [reflexivity|]. split; [exists 0%nat; reflexivity|].
    split; [constructor|]. split; [discriminate|].
    intros d [= <-]. repeat split; constructor.
  - rewrite fetch_all_cons.
    destruct (get_list_cards_cases remote cfg list_id log)
      as [[Hs Hg]|[Hs [(ts & Hts & Hg)|(Hb & Hg)]]]; rewrite Hg; clear Hg.
    + set (req := list_cards_request cfg list_id) in *.
      set (s := status_code (remote log req)) in *.
      destruct (IH (log ++ [Sent req s; Printed fetch_failed]))
        as (evs & Hlog & (n & Hn) & Hlines & Hraise & Hok).
      destruct (fetch_all remote cfg rest
                  (log ++ [Sent req s; Printed fetch_failed]))
        as [[d|e] log2]; cbn [fst snd] in *;
        exists ([Sent req s; Printed fetch_failed] ++ evs);
        (split; [rewrite Hlog, <- app_assoc; reflexivity|]);
        (split; [exists (S n); cbn [app requests_of flat_map map firstn fst snd];
                 fold (requests_of evs); rewrite Hn; reflexivity|]);
        (split; [cbn [app lines_of flat_map]; fold (lines_of evs);
                 constructor; [reflexivity|exact Hlines]|]).
      * split; [discriminate|]. intros d' [= <-].
        destruct (Hok d eq_refl) as (Hkeys & Hreqs & Hentries & Hwf).
        cbn [app requests_of flat_map map fst snd dict_keys dict_values].
        fold (requests_of evs).
        split; [unfold dict_keys in Hkeys; now rewrite Hkeys|].
        split; [now rewrite Hreqs|].
        split; [|exact Hwf].
        constructor; [|exact Hentries]. split; [intros _; exact Hs|reflexivity].
      * split; [|discriminate]. intros e' [= <-]. now apply Hraise.
    + set (req := list_cards_request cfg list_id) in *.
      destruct (IH (log ++ [Sent req 200%Z]))
        as (evs & Hlog & (n & Hn) & Hlines & Hraise & Hok).
      destruct (fetch_all remote cfg rest (log ++ [Sent req 200%Z]))
        as [[d|e] log2]; cbn [fst snd] in *;
        exists ([Sent req 200%Z] ++ evs);
        (split; [rewrite Hlog, <- app_assoc; reflexivity|]);
        (split; [exists (S n); cbn [app requests_of flat_map map firstn fst snd];
                 fold (requests_of evs); rewrite Hn; reflexivity|]);
        (split; [cbn [app lines_of flat_map]; fold (lines_of evs);
                 exact Hlines|]).
      * split; [discriminate|]. intros d' [= <-].
        destruct (Hok d eq_refl) as (Hkeys & Hreqs & Hentries & Hwf).
        cbn [app requests_of flat_map map fst snd dict_keys dict_values].
        fold (requests_of evs).
        split; [unfold dict_keys in Hkeys; now rewrite Hkeys|].
        split; [now rewrite Hreqs|].
        split.
        -- constructor; [|exact Hentries].
           split; [discriminate|intros H; now contradiction H].
        -- unfold all_tickets. cbn [dict_values map snd].
           rewrite flat_cons_some. apply Forall_app. split; [|exact Hwf].
           exact (mapr_parse_well_formed _ _ Hts).
      * split; [|discriminate]. intros e' [= <-]. now apply Hraise.
    + cbn [fst snd].
      exists [Sent (list_cards_request cfg list_id) 200%Z].
      split; [reflexivity|].
      split; [exists 1%nat; reflexivity|].
      split; [constructor|].
      split; [intros e [= <-]; reflexivity|discriminate].
Qed.

Lemma board_requests (cfg : config) :
  map (fun title => list_cards_request cfg (get_list_id cfg title)) list_titles
  = map (fun p => list_cards_request cfg (snd p)) (board_lists cfg).
Proof. reflexivity. Qed.

(** X7. Whenever the constructor returns a snapshot, the snapshot has
    exactly the four titles In progress, Waiting for customer, Testing and
    Done, in this order, and every ticket in it is either the empty ticket
    (empty id and name, story points zero) or has a name and story points
    without whitespace, the story points being accepted by [int]. *)
Theorem constructor_snapshot_invariant
        (remote : list event -> request -> response) (cfg : config)
        (log : list event) (tickets : tickets_dict) :
  fst (get_tickets_information remote cfg log) = Ok tickets ->
  (exists in_progress waiting testing done,
     tickets = snapshot in_progress waiting testing done)
  /\ Forall well_formed (all_tickets tickets).
Proof.
  rewrite get_tickets_information_loop. intros Hrun.
  destruct (fetch_all_run remote cfg (board_lists cfg) log)
    as (evs & _ & _ & _ & _ & Hok).
  destruct (Hok tickets Hrun) as (Hkeys & _ & _ & Hwf).
  split; [|exact Hwf].
  unfold dict_keys, board_lists in Hkeys. cbn [map fst] in Hkeys.
  destruct tickets as [|[k1 a] [|[k2 b] [|[k3 c] [|[k4 d] [|? ?]]]]];
    try discriminate Hkeys.
  cbn [map fst] in Hkeys. injection Hkeys as -> -> -> ->.
  now exists a, b, c, d.
Qed.

Lemma constructor_snapshot_invariant_witness :
  fst (get_tickets_information (serving sample_cards) sample_cfg [])
  = Ok (snapshot (Some sample_done) (Some sample_done) (Some sample_done)
                 (Some sample_done))
  /\ (exists in_progress waiting testing done,
        snapshot (Some sample_done) (Some sample_done) (Some sample_done)
                 (Some sample_done)
        = snapshot in_progress waiting testing done)
  /\ Forall well_formed
            (all_tickets (snapshot (Some sample_done) (Some sample_done)
                                   (Some sample_done) (Some sample_done))).
Proof.
  split; [reflexivity|].
  apply (constructor_snapshot_invariant (serving sample_cards) sample_cfg []).
  reflexivity.
Defined.

(** X8. The constructor sends the list requests of In progress, Waiting for
    customer, Testing and Done, in this order and each under the id that
    [get_list_id] gives for the title, and nothing else; it prints nothing
    but the fetch failure line; the only exception it can raise is
    [IndexError] (a card whose name is blank).  When it returns, all four
    requests were sent and the entry of a list is [None] exactly when its
    request got a status other than 200. *)
Theorem constructor_requests
        (remote : list event -> request -> response) (cfg : config)
        (log : list event) :
  let outcome := get_tickets_information remote cfg log in
  let requests :=
    map (fun title => list_cards_request cfg (get_list_id cfg title))
        list_titles in
  exists evs,
    snd outcome = log ++ evs
    /\ (exists n, map fst (requests_of evs) = firstn n requests)
    /\ Forall (fun line => line = fetch_failed) (lines_of evs)
    /\ (forall e, fst outcome = Raise e -> e = IndexError)
    /\ (forall tickets,
          fst outcome = Ok tickets ->
          map fst (requests_of evs) = requests
          /\ Forall2 (fun entry s => entry = None <-> s <> 200%Z)
                     (dict_values tickets) (map snd (requests_of evs))).
Proof.
  cbv zeta. rewrite get_tickets_information_loop, board_requests.
  destruct (fetch_all_run remote cfg (board_lists cfg) log)
    as (evs & Hlog & Hn & Hlines & Hraise & Hok).
  exists evs. split; [exact Hlog|]. split; [exact Hn|].
  split; [exact Hlines|]. split; [exact Hraise|].
  intros tickets Hrun.
  destruct (Hok tickets Hrun) as (_ & Hreqs & Hentries & _).
  split; assumption.
Qed.

Example constructor_examples :
  get_tickets_information rejecting sample_cfg []
  = (Ok (snapshot None None None None),
     [Sent (list_cards_request sample_cfg (u "L1")) 500%Z; Printed fetch_failed;
      Sent (list_cards_request sample_cfg (u "L2")) 500%Z; Printed fetch_failed;
      Sent (list_cards_request sample_cfg (u "L3")) 500%Z; Printed fetch_failed;
      Sent (list_cards_request sample_cfg (u "L4")) 500%Z; Printed fetch_failed])
  /\ get_tickets_information (serving [mk_card "c5" " "]) sample_cfg []
     = (Raise IndexError,
        [Sent (list_cards_request sample_cfg (u "L1")) 200%Z]).
Proof. split; reflexivity. Qed.

(** ** Showing lists *)

Lemma for_each_print {A} (f : A -> str) (l : list A) (log : list event) :
  for_each l (fun x => print (f x)) log
  = (Ok tt, log ++ map (fun x => Printed (f x)) l).
Proof.
  revert log. induction l as [|x l IH]; intros log.
  - cbn. now rewrite app_nil_r.
  - cbn [for_each map]. unfold bind at 1. unfold print at 1.
    rewrite IH, <- app_assoc. reflexivity.
Qed.

Lemma known_list (list_name : str) :
  existsb (str_eqb list_name)
    [u "In progress"; u "Waiting for customer"; u "Testing"; u "Done"] = true
  <-> In list_name list_titles.
Proof.
  rewrite existsb_exists. unfold list_titles. split.
  - intros (x & Hin & Heq). apply str_eqb_eq in Heq. now subst.
  - intros Hin. exists list_name. split; [exact Hin|apply str_eqb_refl].
Qed.

Lemma show_list_tickets_known (tickets : tickets_dict) (list_name : str)
      (ts : list ticket) (log : list event) :
  In list_name list_titles ->
  dict_get tickets list_name = Ok (Some ts) ->
  show_list_tickets tickets list_name log
  = (Ok tt, log ++ map Printed (list_lines list_name ts)).
Proof.
  intros Hin Hget. apply known_list in Hin.
  unfold show_list_tickets. rewrite Hin. cbn [negb].
  unfold list_lines.
  destruct (str_eqb list_name (u "Done")).
  - unfold bind at 1. unfold print at 1.
    unfold bind at 1. unfold bind at 1. unfold print at 1. unfold ret at 1.
    unfold bind at 1. unfold lift at 1. rewrite Hget.
    unfold bind at 1. unfold lift at 1. cbn [iter_tickets].
    rewrite (for_each_print ticket_line).
    unfold slice_from. replace (skipn 1 ts) with (tl ts)
      by (destruct ts; reflexivity).
    cbn [map]. rewrite map_map, <- !app_assoc. reflexivity.
  - unfold bind at 1. unfold print at 1.
    unfold bind at 1. unfold ret at 1.
    unfold bind at 1. unfold lift at 1. rewrite Hget.
    unfold bind at 1. unfold lift at 1. cbn [iter_tickets].
    rewrite (for_each_print ticket_line).
    unfold slice_from. cbn [skipn map]. rewrite map_map, <- !app_assoc.
    reflexivity.
Qed.

Lemma show_list_tickets_unknown (tickets : tickets_dict) (list_name : str)
      (log : list event) :
  ~ In list_name list_titles ->
  show_list_tickets tickets list_name log
  = (Ok tt, log ++ [Printed (not_found_line list_name)]).
Proof.
  intros Hnot. unfold show_list_tickets.
  destruct (existsb _ _) eqn:Hex.
  - apply known_list in Hex. contradiction.
  - reflexivity.
Qed.

(** X9. [show_list_tickets] sends no request.  For one of the four titles
    whose list was fetched it prints the title and one line per ticket; for
    Done it prints a fixed line in place of the ticket at index 0, whatever
    that ticket is, and prints that line even when the list is empty.  For
    any other name it prints the single line saying that the list was not
    found, and ends normally. *)
Theorem show_list_tickets_output (tickets : tickets_dict) (list_name : str)
        (log : list event) :
  (In list_name list_titles ->
   forall ts, dict_get tickets list_name = Ok (Some ts) ->
              show_list_tickets tickets list_name log
              = (Ok tt, log ++ map Printed (list_lines list_name ts)))
  /\ (~ In list_name list_titles ->
      show_list_tickets tickets list_name log
      = (Ok tt, log ++ [Printed (not_found_line list_name)])).
Proof.
  split.
  - intros Hin ts Hget. now apply show_list_tickets_known.
  - apply show_list_tickets_unknown.
Qed.

Lemma show_list_tickets_output_witness :
  (In (u "Done") list_titles
   /\ dict_get sample_tickets (u "Done") = Ok (Some sample_done)
   /\ show_list_tickets sample_tickets (u "Done") []
      = (Ok tt,
         map Printed [u "Done"; all_line; u "  - T-2 - 3 points";
                      u "  - T-3 - 5 points"; u "  - T-4 - 2 points"]))
  /\ (~ In (u "Backlog") list_titles
      /\ show_list_tickets sample_tickets (u "Backlog") []
         = (Ok tt, [Printed (u "List Backlog not found on current board")])).
Proof.
  assert (Hin : In (u "Done") list_titles) by (do 3 right; left; reflexivity).
  assert (Hnot : ~ In (u "Backlog") list_titles).
  { intros H. repeat (destruct H as [H|H]; [discriminate H|]). exact H. }
  split.
  - split; [exact Hin|]. split; [reflexivity|].
    exact (proj1 (show_list_tickets_output sample_tickets (u "Done") [])
             Hin sample_done eq_refl).
  - split; [exact Hnot|].
    exact (proj2 (show_list_tickets_output sample_tickets (u "Backlog") [])
             Hnot).
Defined.

(** X10. For a snapshot whose four lists were fetched, [show_board] prints
    the board heading and then the four lists as [show_list_tickets] prints
    them, in the order In progress, Waiting for customer, Testing, Done; it
    sends no request and never prints that a list was not found. *)
Theorem show_board_output (in_progress waiting testing done : list ticket)
        (log : list event) :
  show_board (snapshot (Some in_progress) (Some waiting) (Some testing)
                       (Some done)) log
  = (Ok tt,
     log ++ map Printed
              ((u "Hotels board" ++ nl)
               :: list_lines (u "In progress") in_progress
               ++ list_lines (u "Waiting for customer") waiting
               ++ list_lines (u "Testing") testing
               ++ list_lines (u "Done") done)).
Proof.
  unfold show_board. unfold bind at 1. unfold print at 1.
  cbn [dict_keys snapshot map fst for_each].
  unfold bind.
  rewrite (show_list_tickets_known _ (u "In progress") in_progress);
    [|left; reflexivity|reflexivity].
  rewrite (show_list_tickets_known _ (u "Waiting for customer") waiting);
    [|right; left; reflexivity|reflexivity].
  rewrite (show_list_tickets_known _ (u "Testing") testing);
    [|do 2 right; left; reflexivity|reflexivity].
  rewrite (show_list_tickets_known _ (u "Done") done);
    [|do 3 right; left; reflexivity|reflexivity].
  unfold ret. cbn [map]. rewrite !map_app, <- !app_assoc. reflexivity.
Qed.

Example show_board_example :
  lines_of (snd (show_board sample_tickets []))
  = [u "Hotels board" ++ nl;
     u "In progress"; u "  - T-1 - 8 points";
     u "Waiting for customer";
     u "Testing";
     u "Done"; all_line; u "  - T-2 - 3 points"; u "  - T-3 - 5 points";
     u "  - T-4 - 2 points"].
Proof. reflexivity. Qed.

(** ** What a command may send *)

Lemma sends_only_printed (methods : list http_method) (lines : list str) :
  sends_only methods (map Printed lines).
Proof.
  unfold sends_only. apply Forall_map. apply Forall_forall. intros; exact I.
Qed.

Lemma show_list_tickets_prints (tickets : tickets_dict) (list_name : str)
      (log : list event) :
  exists lines,
    snd (show_list_tickets tickets list_name log) = log ++ map Printed lines.
Proof.
  unfold show_list_tickets.
  destruct (existsb _ _); cbn [negb].
  - destruct (dict_get tickets list_name) as [[ts|]|e].
    + destruct (str_eqb list_name (u "Done")).
      * unfold bind at 1. unfold print at 1.
        unfold bind at 1. unfold bind at 1. unfold print at 1. unfold ret at 1.
        unfold bind at 1. unfold lift at 1.
        unfold bind at 1. unfold lift at 1. cbn [iter_tickets].
        rewrite (for_each_print ticket_line). cbn [snd].
        exists (list_name :: all_line :: map ticket_line (slice_from 1 ts)).
        cbn [map]. rewrite map_map, <- !app_assoc. reflexivity.
      * unfold bind at 1. unfold print at 1.
        unfold bind at 1. unfold ret at 1.
        unfold bind at 1. unfold lift at 1.
        unfold bind at 1. unfold lift at 1. cbn [iter_tickets].
        rewrite (for_each_print ticket_line). cbn [snd].
        exists (list_name :: map ticket_line (slice_from 0 ts)).
        cbn [map]. rewrite map_map, <- !app_assoc. reflexivity.
    + destruct (str_eqb list_name (u "Done")).
      * exists [list_name; all_line].
        unfold bind, print, ret, lift. cbn [iter_tickets snd map].
        now rewrite <- app_assoc.
      * exists [list_name].
        unfold bind, print, ret, lift. reflexivity.
    + destruct (str_eqb list_name (u "Done")).
      * exists [list_name; all_line].
        unfold bind, print, ret, lift. cbn [snd map].
        now rewrite <- app_assoc.
      * exists [list_name].
        unfold bind, print, ret, lift. reflexivity.
  - exists [not_found_line list_name]. reflexivity.
Qed.

Lemma for_each_prints {A} (body : A -> M unit) (l : list A) :
  (forall x log, exists lines, snd (body x log) = log ++ map Printed lines) ->
  forall log, exists lines,
    snd (for_each l body log) = log ++ map Printed lines.
Proof.
  intros Hbody. induction l as [|x l IH]; intros log.
  - exists []. cbn. now rewrite app_nil_r.
  - cbn [for_each]. unfold bind.
    destruct (Hbody x log) as [lines1 H1].
    destruct (body x log) as [[[]|e] log1]; cbn [snd] in H1; subst log1.
    + destruct (IH (log ++ map Printed lines1)) as [lines2 H2].
      exists (lines1 ++ lines2). rewrite H2, map_app, app_assoc. reflexivity.
    + exists lines1. reflexivity.
Qed.

Lemma show_board_prints (tickets : tickets_dict) (log : list event) :
  exists lines, snd (show_board tickets log) = log ++ map Printed lines.
Proof.
  unfold show_board. unfold bind at 1. unfold print at 1.
  destruct (for_each_prints (show_list_tickets tickets) (dict_keys tickets)
              (show_list_tickets_prints tickets)
              (log ++ [Printed (u "Hotels board" ++ nl)])) as [lines H].
  exists ((u "Hotels board" ++ nl) :: lines).
  rewrite H. cbn [map]. now rewrite <- app_assoc.
Qed.

Lemma show_reply_run (status : Z) (operation : str) (log : list event) :
  py_str status = Ok (decimal status) ->
  show_reply status operation log
  = (Ok tt, log ++ [Printed (reply_line status operation)]).
Proof.
  intros Hshown. unfold show_reply, reply_line.
  destruct (status =? 200)%Z; [reflexivity|].
  unfold bind, lift. rewrite Hshown. reflexivity.
Qed.

Lemma show_reply_prints (status : Z) (operation : str) (log : list event) :
  exists lines,
    snd (show_reply status operation log) = log ++ map Printed lines.
Proof.
  unfold show_reply.
  destruct (status =? 200)%Z; [eexists [_]; reflexivity|].
  unfold bind, lift. destruct (py_str status) as [shown|e].
  - eexists [_]. reflexivity.
  - exists []. cbn. now rewrite app_nil_r.
Qed.

Ltac reply_printed :=
  match goal with
  | |- context [show_reply ?s ?o ?l] =>
      let lines := fresh "lines" in
      let Hl := fresh "Hl" in
      destruct (show_reply_prints s o l) as [lines Hl]; rewrite Hl;
      rewrite <- ?app_assoc; eexists; split; [reflexivity|]
  end.

Lemma monday_run_methods (cfg : config) (tickets : tickets_dict)
      (r : result unit) (evs : list event) :
  monday_run cfg tickets r evs -> sends_only [GET; POST; DELETE] evs.
Proof.
  assert (Hrep : forall l, Forall report_event l ->
                           sends_only [GET; POST; DELETE] l).
  { intros l Hl. eapply Forall_impl; [|exact Hl].
    intros [req s|line]; cbn; [intros ->; now left|trivial]. }
  assert (Hcom : forall l, sends_only [GET; POST; DELETE]
                                      (map (ok_comment cfg) l)).
  { intros l. apply Forall_map, Forall_forall. intros t _. cbn.
    right; left; reflexivity. }
  assert (Hdel : forall ts dels,
             Forall2 (deleted_ok cfg tickets) ts dels ->
             sends_only [GET; POST; DELETE] dels).
  { intros ts dels H.
    induction H as [|t d ts dels (cid & _ & ->) _ IH]; constructor;
      [|exact IH].
    cbn. do 2 right; left; reflexivity. }
  unfold sends_only in *.
  intros Hrun.
  destruct Hrun as [e evs Hevs
                   |evs pre post t s' Hevs Hdone Hs'
                   |evs dels pre post t cid s' Hevs Hdone Hdels Hcid Hs'
                   |evs dels pre post t e Hevs Hdone Hdels Hcid
                   |evs dels ts Hevs Hdone Hdels];
    repeat (apply Forall_app; split);
    try (apply Hrep; assumption);
    try apply Hcom;
    try (eapply Hdel; eassumption).
  - constructor; [cbn; right; left; reflexivity|].
    constructor; [exact I|constructor].
  - constructor; [cbn; do 2 right; left; reflexivity|].
    constructor; [exact I|constructor].
  - constructor; [exact I|constructor].
Qed.

(** X11. Whatever the command and its arguments, [run] sends only requests
    of the methods that belong to the command: GET, POST and DELETE for
    monday, POST for create_card, DELETE for delete_card, DELETE and POST for
    move_card, PUT for update_card, and none at all for show_board, show_list
    and every unknown method.  So only monday, delete_card and move_card can
    delete a card, and the show commands never touch the board. *)
Theorem run_sends_only
        (remote : list event -> request -> response) (cfg : config)
        (today : Z) (tickets : tickets_dict) (method arg1 arg2 : str)
        (log : list event) :
  exists evs,
    snd (run remote cfg today tickets method arg1 arg2 log) = log ++ evs
    /\ sends_only (allowed_methods method) evs.
Proof.
  unfold run, allowed_methods.
  destruct (str_eqb method (u "monday")).
  { destruct (run_monday_run remote cfg today tickets log)
      as (evs & Hlog & Hrun).
    exists evs. split; [exact Hlog|].
    exact (monday_run_methods _ _ _ _ Hrun). }
  destruct (str_eqb method (u "show_board")).
  { destruct (show_board_prints tickets log) as [lines H].
    exists (map Printed lines). split; [exact H|apply sends_only_printed]. }
  destruct (str_eqb method (u "show_list")).
  { destruct (show_list_tickets_prints tickets arg1 log) as [lines H].
    exists (map Printed lines). split; [exact H|apply sends_only_printed]. }
  destruct (str_eqb method (u "create_card")).
  { unfold bind. rewrite create_card_run. cbv beta iota zeta. reply_printed.
    constructor; [cbn; now left|apply sends_only_printed]. }
  destruct (str_eqb method (u "delete_card")).
  { unfold bind. rewrite delete_card_run.
    destruct (resolve_card_id tickets arg1) as [cid|e].
    - cbv beta iota zeta. reply_printed.
      constructor; [cbn; now left|apply sends_only_printed].
    - exists []. cbn [snd]. rewrite app_nil_r. split; [reflexivity|constructor]. }
  destruct (str_eqb method (u "move_card")).
  { unfold bind. rewrite move_card_run.
    destruct (move_card_name tickets arg1) as [name|e].
    2:{ exists []. cbn [snd]. rewrite app_nil_r.
        split; [reflexivity|constructor]. }
    rewrite delete_card_run.
    destruct (resolve_card_id tickets name) as [cid|e].
    2:{ exists []. cbn [snd]. rewrite app_nil_r.
        split; [reflexivity|constructor]. }
    cbv beta iota zeta.
    destruct (status_code (remote log (delete_request cfg cid)) =? 200)%Z.
    - rewrite create_card_run. cbv beta iota zeta.
      match goal with |- context [(?x =? 200)%Z] => destruct (x =? 200)%Z end;
        reply_printed;
        (constructor; [cbn; now left|]);
        (constructor; [cbn; right; now left|]);
        apply sends_only_printed.
    - reply_printed.
      constructor; [cbn; now left|apply sends_only_printed]. }
  destruct (str_eqb method (u "update_card")).
  { unfold bind. rewrite update_card_run.
    destruct (resolve_card_id tickets arg1) as [cid|e].
    - cbv beta iota zeta. reply_printed.
      constructor; [cbn; now left|apply sends_only_printed].
    - exists []. cbn [snd]. rewrite app_nil_r. split; [reflexivity|constructor]. }
  exists [Printed (u "There is no method with such name")].
  split; [reflexivity|]. constructor; [exact I|constructor].
Qed.

(** ** The report without its sentinel line *)

Lemma list_remove_absent (x : str) (l : list str) :
  Forall (fun y => y <> x) l -> list_remove x l = Raise ValueError.
Proof.
  induction 1 as [|y l Hy _ IH]; [reflexivity|].
  cbn [list_remove]. apply str_eqb_neq in Hy. rewrite Hy, IH. reflexivity.
Qed.

(** X12. For a snapshot whose four lists were fetched and a day for which
    the week header is computed, if no ticket renders as the literal
    sentinel line (no card named All without points, or another link
    prefix), [create_letter_template] raises [ValueError] at the removal,
    before the Done list is fetched again: no request is sent and no report
    is produced. *)
Theorem create_letter_template_without_sentinel
        (remote : list event -> request -> response) (cfg : config)
        (today : Z) (week : str)
        (in_progress waiting testing done : list ticket) (log : list event) :
  get_week today = Ok week ->
  Forall (fun t => template_line cfg t <> sentinel_line)
         (in_progress ++ waiting ++ testing ++ done) ->
  create_letter_template remote cfg today
    (snapshot (Some in_progress) (Some waiting) (Some testing) (Some done)) log
  = (Raise ValueError, log).
Proof.
  intros Hweek Hall.
  rewrite create_letter_template_run, Hweek, template_body_snapshot.
  rewrite list_remove_absent; [reflexivity|].
  constructor; [exact (header_not_sentinel _ Hweek)|].
  rewrite !app_assoc in Hall. apply Forall_app in Hall.
  destruct Hall as [Hbefore Hdone]. rewrite <- !app_assoc in Hbefore.
  apply Forall_app. split.
  - now apply lines_before_done_not_sentinel.
  - apply Forall_map. exact Hdone.
Qed.

Lemma create_letter_template_without_sentinel_witness :
  get_week 739196%Z = Ok (week_word ++ u " 04.11.2024 - 08.11.2024")
  /\ Forall (fun t => template_line sample_cfg t <> sentinel_line)
            ([mk_ticket "c1" "T-1" "8"] ++ [] ++ []
             ++ [mk_ticket "c2" "T-2" "3"])
  /\ create_letter_template (serving sample_cards) sample_cfg 739196%Z
       (snapshot (Some [mk_ticket "c1" "T-1" "8"]) (Some []) (Some [])
                 (Some [mk_ticket "c2" "T-2" "3"])) []
     = (Raise ValueError, []).
Proof.
  assert (Hall : Forall (fun t => template_line sample_cfg t <> sentinel_line)
                   ([mk_ticket "c1" "T-1" "8"] ++ [] ++ []
                    ++ [mk_ticket "c2" "T-2" "3"]))
    by (repeat constructor; discriminate).
  split; [reflexivity|]. split; [exact Hall|].
  exact (create_letter_template_without_sentinel (serving sample_cards)
           sample_cfg 739196%Z _ _ _ _ _ [] eq_refl Hall).
Defined.

(** ** Posting the comments *)


Example move_cards_name_to_comments_examples :
  move_cards_name_to_comments second_post_rejected sample_cfg sample_tickets
    [Sent (comment_request sample_cfg (u "earlier")) 200%Z]
  = (Ok 500%Z,
     [Sent (comment_request sample_cfg (u "earlier")) 200%Z;
      Sent (comment_request sample_cfg (u "T-2 - 3")) 500%Z])
  /\ move_cards_name_to_comments accepting sample_cfg done_missing []
     = (Raise TypeError, []).
Proof. split; reflexivity. Qed.

(** ** The exceptions of the weekly total *)

Lemma mapr_parse_total (cards : list card) :
  Forall (fun c => ~ blank c) cards ->
  exists ts, mapr parse_card_name cards = Ok ts.
Proof.
  intros Hnone.
  destruct (mapr parse_card_name cards) as [ts|e] eqn:H; [now exists ts|].
  destruct (mapr_parse_raises _ _ H) as [_ Hex].
  apply Exists_exists in Hex. destruct Hex as (c & Hin & Hb).
  rewrite Forall_forall in Hnone. now contradiction (Hnone c Hin).
Qed.

Lemma mapr_parse_blank (cards : list card) :
  Exists blank cards -> mapr parse_card_name cards = Raise IndexError.
Proof.
  induction cards as [|c cards IH]; intros Hex; [inversion Hex|].
  cbn [mapr].
  destruct (parse_card_name c) as [t|e] eqn:Hc; cbn [rbind].
  - inversion Hex as [? ? [Hne Hsplit]|? ? Htail]; subst.
    + rewrite (parse_card_name_blank _ Hne Hsplit) in Hc. discriminate.
    + rewrite (IH Htail). reflexivity.
  - destruct (parse_card_name_raises c e Hc) as [-> _]. reflexivity.
Qed.

Lemma get_weekly_story_points_unfold
      (remote : list event -> request -> response) (cfg : config)
      (log : list event) :
  get_weekly_story_points remote cfg log =
  match get_list_cards remote cfg (DONE_LIST_ID cfg) log with
  | (Raise e, log1) => (Raise e, log1)
  | (Ok fetched, log1) =>
      match iter_tickets fetched with
      | Raise e => (Raise e, log1)
      | Ok ts =>
          match mapr (fun c => py_int (story_points c)) (from1 ts) with
          | Raise e => (Raise e, log1)
          | Ok points => (Ok (fold_right Z.add 0%Z points), log1)
          end
      end
  end.
Proof.
  unfold get_weekly_story_points, bind, lift, ret.
  destruct (get_list_cards remote cfg (DONE_LIST_ID cfg) log)
    as [[fetched|e] log1]; [|reflexivity].
  destruct (iter_tickets fetched) as [ts|e]; [|reflexivity].
  destruct (mapr _ (from1 ts)); reflexivity.
Qed.

(** X14. [get_weekly_story_points] sends one request for the Done list.  It
    raises [TypeError] exactly when that request gets a status other than
    200 (after printing the failure line), and [IndexError] exactly when the
    status is 200 and some card of the list has a blank name; in every other
    case it returns a total: the story points of fetched tickets never make
    [int] fail. *)
Theorem get_weekly_story_points_outcome
        (remote : list event -> request -> response) (cfg : config)
        (log : list event) :
  let req := list_cards_request cfg (DONE_LIST_ID cfg) in
  let resp := remote log req in
  let outcome := get_weekly_story_points remote cfg log in
  (status_code resp <> 200%Z ->
   outcome = (Raise TypeError,
              log ++ [Sent req (status_code resp); Printed fetch_failed]))
  /\ (status_code resp = 200%Z -> Exists blank (json resp) ->
      outcome = (Raise IndexError, log ++ [Sent req 200%Z]))
  /\ (status_code resp = 200%Z -> Forall (fun c => ~ blank c) (json resp) ->
      exists total, outcome = (Ok total, log ++ [Sent req 200%Z])).
Proof.
  cbv zeta. rewrite get_weekly_story_points_unfold.
  destruct (get_list_cards_cases remote cfg (DONE_LIST_ID cfg) log)
    as [[Hs Hg]|[Hs [(ts & Hts & Hg)|(Hb & Hg)]]]; rewrite Hg.
  - split; [intros _; reflexivity|]. split; intros; congruence.
  - split; [intros; congruence|]. split.
    + intros _ Hex. rewrite (mapr_parse_blank _ Hex) in Hts. discriminate.
    + intros _ _.
      edestruct parsed_points_total as [points Hpoints]; [exact Hts|].
      apply Forall2_tl in Hpoints. apply mapr_Forall2 in Hpoints.
      exists (fold_right Z.add 0%Z (tl points)).
      cbn [iter_tickets]. unfold from1. rewrite Hpoints. reflexivity.
  - split; [intros; congruence|]. split.
    + intros _ _. reflexivity.
    + intros _ Hnone. exfalso.
      apply Exists_exists in Hb. destruct Hb as (c & Hin & Hb).
      rewrite Forall_forall in Hnone. exact (Hnone c Hin Hb).
Qed.

Lemma get_weekly_story_points_outcome_witness :
  (status_code (rejecting [] (list_cards_request sample_cfg (u "L4"))) <> 200%Z
   /\ get_weekly_story_points rejecting sample_cfg []
      = (Raise TypeError,
         [Sent (list_cards_request sample_cfg (u "L4")) 500%Z;
          Printed fetch_failed]))
  /\ (Exists blank [mk_card "c5" " "]
      /\ get_weekly_story_points (serving [mk_card "c5" " "]) sample_cfg []
         = (Raise IndexError,
            [Sent (list_cards_request sample_cfg (u "L4")) 200%Z]))
  /\ (Forall (fun c => ~ blank c) sample_cards
      /\ exists total,
          get_weekly_story_points (serving sample_cards) sample_cfg []
          = (Ok total, [Sent (list_cards_request sample_cfg (u "L4")) 200%Z])).
Proof.
  assert (Hblank : Exists blank [mk_card "c5" " "]).
  { apply Exists_cons_hd. split; [discriminate|reflexivity]. }
  assert (Hnone : Forall (fun c => ~ blank c) sample_cards).
  { repeat constructor; intros [_ H]; discriminate H. }
  split; [|split].
  - split; [discriminate|].
    apply (proj1 (get_weekly_story_points_outcome rejecting sample_cfg [])).
    discriminate.
  - split; [exact Hblank|].
    apply (proj1 (proj2 (get_weekly_story_points_outcome
                           (serving [mk_card "c5" " "]) sample_cfg [])));
      [reflexivity|exact Hblank].
  - split; [exact Hnone|].
    apply (proj2 (proj2 (get_weekly_story_points_outcome
                           (serving sample_cards) sample_cfg [])));
      [reflexivity|exact Hnone].
Defined.

(** ** The week of the header and today *)

Lemma get_week_run (today : Z) :
  (1 < today <= MAXORDINAL)%Z ->
  let monday := (today - or_int (weekday today) 7)%Z in
  get_week today
  = Ok (week_word ++ u " " ++ strftime_dmY monday ++ u " - "
        ++ strftime_dmY (monday + 4))
  /\ weekday monday = 0%Z
  /\ (monday < today <= monday + 7)%Z
  /\ ((today <= monday + 4)%Z <-> (1 <= weekday today <= 4)%Z).
Proof.
  intros Hrange. cbv zeta.
  pose proof (weekday_range today) as Hw.
  unfold or_int.
  set (diff := (if (weekday today =? 0)%Z then 7 else weekday today)%Z).
  assert (Hdiff : (1 <= diff <= 7)%Z
                  /\ ((diff <= 4)%Z <-> (1 <= weekday today <= 4)%Z)).
  { unfold diff. destruct (Z.eqb_spec (weekday today) 0); lia. }
  assert (Hmon : weekday (today - diff) = 0%Z).
  { unfold diff, weekday in *.
    destruct (Z.eqb_spec ((today + 6) mod 7) 0);
      Z.div_mod_to_equations; lia. }
  assert (Hmax : (today - diff + 4 <= MAXORDINAL)%Z).
  { unfold weekday, MAXORDINAL in *. Z.div_mod_to_equations. lia. }
  assert (Hmin : (0 < today - diff)%Z).
  { unfold diff, weekday in *.
    destruct (Z.eqb_spec ((today + 6) mod 7) 0);
      Z.div_mod_to_equations; lia. }
  split; [|split; [exact Hmon|split; lia]].
  unfold get_week, or_int. fold diff. unfold add_days.
  replace (today + - diff)%Z with (today - diff)%Z by lia.
  replace ((0 <? today - diff)%Z && (today - diff <=? MAXORDINAL)%Z) with true
    by (symmetry; apply andb_true_iff; split;
        [apply Z.ltb_lt|apply Z.leb_le]; lia).
  cbn [rbind].
  replace ((0 <? today - diff + 4)%Z && (today - diff + 4 <=? MAXORDINAL)%Z)
    with true
    by (symmetry; apply andb_true_iff; split;
        [apply Z.ltb_lt|apply Z.leb_le]; lia).
  reflexivity.
Qed.

(** X15. For every day after 1 January of year 1, the Monday of the header
    is the latest Monday strictly before today, and the Monday-to-Friday
    span of the header contains today exactly when today is a Tuesday,
    Wednesday, Thursday or Friday: on those days the header names the
    running week, on Saturday, Sunday and Monday a week that is over. *)
Theorem get_week_span (today : Z) :
  (1 < today <= MAXORDINAL)%Z ->
  exists monday : Z,
    get_week today
    = Ok (week_word ++ u " " ++ strftime_dmY monday ++ u " - "
          ++ strftime_dmY (monday + 4))
    /\ weekday monday = 0%Z
    /\ (monday < today <= monday + 7)%Z
    /\ ((today <= monday + 4)%Z <-> (1 <= weekday today <= 4)%Z).
Proof.
  intros Hrange.
  exists (today - or_int (weekday today) 7)%Z.
  exact (get_week_run today Hrange).
Qed.

Lemma get_week_span_witness :
  (1 < 739196 <= MAXORDINAL)%Z
  /\ exists monday : Z,
      get_week 739196
      = Ok (week_word ++ u " " ++ strftime_dmY monday ++ u " - "
            ++ strftime_dmY (monday + 4))
      /\ weekday monday = 0%Z
      /\ (monday < 739196 <= monday + 7)%Z
      /\ ((739196 <= monday + 4)%Z <-> (1 <= weekday 739196 <= 4)%Z).
Proof.
  split.
  - unfold MAXORDINAL. lia.
  - apply (get_week_span 739196). unfold MAXORDINAL. lia.
Defined.

(** ** The reply of the move command *)

(** X16. The move_card command either raises before any request, printing
    nothing, or prints exactly one line after its requests: the success line
    when the deletion and the creation were both answered 200, and otherwise
    the failure line naming status 400, whatever status the board gave. *)
Theorem run_move_card_reply
        (remote : list event -> request -> response) (cfg : config)
        (today : Z) (tickets : tickets_dict) (arg1 arg2 : str)
        (log : list event) :
  let outcome := run remote cfg today tickets (u "move_card") arg1 arg2 log in
  (exists e, outcome = (Raise e, log))
  \/ exists evs,
      lines_of evs = []
      /\ ((map snd (requests_of evs) = [200%Z; 200%Z]
           /\ outcome
              = (Ok tt, log ++ evs
                        ++ [Printed (reply_line 200%Z (u "move"))]))
          \/ (exists s, s <> 200%Z
                        /\ (map snd (requests_of evs) = [s]
                            \/ map snd (requests_of evs) = [200%Z; s])
                        /\ outcome
                           = (Ok tt, log ++ evs
                                     ++ [Printed (reply_line 400%Z (u "move"))]))).
Proof.
  cbv zeta.
  change (run remote cfg today tickets (u "move_card") arg1 arg2 log)
    with ((status <- move_card remote cfg tickets arg1 arg2 ;;
           show_reply status (u "move")) log).
  unfold bind. rewrite move_card_run.
  destruct (move_card_name tickets arg1) as [name|e]; [|left; eauto].
  rewrite delete_card_run.
  destruct (resolve_card_id tickets name) as [cid|e]; [|left; eauto].
  right. cbv beta iota zeta.
  set (deleted := status_code (remote log (delete_request cfg cid))).
  destruct (Z.eqb_spec deleted 200) as [Hd|Hd].
  - rewrite create_card_run. cbv beta iota zeta. rewrite Hd.
    set (log1 := log ++ [Sent (delete_request cfg cid) 200%Z]).
    set (creq := create_request cfg (get_list_id cfg arg2) name).
    set (created := status_code (remote log1 creq)).
    exists [Sent (delete_request cfg cid) 200%Z; Sent creq created].
    split; [reflexivity|].
    destruct (Z.eqb_spec created 200) as [Hc|Hc];
      rewrite show_reply_run by reflexivity.
    + left. rewrite Hc. split; [reflexivity|].
      unfold log1. rewrite <- !app_assoc. reflexivity.
    + right. exists created. split; [exact Hc|]. split; [now right|].
      unfold log1. rewrite <- !app_assoc. reflexivity.
  - rewrite show_reply_run by reflexivity.
    exists [Sent (delete_request cfg cid) deleted].
    split; [reflexivity|]. right. exists deleted.
    split; [exact Hd|]. split; [now left|].
    rewrite <- !app_assoc. reflexivity.
Qed.

Example run_move_card_examples :
  lines_of (snd (run rejecting sample_cfg 739196%Z sample_tickets
                   (u "move_card") (u "T-3") (u "Testing") []))
  = [u "Card has not been moved."
     ++ u "Please check card's name and list's name (if required)." ++ nl
     ++ u "Operation failed with 400 error."]
  /\ lines_of (snd (run rejecting sample_cfg 739196%Z sample_tickets
                      (u "delete_card") (u "T-3") [] []))
     = [u "Card has not been deleted."
        ++ u "Please check card's name and list's name (if required)." ++ nl
        ++ u "Operation failed with 500 error."]
  /\ lines_of (snd (run accepting sample_cfg 739196%Z sample_tickets
                      (u "move_card") (u "T-3") (u "Testing") []))
     = [u "Card has been successfully moved."].
Proof. repeat split; reflexivity. Qed.

(** ** Which card a rollover deletes *)

Lemma dict_get_in {V} (d : list (str * V)) (key : str) (v : V) :
  dict_get d key = Ok v -> In v (dict_values d).
Proof.
  induction d as [|[k x] d IH]; [discriminate|].
  cbn [dict_get dict_values map snd].
  destruct (str_eqb k key).
  - intros [= <-]. now left.
  - intros H. right. exact (IH H).
Qed.

Lemma flat_in (vals : list (option (list ticket))) (ts : list ticket)
      (t : ticket) :
  In (Some ts) vals -> In t ts -> In t (flat vals).
Proof.
  intros Hvals Ht. unfold flat. apply in_concat.
  exists ts. split; [|exact Ht].
  apply in_map_iff. exists (Some ts). split; [reflexivity|exact Hvals].
Qed.

Lemma done_tail_in (tickets : tickets_dict) (ts : list ticket) (t : ticket) :
  done_tail tickets = Ok ts -> In t ts -> In t (all_tickets tickets).
Proof.
  unfold done_tail.
  destruct (dict_get tickets (u "Done")) as [[all|]|e] eqn:Hget;
    cbn [rbind iter_tickets]; try discriminate.
  intros [= <-] Hin.
  apply (flat_in _ all); [exact (dict_get_in _ _ _ Hget)|].
  destruct all; [contradiction|]. now right.
Qed.

Lemma find_present {A} (p : A -> bool) (l : list A) (x : A) :
  In x l -> p x = true -> exists y, find p l = Some y.
Proof.
  intros Hin Hp. destruct (find p l) as [y|] eqn:Hfind; [now exists y|].
  pose proof (find_none _ _ Hfind _ Hin). congruence.
Qed.

(** The card a ticket's name resolves to is the first card of that name. *)
Lemma resolve_first_named (tickets : tickets_dict) (t : ticket) (cid : str) :
  parsed tickets -> complete tickets ->
  In t (all_tickets tickets) ->
  resolve_card_id tickets (ticket_name t) = Ok cid ->
  exists c, first_named tickets (ticket_name t) = Some c /\ ticket_id c = cid.
Proof.
  intros Hparsed Hc Hin Hres.
  destruct (find_present (fun c => str_eqb (ticket_name c) (ticket_name t))
              (all_tickets tickets) t Hin (str_eqb_refl _)) as [c Hfirst].
  exists c. split; [exact Hfirst|].
  assert (Hid : get_card_id tickets (ticket_name t) = Ok (ticket_id c)).
  { rewrite (get_card_id_find _ _ Hc). unfold first_named.
    rewrite Hfirst. reflexivity. }
  unfold resolve_card_id in Hres. rewrite Hid in Hres. cbn [rbind] in Hres.
  destruct (ticket_id c) as [|x rest] eqn:Hc0.
  - cbn [is_empty negb] in Hres.
    unfold parsed in Hparsed. rewrite Forall_forall in Hparsed.
    destruct (Hparsed t Hin) as [card Hcard].
    destruct (parse_card_name_shape card t Hcard)
      as [(_ & Hname & _)|(Htok & _)].
    + rewrite Hname in Hres. discriminate Hres.
    + rewrite (split_token Htok), getitem_first in Hres.
      cbn [rbind] in Hres. rewrite Hid in Hres. congruence.
  - cbn [is_empty negb] in Hres. congruence.
Qed.

(** X17. In a snapshot of parsed tickets without a failed fetch, a rollover
    that prints the success line has sent, for every Done ticket after index
    0, an accepted DELETE request for the first card of the whole snapshot
    that bears the ticket's name, in the order In progress, Waiting for
    customer, Testing, Done: a card of an earlier list with the same name is
    the one that is deleted. *)
Theorem rollover_deletes_first_named
        (remote : list event -> request -> response) (cfg : config)
        (today : Z) (tickets : tickets_dict) (log : list event) :
  parsed tickets -> complete tickets ->
  In (Printed archived) (snd (run_monday remote cfg today tickets log)) ->
  ~ In (Printed archived) log ->
  exists ts,
    done_tail tickets = Ok ts
    /\ forall t, In t ts ->
         exists c,
           first_named tickets (ticket_name t) = Some c
           /\ In (Sent (delete_request cfg (ticket_id c)) 200%Z)
                 (snd (run_monday remote cfg today tickets log)).
Proof.
  intros Hparsed Hc Hdone Hfresh.
  destruct (run_monday_run remote cfg today tickets log)
    as (evs & Hlog & Hrun).
  rewrite Hlog in *.
  apply in_app_or in Hdone. destruct Hdone as [Hdone|Hdone];
    [contradiction|].
  edestruct monday_success as (_ & _ & ts & Htail & Hts);
    [exact Hrun|exact Hdone|].
  exists ts. split; [exact Htail|].
  intros t Ht.
  destruct (Hts t Ht) as (_ & e & (cid & Hres & ->) & Hin).
  destruct (resolve_first_named tickets t cid Hparsed Hc
              (done_tail_in _ _ _ Htail Ht) Hres) as (c & Hfirst & <-).
  exists c. split; [exact Hfirst|].
  apply in_or_app. now right.
Qed.

Lemma homonym_tickets_parsed : parsed homonym_tickets.
Proof.
  unfold parsed. cbn.
  constructor; [exists (mk_card "c7" "T-2 1"); reflexivity|].
  constructor; [exists (mk_card "c0" "All"); reflexivity|].
  constructor; [exists (mk_card "c2" "T-2 3"); reflexivity|].
  constructor; [exists (mk_card "c3" "T-3 5"); reflexivity|].
  constructor; [exists (mk_card "c4" "T-4 2"); reflexivity|].
  constructor.
Qed.

Lemma rollover_deletes_first_named_witness :
  parsed homonym_tickets /\ complete homonym_tickets
  /\ In (Printed archived)
        (snd (run_monday (serving sample_cards) sample_cfg 739196%Z
                homonym_tickets []))
  /\ ~ In (Printed archived) []
  /\ exists ts,
      done_tail homonym_tickets = Ok ts
      /\ forall t, In t ts ->
           exists c,
             first_named homonym_tickets (ticket_name t) = Some c
             /\ In (Sent (delete_request sample_cfg (ticket_id c)) 200%Z)
                   (snd (run_monday (serving sample_cards) sample_cfg
                           739196%Z homonym_tickets [])).
Proof.
  assert (Hdone : In (Printed archived)
                     (snd (run_monday (serving sample_cards) sample_cfg
                             739196%Z homonym_tickets []))).
  { vm_compute. do 8 right. left. reflexivity. }
  split; [exact homonym_tickets_parsed|].
  split; [exact homonym_tickets_complete|].
  split; [exact Hdone|]. split; [intros H; exact H|].
  apply (rollover_deletes_first_named (serving sample_cards) sample_cfg
           739196%Z homonym_tickets []).
  - exact homonym_tickets_parsed.
  - exact homonym_tickets_complete.
  - exact Hdone.
  - intros H; exact H.
Defined.

Example rollover_homonym_example :
  requests_of (snd (run_monday (serving sample_cards) sample_cfg 739196%Z
                      homonym_tickets []))
  = [(list_cards_request sample_cfg (u "L4"), 200%Z);
     (comment_request sample_cfg (u "T-2 - 3"), 200%Z);
     (comment_request sample_cfg (u "T-3 - 5"), 200%Z);
     (comment_request sample_cfg (u "T-4 - 2"), 200%Z);
     (delete_request sample_cfg (u "c7"), 200%Z);
     (delete_request sample_cfg (u "c3"), 200%Z);
     (delete_request sample_cfg (u "c4"), 200%Z)].
Proof. reflexivity. Qed.

(** ** A blank card name at start-up *)

(** X18. If the first list the constructor fetches is answered 200 and holds
    a card whose name is made of blanks only, every command, the show
    commands and unknown methods included, ends in [IndexError] right after
    that first request: nothing is printed and no other request is sent. *)
Theorem main_raises_on_blank_card
        (remote : list event -> request -> response) (cfg : config)
        (today : Z) (method arg1 arg2 : str) (log : list event) :
  let req := list_cards_request cfg (IN_PROGRESS_LIST_ID cfg) in
  status_code (remote log req) = 200%Z ->
  Exists blank (json (remote log req)) ->
  main remote cfg today method arg1 arg2 log
  = (Raise IndexError, log ++ [Sent req 200%Z]).
Proof.
  cbv zeta. intros Hs Hblank.
  unfold main. unfold bind at 1.
  rewrite get_tickets_information_loop. unfold board_lists.
  rewrite fetch_all_cons.
  destruct (get_list_cards_cases remote cfg (IN_PROGRESS_LIST_ID cfg) log)
    as [[Hnot _]|[_ [(ts & Hts & _)|(_ & Hg)]]].
  - contradiction.
  - rewrite (mapr_parse_blank _ Hblank) in Hts. discriminate.
  - rewrite Hg. reflexivity.
Qed.

Lemma main_raises_on_blank_card_witness :
  status_code (serving [mk_card "c5" "  "] []
                 (list_cards_request sample_cfg
                    (IN_PROGRESS_LIST_ID sample_cfg))) = 200%Z
  /\ Exists blank [mk_card "c5" "  "]
  /\ main (serving [mk_card "c5" "  "]) sample_cfg 739196%Z
       (u "show_board") [] [] []
     = (Raise IndexError,
        [Sent (list_cards_request sample_cfg (u "L1")) 200%Z]).
Proof.
  assert (Hblank : Exists blank [mk_card "c5" "  "]).
  { apply Exists_cons_hd. split; [discriminate|reflexivity]. }
  split; [reflexivity|]. split; [exact Hblank|].
  apply (main_raises_on_blank_card (serving [mk_card "c5" "  "]) sample_cfg
           739196%Z (u "show_board") [] [] []);
    [reflexivity|exact Hblank].
Defined.

(** * The outcomes of fetching, summing and moving *)

(** ** The outcome of a fetch *)

Lemma readable_not_blank (c : card) : readable c -> ~ blank c.
Proof.
  intros [Hempty|Hex] [Hne Hsplit]; [congruence|].
  exact (split_from_some [] Hex Hsplit).
Qed.

Lemma only_spaces_blank (c : card) : only_spaces (card_name c) -> blank c.
Proof. intros [Hne Hsp]. split; [assumption|now apply split_spaces]. Qed.

(** C8, amended.  [get_list_cards] sends the list-cards request, once.  When
    the status is not 200 it prints the fixed failure message and returns
    [None] without raising.  When the status is 200 and every card of the
    response has a name that is empty or holds a token, it prints nothing and
    returns the tickets parsed from the cards, one for each card, in order.
    When the status is 200 and some card has a name that is not empty and
    holds whitespace only, it raises [IndexError]. *)
Theorem get_list_cards_readable
        (remote : list event -> request -> response) (cfg : config)
        (list_id : str) (log : list event) :
  let req := list_cards_request cfg list_id in
  let resp := remote log req in
  (status_code resp <> 200%Z ->
   get_list_cards remote cfg list_id log
   = (Ok None, log ++ [Sent req (status_code resp); Printed fetch_failed]))
  /\ (status_code resp = 200%Z -> Forall readable (json resp) ->
      exists ts,
        Forall2 (fun c t => parse_card_name c = Ok t) (json resp) ts
        /\ get_list_cards remote cfg list_id log
           = (Ok (Some ts), log ++ [Sent req 200%Z]))
  /\ (status_code resp = 200%Z ->
      Exists (fun c => only_spaces (card_name c)) (json resp) ->
      get_list_cards remote cfg list_id log
      = (Raise IndexError, log ++ [Sent req 200%Z])).
Proof.
  cbv zeta.
  destruct (get_list_cards_cases remote cfg list_id log)
    as [[Hs Hrun]|[Hs [(ts & Hts & Hrun)|[Hblank Hrun]]]].
  - split; [intros _; exact Hrun|]. split; intros H; contradiction.
  - split; [intros H; contradiction|]. split.
    + intros _ _. exists ts. split; [|exact Hrun]. now apply mapr_Forall2.
    + intros _ Hex. exfalso.
      assert (Hb : Exists blank (json (remote log (list_cards_request cfg list_id)))).
      { apply Exists_exists in Hex. destruct Hex as (c & Hin & Hc).
        apply Exists_exists. exists c. split; [assumption|].
        now apply only_spaces_blank. }
      rewrite (mapr_parse_blank _ Hb) in Hts. discriminate.
  - split; [intros H; contradiction|]. split.
    + intros _ Hall. exfalso.
      apply Exists_exists in Hblank. destruct Hblank as (c & Hin & Hc).
      rewrite Forall_forall in Hall.
      exact (readable_not_blank c (Hall c Hin) Hc).
    + intros _ _. exact Hrun.
Qed.

(** A board whose list holds a card named with one blank: the request is
    answered 200 and no ticket sequence comes back. *)
Lemma get_list_cards_blank_counterexample :
  let board := serving [mk_card "c1" "T-1 8"; mk_card "c5" " "] in
  let req := list_cards_request sample_cfg (u "L1") in
  status_code (board [] req) = 200%Z
  /\ get_list_cards board sample_cfg (u "L1") []
     = (Raise IndexError, [Sent req 200%Z])
  /\ (forall entry, fst (get_list_cards board sample_cfg (u "L1") [])
                    <> Ok entry).
Proof.
  cbv zeta. split; [reflexivity|]. split; [reflexivity|discriminate].
Qed.

Lemma get_list_cards_readable_witness :
  get_list_cards rejecting sample_cfg (u "L4") []
  = (Ok None,
     [Sent (list_cards_request sample_cfg (u "L4")) 500%Z;
      Printed (u "Could not get list of done tickets")])
  /\ get_list_cards (serving sample_cards) sample_cfg (u "L4") []
     = (Ok (Some sample_done),
        [Sent (list_cards_request sample_cfg (u "L4")) 200%Z])
  /\ get_list_cards (serving [mk_card "c5" "  "]) sample_cfg (u "L4") []
     = (Raise IndexError,
        [Sent (list_cards_request sample_cfg (u "L4")) 200%Z]).
Proof.
  split.
  { apply (get_list_cards_readable rejecting sample_cfg (u "L4") []).
    discriminate. }
  split.
  { destruct (get_list_cards_readable (serving sample_cards) sample_cfg
                (u "L4") []) as (_ & Hok & _).
    destruct Hok as (ts & Hts & Hrun).
    - reflexivity.
    - repeat (constructor;
              [right; cbn [card_name mk_card];
               apply Exists_cons_hd; reflexivity|]).
      constructor.
    - apply mapr_Forall2 in Hts. vm_compute in Hts.
      injection Hts as <-. exact Hrun. }
  apply (get_list_cards_readable (serving [mk_card "c5" "  "]) sample_cfg
           (u "L4") []).
  - reflexivity.
  - apply Exists_cons_hd. split; [discriminate|].
    repeat (constructor; [reflexivity|]). constructor.
Defined.

(** ** The weekly total and the footer *)

(** C3.  Whenever the Done list is fetched with status 200 and its cards
    parse to tickets, [get_weekly_story_points] returns a total: zero for a
    list without tickets, and for a list [first :: rest] the sum of the
    integers read from the story points of the tickets of [rest], all of
    which read as integers; the ticket at index 0 does not count, whatever
    its story points.  The report, when its body is assembled, ends with the
    footer line ["SP per week: <total>"] showing what [str] gives for that
    total; when [str] raises, for a total of more than 4300 digits, so does
    the report. *)
Theorem weekly_story_points_total
        (remote : list event -> request -> response) (cfg : config)
        (today : Z) (tickets : tickets_dict) (log : list event)
        (ts : list ticket) :
  let req := list_cards_request cfg (DONE_LIST_ID cfg) in
  status_code (remote log req) = 200%Z ->
  Forall2 (fun c t => parse_card_name c = Ok t) (json (remote log req)) ts ->
  exists total : Z,
    get_weekly_story_points remote cfg log
    = (Ok total, log ++ [Sent req 200%Z])
    /\ (ts = [] -> total = 0%Z)
    /\ (forall first rest,
          ts = first :: rest ->
          exists points : list Z,
            Forall2 (fun t v => py_int (story_points t) = Ok v) rest points
            /\ total = fold_right Z.add 0%Z points)
    /\ forall week body template,
         get_week today = Ok week ->
         template_body cfg tickets (dict_keys tickets) = Ok body ->
         list_remove sentinel_line ((week ++ u ":" ++ nl ++ nl) :: body)
         = Ok template ->
         (forall shown,
            py_str total = Ok shown ->
            create_letter_template remote cfg today tickets log
            = (Ok (join (template ++ [u "SP per week: " ++ shown ++ nl])),
               log ++ [Sent req 200%Z]))
         /\ (forall e,
               py_str total = Raise e ->
               create_letter_template remote cfg today tickets log
               = (Raise e, log ++ [Sent req 200%Z])).
Proof.
  cbv zeta. intros Hstatus Hparse.
  apply mapr_Forall2 in Hparse.
  destruct (parsed_points_total _ Hparse) as [all_points Hall].
  assert (Hpoints : Forall2 (fun t v => py_int (story_points t) = Ok v)
                      (tl ts) (tl all_points))
    by (apply Forall2_tl; assumption).
  exists (fold_right Z.add 0%Z (tl all_points)).
  assert (Htotal : get_weekly_story_points remote cfg log
                   = (Ok (fold_right Z.add 0%Z (tl all_points)),
                      log ++ [Sent (list_cards_request cfg (DONE_LIST_ID cfg))
                                   200%Z])).
  { rewrite get_weekly_story_points_unfold.
    destruct (get_list_cards_cases remote cfg (DONE_LIST_ID cfg) log)
      as [[Hs _]|[_ [(ts' & Hts' & Hrun)|[Hblank _]]]].
    - contradiction.
    - rewrite Hparse in Hts'. injection Hts' as <-. rewrite Hrun.
      cbn [iter_tickets]. apply mapr_Forall2 in Hpoints.
      unfold from1. rewrite Hpoints. reflexivity.
    - rewrite (mapr_parse_blank _ Hblank) in Hparse. discriminate. }
  split; [exact Htotal|]. split; [|split].
  - intros ->. inversion Hall. reflexivity.
  - intros first rest ->. exists (tl all_points). split; [exact Hpoints|].
    reflexivity.
  - intros week body template Hweek Hbody Hremove.
    rewrite create_letter_template_run, Hweek, Hbody, Hremove, Htotal.
    split.
    + intros shown ->. reflexivity.
    + intros e ->. reflexivity.
Qed.

Lemma weekly_story_points_total_witness :
  get_weekly_story_points (serving weighted_cards) sample_cfg []
  = (Ok 10%Z, [Sent (list_cards_request sample_cfg (u "L4")) 200%Z])
  /\ get_weekly_story_points (serving sample_cards) sample_cfg []
     = (Ok 10%Z, [Sent (list_cards_request sample_cfg (u "L4")) 200%Z])
  /\ create_letter_template (serving sample_cards) sample_cfg 739196%Z
       sample_tickets []
     = (Ok (join ([week_word ++ u " 04.11.2024 - 08.11.2024:" ++ nl ++ nl;
                   u "In progress:" ++ nl;
                   sample_line "T-1" "8";
                   u "Waiting for customer:" ++ nl;
                   u "Testing:" ++ nl;
                   u "Done:" ++ nl;
                   sample_line "T-2" "3"; sample_line "T-3" "5";
                   sample_line "T-4" "2"]
                  ++ [u "SP per week: 10" ++ nl])),
        [Sent (list_cards_request sample_cfg (u "L4")) 200%Z]).
Proof.
  assert (Hsum : forall (ts : list ticket) (points : list Z) (total : Z),
             Forall2 (fun t v => py_int (story_points t) = Ok v) ts points ->
             total = fold_right Z.add 0%Z points ->
             forall known,
               mapr (fun t => py_int (story_points t)) ts = Ok known ->
               total = fold_right Z.add 0%Z known).
  { intros ts points total Hpoints -> known Hknown.
    apply mapr_Forall2 in Hpoints. rewrite Hpoints in Hknown.
    now injection Hknown as <-. }
  split.
  { destruct (weekly_story_points_total (serving weighted_cards) sample_cfg
                739196%Z sample_tickets []
                [mk_ticket "c0" "All" "7"; mk_ticket "c2" "T-2" "3";
                 mk_ticket "c3" "T-3" "5"; mk_ticket "c4" "T-4" "2"])
      as (total & Hrun & _ & Hrest & _).
    - reflexivity.
    - repeat (constructor; [reflexivity|]). constructor.
    - destruct (Hrest _ _ eq_refl) as (points & Hpoints & Htotal).
      rewrite (Hsum _ _ _ Hpoints Htotal [3; 5; 2]%Z eq_refl) in Hrun.
      exact Hrun. }
  destruct (weekly_story_points_total (serving sample_cards) sample_cfg
              739196%Z sample_tickets [] sample_done)
    as (total & Hrun & _ & Hrest & Hfooter).
  - reflexivity.
  - repeat (constructor; [reflexivity|]). constructor.
  - destruct (Hrest _ _ eq_refl) as (points & Hpoints & Htotal).
    rewrite (Hsum _ _ _ Hpoints Htotal [3; 5; 2]%Z eq_refl) in Hrun, Hfooter.
    split; [exact Hrun|].
    refine (proj1 (Hfooter
                     (week_word ++ u " 04.11.2024 - 08.11.2024")
                     _
                     [week_word ++ u " 04.11.2024 - 08.11.2024:" ++ nl ++ nl;
                      u "In progress:" ++ nl;
                      sample_line "T-1" "8";
                      u "Waiting for customer:" ++ nl;
                      u "Testing:" ++ nl;
                      u "Done:" ++ nl;
                      sample_line "T-2" "3"; sample_line "T-3" "5";
                      sample_line "T-4" "2"]
                     eq_refl eq_refl eq_refl) (u "10") eq_refl).
Defined.

(** ** The status of a move *)

Lemma label_has_token (t : ticket) :
  Exists (fun ch => isspace ch = false) (label t).
Proof.
  unfold label. apply Exists_app. right.
  apply Exists_cons_tl. apply Exists_cons_hd. reflexivity.
Qed.

Lemma has_token_split (s : str) :
  Exists (fun ch => isspace ch = false) s ->
  exists first rest, py_split s = first :: rest.
Proof.
  intros H. pose proof (split_from_some [] H) as Hne. fold (py_split s) in Hne.
  destruct (py_split s) as [|first rest]; [now elim Hne|eauto].
Qed.

Lemma split_first_has_token (s first : str) (rest : list str) :
  py_split s = first :: rest -> Exists (fun ch => isspace ch = false) first.
Proof.
  intros Hsplit. pose proof (split_tokens s) as Htok. rewrite Hsplit in Htok.
  inversion Htok as [|? ? [Hne Hns] _]; subst.
  destruct first as [|ch first]; [now elim Hne|].
  apply Exists_cons_hd. now inversion Hns.
Qed.

(** The name under which a card is moved holds a token when the given name
    does. *)
Lemma move_card_name_has_token (tickets : tickets_dict)
      (full_card_name : str) :
  complete tickets ->
  Exists (fun ch => isspace ch = false) full_card_name ->
  exists name,
    move_card_name tickets full_card_name = Ok name
    /\ Exists (fun ch => isspace ch = false) name.
Proof.
  intros Hc Htoken. unfold move_card_name.
  destruct (get_card_id_complete full_card_name Hc) as [cid Hcid].
  rewrite Hcid. cbn [rbind].
  destruct cid as [|x cid]; cbn [is_empty negb].
  - destruct (has_token_split _ Htoken) as (first & rest & Hsplit).
    rewrite Hsplit, getitem_first. exists first.
    split; [reflexivity|]. exact (split_first_has_token _ _ _ Hsplit).
  - destruct (chain_find_complete
                (fun c => str_eqb (ticket_id c) (x :: cid)) Hc) as [hit Hhit].
    unfold complete in Hc. rewrite Hhit. cbn [rbind].
    destruct hit as [c|].
    + exists (label c). split; [reflexivity|apply label_has_token].
    + exists full_card_name. split; [reflexivity|exact Htoken].
Qed.

(** C5, amended.  For every snapshot without a missing list and every card
    name that holds a token, [move_card] resolves the card and sends the
    delete request.  When that request is answered with a status other than
    200, no create request is sent and 400 is returned.  When it is answered
    200, the create request is sent: 200 is returned when that one is
    answered 200 too, and 400 otherwise.  So 200 is returned exactly when
    both requests were answered 200, and the failing status is never
    returned. *)
Theorem move_card_status
        (remote : list event -> request -> response) (cfg : config)
        (tickets : tickets_dict) (full_card_name list_name : str)
        (log : list event) :
  complete tickets ->
  Exists (fun ch => isspace ch = false) full_card_name ->
  exists name cid : str,
    move_card_name tickets full_card_name = Ok name
    /\ resolve_card_id tickets name = Ok cid
    /\ let deleted := status_code (remote log (delete_request cfg cid)) in
       let log1 := log ++ [Sent (delete_request cfg cid) deleted] in
       let creq := create_request cfg (get_list_id cfg list_name) name in
       let created := status_code (remote log1 creq) in
       let outcome :=
         move_card remote cfg tickets full_card_name list_name log in
       (deleted <> 200%Z /\ outcome = (Ok 400%Z, log1))
       \/ (deleted = 200%Z /\ created <> 200%Z
           /\ outcome = (Ok 400%Z, log1 ++ [Sent creq created]))
       \/ (deleted = 200%Z /\ created = 200%Z
           /\ outcome = (Ok 200%Z, log1 ++ [Sent creq created])).
Proof.
  intros Hc Htoken.
  destruct (move_card_name_has_token tickets full_card_name Hc Htoken)
    as (name & Hname & Hnametoken).
  destruct (has_token_split _ Hnametoken) as (first & rest & Hsplit).
  destruct (@resolve_card_id_token tickets name first rest Hc Hsplit)
    as [cid Hcid].
  exists name, cid. split; [exact Hname|]. split; [exact Hcid|].
  cbv zeta. rewrite move_card_run, Hname, delete_card_run, Hcid.
  cbv beta iota zeta. rewrite create_card_run. cbv beta iota zeta.
  set (deleted := status_code (remote log (delete_request cfg cid))).
  set (log1 := log ++ [Sent (delete_request cfg cid) deleted]).
  set (created :=
         status_code
           (remote log1 (create_request cfg (get_list_id cfg list_name) name))).
  destruct (Z.eqb_spec deleted 200) as [Hd|Hd].
  - right. destruct (Z.eqb_spec created 200) as [Hcr|Hcr].
    + right. split; [assumption|]. split; [assumption|reflexivity].
    + left. split; [assumption|]. split; [assumption|reflexivity].
  - left. split; [assumption|reflexivity].
Qed.

(** On a name made of one blank no card is resolved, and in a snapshot
    with a missing list the search for the card stops at that list:
    [move_card] raises, before any request, and returns neither 200 nor
    400. *)
Lemma move_card_blank_counterexample :
  complete sample_tickets
  /\ move_card accepting sample_cfg sample_tickets (u " ") (u "Done") []
     = (Raise IndexError, [])
  /\ (forall status,
        fst (move_card accepting sample_cfg sample_tickets (u " ") (u "Done")
               [])
        <> Ok status)
  /\ move_card accepting sample_cfg testing_missing (u "T-3") (u "Testing") []
     = (Raise TypeError, [])
  /\ (forall status,
        fst (move_card accepting sample_cfg testing_missing (u "T-3")
               (u "Testing") [])
        <> Ok status).
Proof.
  split; [exact sample_tickets_complete|].
  split; [reflexivity|]. split; [discriminate|].
  split; [reflexivity|discriminate].
Qed.

Lemma move_card_status_witness :
  move_card accepting sample_cfg sample_tickets (u "T-3") (u "Testing") []
  = (Ok 200%Z,
     [Sent (delete_request sample_cfg (u "c3")) 200%Z;
      Sent (create_request sample_cfg (u "L3") (u "T-3 - 5")) 200%Z])
  /\ move_card deleting_only sample_cfg sample_tickets (u "T-3") (u "Testing")
       []
     = (Ok 400%Z,
        [Sent (delete_request sample_cfg (u "c3")) 200%Z;
         Sent (create_request sample_cfg (u "L3") (u "T-3 - 5")) 503%Z])
  /\ move_card rejecting sample_cfg sample_tickets (u "T-3") (u "Testing") []
     = (Ok 400%Z, [Sent (delete_request sample_cfg (u "c3")) 500%Z]).
Proof.
  assert (Htoken : Exists (fun ch => isspace ch = false) (u "T-3"))
    by (apply Exists_cons_hd; reflexivity).
  assert (Hpin : forall name cid,
             move_card_name sample_tickets (u "T-3") = Ok name ->
             resolve_card_id sample_tickets name = Ok cid ->
             name = u "T-3 - 5" /\ cid = u "c3").
  { intros name cid Hname Hcid.
    assert (Hknown : move_card_name sample_tickets (u "T-3")
                     = Ok (u "T-3 - 5")) by reflexivity.
    assert (Hn : name = u "T-3 - 5") by congruence.
    subst name.
    assert (Hfound : resolve_card_id sample_tickets (u "T-3 - 5")
                     = Ok (u "c3")) by reflexivity.
    split; congruence. }
  split.
  { destruct (move_card_status accepting sample_cfg sample_tickets (u "T-3")
                (u "Testing") [] sample_tickets_complete Htoken)
      as (name & cid & Hname & Hcid & Hcases).
    destruct (Hpin name cid Hname Hcid) as [-> ->].
    destruct Hcases as [[Hd _]|[(_ & Hcr & _)|(_ & _ & Hrun)]].
    - now elim Hd.
    - now elim Hcr.
    - exact Hrun. }
  split.
  { destruct (move_card_status deleting_only sample_cfg sample_tickets
                (u "T-3") (u "Testing") [] sample_tickets_complete Htoken)
      as (name & cid & Hname & Hcid & Hcases).
    destruct (Hpin name cid Hname Hcid) as [-> ->].
    destruct Hcases as [[Hd _]|[(_ & _ & Hrun)|(_ & Hcr & _)]].
    - now elim Hd.
    - exact Hrun.
    - discriminate Hcr. }
  destruct (move_card_status rejecting sample_cfg sample_tickets (u "T-3")
              (u "Testing") [] sample_tickets_complete Htoken)
    as (name & cid & Hname & Hcid & Hcases).
  destruct (Hpin name cid Hname Hcid) as [-> ->].
  destruct Hcases as [[_ Hrun]|[(Hd & _)|(Hd & _)]].
  - exact Hrun.
  - discriminate Hd.
  - discriminate Hd.
Defined.

(** ** The label of a moved card *)

Lemma sample_tickets_ids : ids_identify sample_tickets.
Proof.
  intros a b Ha Hb Heq _.
  cbn in Ha, Hb.
  repeat (destruct Ha as [<-|Ha]; [|]); try contradiction;
    repeat (destruct Hb as [<-|Hb]; [|]); try contradiction;
    try reflexivity; discriminate Heq.
Qed.

(** The id a label resolves to is the id found under the ticket's name. *)
Lemma resolve_label (tickets : tickets_dict) (t : ticket) :
  parsed tickets -> complete tickets ->
  In t (all_tickets tickets) -> ticket_id t <> [] ->
  resolve_card_id tickets (label t) = get_card_id tickets (ticket_name t).
Proof.
  intros Hparsed Hc Hin Hid.
  unfold parsed in Hparsed. rewrite Forall_forall in Hparsed.
  destruct (Hparsed t Hin) as [c Hparse].
  destruct (parsed_ticket_shape c Hparse Hid) as (Hname & Hpoints & _).
  assert (Hsplit : py_split (label t)
                   = [ticket_name t; u "-"; story_points t])
    by (unfold label; now apply split_label).
  destruct (several_tokens_resolve tickets _ _ _ _
              (proj2 (Forall_forall _ _) Hparsed) Hc Hsplit)
    as (_ & Hres & Htok).
  rewrite Hres. now apply first_token_resolves.
Qed.

(** C6.  In a snapshot made of parsed tickets, whenever the id of the card
    to move is resolved from the snapshot, the name under which [move_card]
    deletes the card and creates it again is the label
    ["<name> - <story points>"] of the snapshot ticket with that id, and
    [parse_card_name] reads a card with that label back to the same name and
    the same story points; where ids identify tickets, that ticket is the
    one the given name resolved to.  When no list of the snapshot is
    missing, [move_card] sends the delete request for the card found under
    the ticket's name (the resolved card itself where ids identify tickets)
    and, once that request is answered 200, the POST request that creates a
    card in the target list with the label as its name; after a rejected
    deletion nothing more is sent. *)
Theorem move_card_keeps_story_points
        (remote : list event -> request -> response) (cfg : config)
        (tickets : tickets_dict) (full_card_name cid : str) :
  parsed tickets ->
  get_card_id tickets full_card_name = Ok cid -> cid <> [] ->
  exists t,
    In t (all_tickets tickets)
    /\ ticket_id t = cid
    /\ move_card_name tickets full_card_name = Ok (label t)
    /\ (forall new_id,
          parse_card_name {| card_id := new_id; card_name := label t |}
          = Ok {| ticket_id := new_id;
                  ticket_name := ticket_name t;
                  story_points := story_points t |})
    /\ (ids_identify tickets -> ticket_name t = full_card_name)
    /\ (complete tickets ->
        exists cid',
          get_card_id tickets (ticket_name t) = Ok cid'
          /\ (ids_identify tickets -> cid' = cid)
          /\ forall list_name log,
               let del := delete_request cfg cid' in
               let deleted := status_code (remote log del) in
               let log1 := log ++ [Sent del deleted] in
               let creq :=
                 create_request cfg (get_list_id cfg list_name) (label t) in
               let created := status_code (remote log1 creq) in
               meth creq = POST
               /\ data creq = Some (u "name", label t)
               /\ (deleted = 200%Z ->
                   snd (move_card remote cfg tickets full_card_name list_name
                          log)
                   = log1 ++ [Sent creq created])
               /\ (deleted <> 200%Z ->
                   snd (move_card remote cfg tickets full_card_name list_name
                          log)
                   = log1)).
Proof.
  intros Hparsed Hcid Hne.
  unfold get_card_id in Hcid.
  destruct (chain_find (fun c => str_eqb (ticket_name c) full_card_name)
              (dict_values tickets)) as [[t0|]|e] eqn:Hbyname;
    cbn [rbind] in Hcid; try congruence.
  injection Hcid as Hid0.
  destruct (chain_find_hit _ _ Hbyname) as [Hname0 Hin0].
  apply str_eqb_eq in Hname0.
  destruct (@chain_find_other
              (fun c => str_eqb (ticket_name c) full_card_name)
              (fun c => str_eqb (ticket_id c) cid) _ t0 Hbyname)
    as [t Hbyid].
  { apply str_eqb_eq. assumption. }
  destruct (chain_find_hit _ _ Hbyid) as [Hidt Hin].
  apply str_eqb_eq in Hidt.
  assert (Hlabel : move_card_name tickets full_card_name = Ok (label t)).
  { unfold move_card_name, get_card_id. rewrite Hbyname. cbn [rbind].
    rewrite Hid0. destruct cid as [|x cid]; [congruence|].
    cbn [is_empty negb]. rewrite Hbyid. reflexivity. }
  assert (Hsame : ids_identify tickets -> ticket_name t = full_card_name).
  { intros Hunique. assert (t = t0) as ->; [|assumption].
    apply Hunique; try assumption; congruence. }
  exists t. split; [assumption|]. split; [assumption|].
  split; [assumption|]. split; [|split; [exact Hsame|]].
  - intros new_id.
    pose proof Hparsed as Hall.
    unfold parsed in Hall. rewrite Forall_forall in Hall.
    destruct (Hall t Hin) as [c Hc].
    destruct (parsed_ticket_shape c Hc) as (Hn & Hp & v & Hv);
      [congruence|].
    now apply parse_label with (v := v).
  - intros Hcomplete.
    destruct (get_card_id_complete (ticket_name t) Hcomplete) as [cid' Hcid'].
    exists cid'. split; [exact Hcid'|]. split.
    + intros Hunique. rewrite (Hsame Hunique) in Hcid'.
      unfold get_card_id in Hcid'. rewrite Hbyname in Hcid'.
      cbn [rbind] in Hcid'. congruence.
    + intros list_name log. cbv zeta.
      split; [reflexivity|]. split; [reflexivity|].
      assert (Hres : resolve_card_id tickets (label t) = Ok cid').
      { rewrite resolve_label; try assumption. congruence. }
      rewrite move_card_run, Hlabel, delete_card_run, Hres.
      cbv beta iota zeta. rewrite create_card_run. cbv beta iota zeta.
      split.
      * intros Hd. rewrite Hd. cbn [Z.eqb Pos.eqb].
        match goal with
        | |- context [(?x =? 200)%Z] => destruct (x =? 200)%Z
        end; reflexivity.
      * intros Hd. apply Z.eqb_neq in Hd. rewrite Hd. reflexivity.
Qed.

Lemma move_card_keeps_story_points_witness :
  parsed sample_tickets /\ ids_identify sample_tickets
  /\ complete sample_tickets
  /\ get_card_id sample_tickets (u "T-3") = Ok (u "c3")
  /\ move_card_name sample_tickets (u "T-3") = Ok (u "T-3 - 5")
  /\ snd (move_card accepting sample_cfg sample_tickets (u "T-3")
            (u "Testing") [])
     = [Sent (delete_request sample_cfg (u "c3")) 200%Z;
        Sent {| meth := POST;
                url := u "https://api.trello.com/1/lists/L3/cards?"
                       ++ CREDENTIALS sample_cfg;
                data := Some (u "name", u "T-3 - 5") |} 200%Z]
  /\ snd (move_card rejecting sample_cfg sample_tickets (u "T-3")
            (u "Testing") [])
     = [Sent (delete_request sample_cfg (u "c3")) 500%Z]
  /\ parse_card_name {| card_id := u "n1"; card_name := u "T-3 - 5" |}
     = Ok (mk_ticket "n1" "T-3" "5").
Proof.
  split; [exact sample_tickets_parsed|].
  split; [exact sample_tickets_ids|].
  split; [exact sample_tickets_complete|].
  split; [reflexivity|].
  assert (Hpin : forall t cid',
             In t (all_tickets sample_tickets) -> ticket_id t = u "c3" ->
             get_card_id sample_tickets (ticket_name t) = Ok cid' ->
             t = mk_ticket "c3" "T-3" "5" /\ cid' = u "c3").
  { intros t cid' Hin Hid Hcid'.
    assert (Ht : t = mk_ticket "c3" "T-3" "5").
    { cbn in Hin.
      repeat (destruct Hin as [<-|Hin]; [try discriminate Hid|]);
        try reflexivity; contradiction. }
    subst t. split; [reflexivity|].
    assert (Hfound : get_card_id sample_tickets (u "T-3") = Ok (u "c3"))
      by reflexivity.
    change (ticket_name (mk_ticket "c3" "T-3" "5")) with (u "T-3") in Hcid'.
    congruence. }
  destruct (move_card_keeps_story_points accepting sample_cfg sample_tickets
              (u "T-3") (u "c3") sample_tickets_parsed eq_refl)
    as (t & Hin & Hid & Hlabel & Hparse & _ & Hmove); [discriminate|].
  destruct (Hmove sample_tickets_complete) as (cid' & Hcid' & _ & Hsent).
  destruct (Hpin t cid' Hin Hid Hcid') as [-> ->].
  split; [exact Hlabel|].
  split.
  { destruct (Hsent (u "Testing") []) as (_ & _ & Hok & _).
    exact (Hok eq_refl). }
  split.
  { destruct (move_card_keeps_story_points rejecting sample_cfg
                sample_tickets (u "T-3") (u "c3") sample_tickets_parsed
                eq_refl)
      as (t' & Hin' & Hid' & _ & _ & _ & Hmove'); [discriminate|].
    destruct (Hmove' sample_tickets_complete) as (cid2 & Hcid2 & _ & Hsent').
    destruct (Hpin t' cid2 Hin' Hid' Hcid2) as [-> ->].
    destruct (Hsent' (u "Testing") []) as (_ & _ & _ & Hrejected).
    apply Hrejected. discriminate. }
  exact (Hparse (u "n1")).
Defined.
